(** * TDS data extraction tool: a shallow embedding of [UI.py]

    The four parsers of the tool ([extract_details_from_pdf],
    [extract_table_from_pdf], [parse_hdfc_bank_text],
    [parse_income_tax_text]), the per-document dispatch of the main loop and
    the row-wise concatenation of the frames it collects.

    Python strings are sequences of Unicode code points, so a text is a list
    of code points.  What the PDF decoders hand over (page texts, table
    matrices, or an exception) is the input of the model.  Exceptions are
    values of an error monad. *)

From Stdlib Require Import List NArith ZArith Bool Lia Ascii.
From Stdlib Require String.
Import ListNotations String.StringSyntax.

Set Implicit Arguments.
Delimit Scope string_scope with string.

(** ** Text *)

Definition char := N.
Definition text := list char.

(** An ASCII literal of the source, code point by code point. *)
Definition str (s : String.string) : text :=
  map N_of_ascii (String.list_ascii_of_string s).
Arguments str s%_string.

(** U+20B9, the rupee sign of the headers and of the tax breakup lines. *)
Definition rupee : char := 8377%N.

Definition char_eqb (a b : char) : bool := N.eqb a b.

Fixpoint text_eqb (a b : text) : bool :=
  match a, b with
  | [], [] => true
  | x :: a', y :: b' => char_eqb x y && text_eqb a' b'
  | _, _ => false
  end.

(** [str.isspace] of a single code point: the characters the runtime
    classifies as whitespace, which [strip], [split()] and [\s] share. *)
Definition is_space (c : char) : bool :=
  ((9 <=? c) && (c <=? 13) || (28 <=? c) && (c <=? 32)
   || (c =? 133) || (c =? 160) || (c =? 5760)
   || (8192 <=? c) && (c <=? 8202)
   || (c =? 8232) || (c =? 8233) || (c =? 8239) || (c =? 8287)
   || (c =? 12288))%N.

(** ** Exceptions *)

Inductive exn :=
| IndexError                    (* list index out of range *)
| ValueError (msg : text)
| TypeError (msg : text)
| KeyError (labels : list text)
| DecoderError (msg : text).    (* whatever pdfplumber or PyPDF2 raise *)

Inductive result (A : Type) :=
| Ok (a : A)
| Raise (e : exn).
Arguments Ok {A} a.
Arguments Raise {A} e.

Definition bind {A B} (r : result A) (k : A -> result B) : result B :=
  match r with
  | Ok a => k a
  | Raise e => Raise e
  end.

(** [try: r except Exception as e: h e] *)
Definition try_except {A} (r : result A) (h : exn -> result A) : result A :=
  match r with
  | Ok a => Ok a
  | Raise e => h e
  end.

Declare Scope py_scope.
Delimit Scope py_scope with py.
Notation "x <- r ;; k" := (bind r (fun x => k))
  (at level 61, r at next level, right associativity) : py_scope.
Open Scope py_scope.

Definition raises {A} (r : result A) : Prop := exists e, r = Raise e.
Definition returns {A} (r : result A) : Prop := exists a, r = Ok a.

(** ** Sequence operations of the runtime *)

(** [l[i]] with Python's negative indices. *)
Definition index {A} (l : list A) (i : Z) : result A :=
  let n := Z.of_nat (length l) in
  let j := (if i <? 0 then n + i else i)%Z in
  if ((0 <=? j) && (j <? n))%Z then
    match nth_error l (Z.to_nat j) with
    | Some a => Ok a
    | None => Raise IndexError
    end
  else Raise IndexError.

Fixpoint startswith (p s : text) : bool :=
  match p, s with
  | [], _ => true
  | a :: p', b :: s' => char_eqb a b && startswith p' s'
  | _ :: _, [] => false
  end.

(** [sub in s] *)
Fixpoint contains (sub s : text) : bool :=
  startswith sub s ||
  match s with
  | [] => false
  | _ :: s' => contains sub s'
  end.

Fixpoint lstrip (s : text) : text :=
  match s with
  | c :: s' => if is_space c then lstrip s' else s
  | [] => []
  end.

Definition rstrip (s : text) : text := rev (lstrip (rev s)).

(** [s.strip()] *)
Definition strip (s : text) : text := lstrip (rstrip s).

(** [s.split(sep)] for a non-empty [sep]: the occurrences of [sep] are taken
    left to right without overlap; [skip] counts the characters of an
    occurrence still to be passed over and [cur] is the piece being built. *)
Fixpoint split_go (sep : text) (skip : nat) (cur : text) (s : text)
  : list text :=
  match s with
  | [] => [cur]
  | c :: s' =>
      match skip with
      | S k => split_go sep k cur s'
      | O =>
          if startswith sep s
          then cur :: split_go sep (length sep - 1) [] s'
          else split_go sep 0 (cur ++ [c]) s'
      end
  end.

Definition split (sep s : text) : list text := split_go sep 0 [] s.

(** [s.split()]: the maximal runs of non-whitespace characters. *)
Fixpoint split_ws_go (cur : text) (s : text) : list text :=
  match s with
  | [] => match cur with [] => [] | _ => [cur] end
  | c :: s' =>
      if is_space c
      then match cur with
           | [] => split_ws_go [] s'
           | _ => cur :: split_ws_go [] s'
           end
      else split_ws_go (cur ++ [c]) s'
  end.

Definition split_ws (s : text) : list text := split_ws_go [] s.

Fixpoint join (sep : text) (l : list text) : text :=
  match l with
  | [] => []
  | [x] => x
  | x :: l' => x ++ sep ++ join sep l'
  end.

(** [s.replace(old, new)] for a non-empty [old]: every occurrence, left to
    right without overlap, which is what rejoining the pieces gives. *)
Definition replace (old new s : text) : text := join new (split old s).

Definition newline : text := [10%N].

(** ** Built-ins of the runtime

    The repository does not contain the Unicode tables behind [\d] and
    [\w], nor the conversions [float], [int] and [repr] of the interpreter;
    the model takes them as an interface.  [py_float] and [py_int] give the
    number a text denotes, or nothing when the interpreter raises
    [ValueError]; [repr s] is the quoted form of [s] that error messages
    embed, and [int_error s] is the message of the [ValueError] that
    [int(s)] raises when it does (the interpreter shortens long literals in
    it and has a message of its own for literals over its digit limit). *)

(** What [float] makes of a literal: the decimal number [mant * 10 ^ exp10]
    it denotes (the binary rounding of the machine number is not modelled),
    an infinity or a NaN. *)
Inductive pyfloat :=
| Dec (neg : bool) (mant : N) (exp10 : Z)
| Inf (neg : bool)
| NaN.

Class Runtime := {
  is_digit : char -> bool;
  is_word : char -> bool;
  repr : text -> text;
  py_float : text -> option pyfloat;
  py_int : text -> option Z;
  int_error : text -> text
}.

(** The interface on plain ASCII text, for running the model on examples:
    ASCII digits and word characters, and numbers written as an optional
    sign, digits and an optional fractional part. *)
Definition ascii_digit (c : char) : bool := ((48 <=? c) && (c <=? 57))%N.

Definition ascii_word (c : char) : bool :=
  ((48 <=? c) && (c <=? 57) || (65 <=? c) && (c <=? 90)
   || (97 <=? c) && (c <=? 122) || (c =? 95))%N.

Definition ascii_repr (s : text) : text := str "'" ++ s ++ str "'".

(** The number written by a run of ASCII digits after [acc]. *)
Fixpoint digits_value (acc : N) (s : text) : option N :=
  match s with
  | [] => Some acc
  | c :: s' =>
      if ascii_digit c then digits_value (10 * acc + (c - 48))%N s' else None
  end.

Definition unsigned_part (s : text) : bool * text :=
  match s with
  | 45%N :: s' => (true, s')
  | 43%N :: s' => (false, s')
  | _ => (false, s)
  end.

(** The interpreter's limit on the digits of a decimal literal. *)
Definition max_str_digits : nat := 4300.

Definition ascii_int (s : text) : option Z :=
  let '(neg, body) := unsigned_part (strip s) in
  match body with
  | [] => None
  | _ =>
      if max_str_digits <? length body then None
      else
        match digits_value 0 body with
        | Some n => Some (if neg then - Z.of_N n else Z.of_N n)%Z
        | None => None
        end
  end.

(** A number in decimal digits. *)
Fixpoint decimal_go (fuel : nat) (n : N) (acc : text) : text :=
  match fuel with
  | O => acc
  | S fuel' =>
      let acc' := (48 + n mod 10)%N :: acc in
      if (n <? 10)%N then acc' else decimal_go fuel' (n / 10)%N acc'
  end.

Definition decimal (n : nat) : text := decimal_go (S n) (N.of_nat n) [].

(** The message of [int]'s [ValueError]: the literal, quoted and cut to
    200 characters, or the complaint about a run of digits over the
    limit. *)
Definition ascii_int_error (s : text) : text :=
  let body := snd (unsigned_part (strip s)) in
  if (max_str_digits <? length body) && forallb ascii_digit body then
    str "Exceeds the limit (4300 digits) for integer string conversion: value has "
    ++ decimal (length body)
    ++ str " digits; use sys.set_int_max_str_digits() to increase the limit"
  else
    str "invalid literal for int() with base 10: " ++ firstn 200 (ascii_repr s).

Definition ascii_float (s : text) : option pyfloat :=
  let '(neg, body) := unsigned_part (strip s) in
  match split [46%N] body with
  | [whole] =>
      match whole with
      | [] => None
      | _ => option_map (fun n => Dec neg n 0) (digits_value 0 whole)
      end
  | [whole; frac] =>
      match whole ++ frac with
      | [] => None
      | ds => option_map (fun n => Dec neg n (- Z.of_nat (length frac)))
                (digits_value 0 ds)
      end
  | _ => None
  end.

Definition ascii_runtime : Runtime :=
  {| is_digit := ascii_digit; is_word := ascii_word; repr := ascii_repr;
     py_float := ascii_float; py_int := ascii_int; int_error := ascii_int_error |}.

(** ** Regular expressions of [extract_details_from_pdf]

    The four patterns are sequences of single-character items, greedy
    repetitions of a character class and capture-group brackets; the matcher
    below is the backtracking matcher restricted to that shape. *)

Inductive cset :=
| CLit (c : char)      (* a literal character *)
| CLitI (c : char)     (* a literal letter under re.IGNORECASE *)
| CSpace               (* \s *)
| CDigit               (* \d *)
| CWord.               (* \w *)

Inductive atom :=
| One (k : cset)
| Plus (k : cset)      (* k+ *)
| Star (k : cset)      (* k* *)
| GOpen                (* ( *)
| GClose.              (* ) *)

Definition regex := list atom.

(** Case folding for the letters of [Form] and [No], the only ones matched
    without regard to case: no code point outside ASCII folds to one of
    them, so folding the ASCII capitals is all there is to do. *)
Definition ascii_lower (c : char) : char :=
  if ((65 <=? c) && (c <=? 90))%N then (c + 32)%N else c.

(** Groups closed so far, and the text of the group being captured. *)
Record mstate := { closed : list text; opened : option text }.

Definition consume (c : char) (st : mstate) : mstate :=
  {| closed := closed st;
     opened := option_map (fun g => g ++ [c]) (opened st) |}.

Definition open_group (st : mstate) : mstate :=
  {| closed := closed st; opened := Some [] |}.

Definition close_group (st : mstate) : mstate :=
  {| closed := closed st ++ [match opened st with Some g => g | None => [] end];
     opened := None |}.

Definition st0 : mstate := {| closed := []; opened := None |}.

Section Regex.
Context {rt : Runtime}.

Definition in_cset (k : cset) (c : char) : bool :=
  match k with
  | CLit a => char_eqb a c
  | CLitI a => char_eqb (ascii_lower a) (ascii_lower c)
  | CSpace => is_space c
  | CDigit => is_digit c
  | CWord => is_word c
  end.

(** Greedy repetition: take as many characters as the class allows and
    give them back one by one while the continuation [k] fails. *)
Fixpoint star (p : cset) (k : mstate -> text -> option (list text * text))
    (st : mstate) (s : text) : option (list text * text) :=
  match s with
  | c :: s' =>
      if in_cset p c then
        match star p k (consume c st) s' with
        | Some r => Some r
        | None => k st s
        end
      else k st s
  | [] => k st s
  end.

(** A match of [re] starting at the head of the text: the captured groups
    and the text left after the match. *)
Fixpoint match_here (re : regex) : mstate -> text -> option (list text * text) :=
  match re with
  | [] => fun st s => Some (closed st, s)
  | a :: re' =>
      let k := match_here re' in
      match a with
      | One p => fun st s =>
          match s with
          | c :: s' => if in_cset p c then k (consume c st) s' else None
          | [] => None
          end
      | Plus p => fun st s =>
          match s with
          | c :: s' => if in_cset p c then star p k (consume c st) s' else None
          | [] => None
          end
      | Star p => star p k
      | GOpen => fun st s => k (open_group st) s
      | GClose => fun st s => k (close_group st) s
      end
  end.

(** [pattern.search(s)]: the groups of the leftmost match. *)
Fixpoint search (re : regex) (s : text) : option (list text) :=
  match match_here re st0 s with
  | Some (gs, _) => Some gs
  | None =>
      match s with
      | [] => None
      | _ :: s' => search re s'
      end
  end.

(** [m.group(i)] for [i >= 1]. *)
Definition group (gs : list text) (i : nat) : text := nth (i - 1) gs [].

(** [pattern.findall(s)] for a pattern with one group: group 1 of every
    match, left to right without overlap.  [skip] counts the characters of
    the last match still to be passed over. *)
Fixpoint findall_from (re : regex) (skip : nat) (s : text) : list text :=
  match skip with
  | S k =>
      match s with
      | [] => []
      | _ :: s' => findall_from re k s'
      end
  | O =>
      match match_here re st0 s with
      | Some (gs, rest) =>
          group gs 1 ::
          match s with
          | [] => []
          | _ :: s' => findall_from re (length s - length rest - 1) s'
          end
      | None =>
          match s with
          | [] => []
          | _ :: s' => findall_from re 0 s'
          end
      end
  end.

Definition findall (re : regex) (s : text) : list text := findall_from re 0 s.

Definition lit (s : String.string) : regex := map (fun c => One (CLit c)) (str s).
Definition lit_i (s : String.string) : regex := map (fun c => One (CLitI c)) (str s).
Arguments lit s%_string.
Arguments lit_i s%_string.
Definition d2 : regex := [One CDigit; One CDigit].
Definition slash : regex := lit "/".

(** [period\s+(Q\d)] *)
Definition period_pattern : regex :=
  lit "period" ++ [Plus CSpace; GOpen] ++ lit "Q" ++ [One CDigit; GClose].

(** [\(From\s+(\d{2}/\d{2}/\d{2})\s+to\s+(\d{2}/\d{2}/\d{2})] *)
Definition date_range_pattern : regex :=
  lit "(From" ++ [Plus CSpace; GOpen] ++ d2 ++ slash ++ d2 ++ slash ++ d2
  ++ [GClose; Plus CSpace] ++ lit "to" ++ [Plus CSpace; GOpen]
  ++ d2 ++ slash ++ d2 ++ slash ++ d2 ++ [GClose].

(** [Form\s+No\.\s*(\d{2}\w)] compiled with [re.IGNORECASE] *)
Definition form_no_box_pattern : regex :=
  lit_i "Form" ++ [Plus CSpace] ++ lit_i "No" ++ lit "."
  ++ [Star CSpace; GOpen] ++ d2 ++ [One CWord; GClose].

(** [Date:\s*(\d{2}/\d{2}/\d{4})] *)
Definition date_pattern : regex :=
  lit "Date:" ++ [Star CSpace; GOpen] ++ d2 ++ slash ++ d2 ++ slash
  ++ d2 ++ d2 ++ [GClose].
End Regex.

(** ** Values, dictionaries and frames *)

Inductive value :=
| VStr (s : text)
| VFloat (x : pyfloat)
| VInt (z : Z).

(** A cell of a frame; [None] is a missing cell ([None] or NaN). *)
Definition cell := option value.

Definition is_na (c : cell) : bool :=
  match c with None => true | Some _ => false end.

(** A Python [dict] with string keys: keys are unique and keep the order of
    their first insertion. *)
Definition dict (V : Type) := list (text * V).

Fixpoint dict_get {V} (d : dict V) (k : text) : option V :=
  match d with
  | [] => None
  | (k', v) :: d' => if text_eqb k' k then Some v else dict_get d' k
  end.

(** [d[k] = v] *)
Fixpoint dict_set {V} (d : dict V) (k : text) (v : V) : dict V :=
  match d with
  | [] => [(k, v)]
  | (k', v') :: d' =>
      if text_eqb k' k then (k', v) :: d' else (k', v') :: dict_set d' k v
  end.

Definition keys {V} (d : dict V) : list text := map fst d.

(** [dict(zip(ks, vs))] *)
Definition dict_zip {V} (ks : list text) (vs : list V) : dict V :=
  fold_left (fun d kv => dict_set d (fst kv) (snd kv)) (combine ks vs) [].

Definition mem (k : text) (l : list text) : bool := existsb (text_eqb k) l.

(** A [pandas.DataFrame] up to its index: the column labels and the rows,
    every row holding one cell per column. *)
Record DataFrame := { columns : list text; rows : list (list cell) }.

Fixpoint position (k : text) (l : list text) : option nat :=
  match l with
  | [] => None
  | k' :: l' =>
      if text_eqb k' k then Some 0
      else option_map S (position k l')
  end.

(** The cell of [row] under column [c] when the row is laid out along
    [cols]; missing when [cols] has no such column. *)
Definition cell_under (cols : list text) (row : list cell) (c : text) : cell :=
  match position c cols with
  | Some i => nth i row None
  | None => None
  end.

(** The cell of row [i] under column [c]. *)
Definition frame_cell (df : DataFrame) (i : nat) (c : text) : cell :=
  cell_under (columns df) (nth i (rows df) []) c.

Definition reindex (cols : list text) (df : DataFrame) : list (list cell) :=
  map (fun row => map (cell_under (columns df) row) cols) (rows df).

(** Labels of [new] not yet in [acc], appended in the order they come. *)
Definition union_cols (acc new : list text) : list text :=
  fold_left (fun a c => if mem c a then a else a ++ [c]) new acc.

(** [pd.DataFrame({k: [v], ...})] and [pd.DataFrame([d])]: one row. *)
Definition one_row (d : dict cell) : DataFrame :=
  {| columns := keys d; rows := [map snd d] |}.

(** [pd.DataFrame(records)] for a list of dictionaries: the columns are the
    keys in the order they are first seen. *)
Definition DataFrame_of_records (records : list (dict cell)) : DataFrame :=
  let cols := fold_left (fun a d => union_cols a (keys d)) records [] in
  {| columns := cols;
     rows := map (fun d => map (fun c => match dict_get d c with
                                         | Some v => v
                                         | None => None
                                         end) cols) records |}.

(** [df.dropna(subset=subset, how='all')]: a label of [subset] that is not a
    column is a [KeyError]; otherwise the rows whose cells under [subset]
    are all missing go. *)
Definition dropna_all (subset : list text) (df : DataFrame) : result DataFrame :=
  match filter (fun c => negb (mem c (columns df))) subset with
  | [] =>
      Ok {| columns := columns df;
            rows := filter (fun row =>
                      negb (forallb (fun c => is_na (cell_under (columns df) row c))
                              subset))
                      (rows df) |}
  | missing => Raise (KeyError missing)
  end.

(** *** Column types

    A frame stores every column under one dtype.  In the frames of this
    program the dtype can be read off the stored values: texts and missing
    cells are kept as objects, floats as [float64], and integers as [int64]
    when all fit, as [uint64] when all fit that and none is negative, and
    otherwise as objects; an integer stored next to a float or a missing
    cell can only be in a column of objects. *)
Inductive dtype := int64 | uint64 | float64 | object.

Definition dtype_eqb (a b : dtype) : bool :=
  match a, b with
  | int64, int64 | uint64, uint64 | float64, float64 | object, object => true
  | _, _ => false
  end.

Definition is_str (c : cell) : bool :=
  match c with Some (VStr _) => true | _ => false end.

Definition is_float (c : cell) : bool :=
  match c with Some (VFloat _) => true | _ => false end.

Definition is_int (c : cell) : bool :=
  match c with Some (VInt _) => true | _ => false end.

(** The integer of the cell lies in [lo, hi). *)
Definition int_within (lo hi : Z) (c : cell) : bool :=
  match c with
  | Some (VInt z) => ((lo <=? z) && (z <? hi))%Z
  | _ => false
  end.

Definition column_dtype (cells : list cell) : dtype :=
  if existsb is_str cells then object
  else if existsb is_int cells then
    if existsb is_na cells || existsb is_float cells then object
    else if forallb (int_within (- 2 ^ 63) (2 ^ 63)) cells then int64
    else if forallb (int_within 0 (2 ^ 64)) cells then uint64
    else object
  else if existsb is_float cells then float64
  else object.

(** The cells of column [c], top to bottom. *)
Definition column_cells (df : DataFrame) (c : text) : list cell :=
  map (fun row => cell_under (columns df) row c) (rows df).

(** The dtype that holds the values of all the given ones: their own when
    they agree, objects as soon as one of them is, and [float64] for any
    other mixture of numbers, also for [int64] with [uint64]. *)
Definition find_common_type (dtypes : list dtype) : dtype :=
  match dtypes with
  | [] => object
  | d :: rest =>
      if forallb (dtype_eqb d) rest then d
      else if existsb (dtype_eqb object) dtypes then object
      else float64
  end.

Definition ensure_dtype_can_hold_na (d : dtype) : dtype :=
  match d with
  | int64 | uint64 => float64
  | _ => d
  end.

(** The dtype of column [c] in the concatenation of [objs]: the common
    type of the frames that have the column, made to hold missing cells
    when a frame does not have it. *)
Definition concat_dtype (objs : list DataFrame) (c : text) : dtype :=
  let pieces := filter (fun df => mem c (columns df)) objs in
  let d := find_common_type
             (map (fun df => column_dtype (column_cells df c)) pieces) in
  if forallb (fun df => mem c (columns df)) objs then d
  else ensure_dtype_can_hold_na d.

(** The float nearest to an integer: 53 significant bits, ties to the even
    neighbour. *)
Definition float_of_int (z : Z) : pyfloat :=
  let n := Z.abs_N z in
  let bits := N.size n in
  let m :=
    if (bits <=? 53)%N then n
    else
      let sh := (bits - 53)%N in
      let q := N.shiftr n sh in
      let r := N.land n (N.ones sh) in
      let half := N.shiftl 1 (sh - 1) in
      let q' := if (half <? r)%N || ((r =? half)%N && N.odd q)
                then (q + 1)%N else q in
      N.shiftl q' sh in
  Dec (z <? 0)%Z m 0.

(** A stored value moved into a column of dtype [d]: only an integer that
    goes into a [float64] column changes. *)
Definition astype (d : dtype) (x : cell) : cell :=
  match d, x with
  | float64, Some (VInt z) => Some (VFloat (float_of_int z))
  | _, _ => x
  end.

(** A row laid out along [cols], every cell moved into the dtype of its
    column. *)
Definition astype_row (dtypes : text -> dtype) (cols : list text) (row : list cell)
  : list cell :=
  map (fun cx => astype (dtypes (fst cx)) (snd cx)) (combine cols row).

(** [pd.concat(objs, ignore_index=True)] *)
Definition pd_concat (objs : list DataFrame) : result DataFrame :=
  match objs with
  | [] => Raise (ValueError (str "No objects to concatenate"))
  | _ =>
      let cols := fold_left (fun a df => union_cols a (columns df)) objs [] in
      Ok {| columns := cols;
            rows := map (astype_row (concat_dtype objs) cols)
                      (flat_map (reindex cols) objs) |}
  end.

(** ** Decoded documents

    What the decoding libraries give for an uploaded file: [pdfplumber.open]
    and its pages ([extract_text] may return [None]), and the pages of
    [PyPDF2.PdfReader]; each of these calls may raise instead. *)
Definition row := list (option text).
Definition table := list row.

Record page := {
  extract_text : result (option text);
  extract_tables : result (list table)
}.

Record pdf_file := {
  name : text;
  plumber_open : result (list page);
  pypdf_pages : result (list (result text))
}.

Definition not_found : text := str "Not found".

Section Parsers.
Context {rt : Runtime}.

(** [str(e)] *)
Definition str_exn (e : exn) : text :=
  match e with
  | IndexError => str "list index out of range"
  | ValueError m => m
  | TypeError m => m
  | KeyError labels => str "[" ++ join (str ", ") (map repr labels) ++ str "]"
  | DecoderError m => m
  end.

(** [pd.DataFrame({"Error": [str(e)]})] *)
Definition error_frame (e : exn) : DataFrame :=
  one_row [(str "Error", Some (VStr (str_exn e)))].

(** *** extract_details_from_pdf *)

(** The loop [extracted_text += page.extract_text() or ""]. *)
Definition details_text (pages : list page) : result text :=
  fold_left (fun acc p =>
               t <- acc;;
               o <- extract_text p;;
               Ok (t ++ match o with Some x => x | None => [] end))
    pages (Ok []).

Definition period_field (extracted_text : text) : text :=
  match search period_pattern extracted_text with
  | Some m => group m 1
  | None => not_found
  end.

Definition date_range_field (extracted_text : text) : text :=
  match search date_range_pattern extracted_text with
  | Some m => group m 1 ++ str " to " ++ group m 2
  | None => not_found
  end.

Definition form_no_field (extracted_text : text) : result text :=
  let form_no_matches := findall form_no_box_pattern extracted_text in
  if 1 <? length form_no_matches then index form_no_matches 1
  else Ok not_found.

Definition date_field (extracted_text : text) : text :=
  match search date_pattern extracted_text with
  | Some m => group m 1
  | None => not_found
  end.

(** The body of the [try] once the text is there. *)
Definition details_of_text (extracted_text : text) : result DataFrame :=
  let period := period_field extracted_text in
  let date_range := date_range_field extracted_text in
  form_no <- form_no_field extracted_text;;
  let date := date_field extracted_text in
  Ok (one_row [(str "Period", Some (VStr period));
               (str "Date Range", Some (VStr date_range));
               (str "Form No.", Some (VStr form_no));
               (str "Date", Some (VStr date))]).

Definition extract_details_from_pdf (pdf_path : pdf_file) : result DataFrame :=
  try_except
    (pdf <- plumber_open pdf_path;;
     extracted_text <- details_text pdf;;
     details_of_text extracted_text)
    (fun e => Ok (error_frame e)).

(** *** extract_table_from_pdf *)

Definition headers : list text :=
  [str "Sr. No."; str "Return Type"; str "No. of Deductee / Party Records";
   str "Amount Paid (" ++ [rupee] ++ str ")";
   str "Tax Deducted / Collected (" ++ [rupee] ++ str ")";
   str "Tax Deposited (" ++ [rupee] ++ str ")"].

(** The loops over pages, tables and rows that fill [extracted_data]. *)
Definition table_rows (pages : list page) : result (list row) :=
  fold_left (fun acc p =>
               rs <- acc;;
               tables <- extract_tables p;;
               Ok (rs ++ concat tables))
    pages (Ok []).

Definition cell_of (o : option text) : cell := option_map VStr o.

(** The loop that keeps the rows as long as the header. *)
Definition six_column_rows (extracted_data : list row) : list (dict cell) :=
  flat_map (fun r =>
              if length r =? length headers
              then [dict_zip headers (map cell_of r)]
              else [])
    extracted_data.

Definition is_header_row (d : dict cell) : bool :=
  match dict_get d (str "Sr. No.") with
  | Some (Some (VStr s)) => text_eqb s (str "Sr. No.")
  | _ => false
  end.

(** [table_data] after the conditional [pop(0)]. *)
Definition reconcile (extracted_data : list row) : list (dict cell) :=
  let table_data := six_column_rows extracted_data in
  match table_data with
  | first :: rest =>
      if (1 <? length table_data) && is_header_row first then rest
      else table_data
  | [] => table_data
  end.

Definition table_of_rows (extracted_data : list row) : result DataFrame :=
  let table_data := reconcile extracted_data in
  let df := DataFrame_of_records table_data in
  dropna_all headers df.

Definition extract_table_from_pdf (pdf_path : pdf_file) : result DataFrame :=
  try_except
    (pdf <- plumber_open pdf_path;;
     extracted_data <- table_rows pdf;;
     table_of_rows extracted_data)
    (fun e => Ok (error_frame e)).
End Parsers.

(** ** The calls that leave the program

    The table widget [st.dataframe] and the workbook that
    [DataFrame.to_excel] writes through [pd.ExcelWriter] are not in the
    repository; the model takes them as an interface.  Either call can
    raise, and neither is inside a [try].  The other widget calls
    (headings, progress bar, messages, download button) are given constant
    texts, a fraction or the workbook already written. *)
Class Outputs := {
  st_dataframe : DataFrame -> result unit;
  to_excel : DataFrame -> result (list N)
}.

Section Payments.
Context {rt : Runtime} {io : Outputs}.

(** [float(s)] and [int(s)] with the interpreter's [ValueError]. *)
Definition float (s : text) : result pyfloat :=
  match py_float s with
  | Some x => Ok x
  | None => Raise (ValueError (str "could not convert string to float: " ++ repr s))
  end.

Definition int (s : text) : result Z :=
  match py_int s with
  | Some z => Ok z
  | None => Raise (ValueError (int_error s))
  end.

Definition comma : text := str ",".

(** *** process_hdfc_bank *)
Definition process_hdfc_bank (pdf_file : pdf_file) : result text :=
  pdf <- plumber_open pdf_file;;
  fold_left (fun acc p =>
               t <- acc;;
               o <- extract_text p;;
               match o with
               | Some x => Ok (t ++ x ++ newline)
               | None =>
                   Raise (TypeError
                     (str "unsupported operand type(s) for +: 'NoneType' and 'str'"))
               end)
    pdf (Ok []).

(** *** parse_hdfc_bank_text

    The entries of the dictionary display are evaluated in the order they
    are written; the first one that raises ends the call. *)
Definition parse_hdfc_bank_text (raw_text : text) : result (dict value) :=
  let lines := split newline raw_text in
  l12 <- index lines 12;;
  date_of_receipt <- index (split_ws l12) (-1);;
  l7 <- index lines 7;;
  let nature := replace (str "Nature of Payment ") [] (strip l7) in
  l9 <- index lines 9;;
  basic_tax <- float (replace comma [] (strip (replace (str "Basic Tax") [] l9)));;
  l14 <- index lines 14;;
  t14 <- index (split_ws l14) 1;;
  interest <- float (replace comma [] t14);;
  l12' <- index lines 12;;
  t12 <- index (split_ws l12') 1;;
  penalty <- float (replace comma [] t12);;
  l15 <- index lines 15;;
  t15 <- index (split_ws l15) 3;;
  fee <- float (replace comma [] t15);;
  l16 <- index lines 16;;
  before <- index (split (str "Drawn on") l16) 0;;
  total <- float (replace comma [] (strip (replace (str "TOTAL") [] before)));;
  l16' <- index lines 16;;
  after <- index (split (str "Drawn on") l16') (-1);;
  let drawn_on := strip after in
  l19 <- index lines 19;;
  realisation <- index (split_ws l19) (-1);;
  l10 <- index lines 10;;
  t10 <- index (split_ws l10) (-1);;
  challan_no <- int (replace comma [] t10);;
  l13 <- index lines 13;;
  t13 <- index (split_ws l13) (-1);;
  challan_serial <- int (replace comma [] t13);;
  Ok [(str "Date of Receipt", VStr date_of_receipt);
      (str "Nature of Payment", VStr nature);
      (str "Basic Tax", VFloat basic_tax);
      (str "Interest", VFloat interest);
      (str "Penalty", VFloat penalty);
      (str "Fee (Sec. 234E)", VFloat fee);
      (str "TOTAL Amount", VFloat total);
      (str "Drawn on", VStr drawn_on);
      (str "Payment Realisation Date", VStr realisation);
      (str "Challan No", VInt challan_no);
      (str "Challan Serial No.", VInt challan_serial)].

(** *** process_income_tax *)
Definition process_income_tax (pdf_file : pdf_file) : result text :=
  reader <- pypdf_pages pdf_file;;
  fold_left (fun acc p => t <- acc;; x <- p;; Ok (t ++ x)) reader (Ok []).

(** *** parse_income_tax_text *)

(** [line.split(sep)[-1].strip()] *)
Definition after_last (sep line : text) : result text :=
  v <- index (split sep line) (-1);;
  Ok (strip v).

(** One turn of the loop over the lines: the [if]/[elif] chain. *)
Definition income_tax_line (details : dict text) (line : text)
  : result (dict text) :=
  if contains (str "Nature of Payment") line then
    v <- after_last (str ":") line;;
    Ok (dict_set details (str "Nature of Payment") v)
  else if contains (str "Amount (in Rs.)") line then
    v <- after_last (str ":") line;;
    Ok (dict_set details (str "Amount (in Rs.)") v)
  else if contains (str "Challan No") line then
    v <- after_last (str ":") line;;
    Ok (dict_set details (str "Challan No.") v)
  else if contains (str "Tender Date") line then
    tender_date_raw <- index (split (str ":") line) (-1);;
    head <- index (split (str "Tax Breakup Details") tender_date_raw) 0;;
    let tender_date_cleaned := strip head in
    Ok (dict_set details (str "Tender Date") tender_date_cleaned)
  else if startswith (str "DInterest") line then
    v <- after_last [rupee] line;;
    Ok (dict_set details (str "Interest") v)
  else if startswith (str "EPenalty") line then
    v <- after_last [rupee] line;;
    Ok (dict_set details (str "Penalty") v)
  else if startswith (str "FFee under section 234E") line then
    v <- after_last [rupee] line;;
    Ok (dict_set details (str "Fee (Sec. 234E)") v)
  else if startswith (str "Total (A+B+C+D+E+F)") line then
    v <- after_last [rupee] line;;
    Ok (dict_set details (str "TOTAL") v)
  else Ok details.

Fixpoint income_tax_lines (details : dict text) (lines : list text)
  : result (dict text) :=
  match lines with
  | [] => Ok details
  | line :: lines' =>
      details' <- income_tax_line details line;;
      income_tax_lines details' lines'
  end.

Definition parse_income_tax_text (t : text) : result (dict text) :=
  let details := [] in
  let lines := split newline t in
  income_tax_lines details lines.

(** *** The main processing loop *)

(** The body of the [try] up to [combined_df]. *)
Definition process_document (option payment_option : text) (pdf_file : pdf_file)
  : result DataFrame :=
  if text_eqb option (str "TDS Returns") then
    details_df <- extract_details_from_pdf pdf_file;;
    table_df <- extract_table_from_pdf pdf_file;;
    pd_concat [details_df; table_df]
  else if text_eqb option (str "TDS Payments")
          && text_eqb payment_option (str "HDFC Bank") then
    raw_text <- process_hdfc_bank pdf_file;;
    parsed_data <- parse_hdfc_bank_text raw_text;;
    Ok (one_row (map (fun kv => (fst kv, Some (snd kv))) parsed_data))
  else if text_eqb option (str "TDS Payments")
          && text_eqb payment_option (str "Income Tax Department") then
    raw_text <- process_income_tax pdf_file;;
    parsed_data <- parse_income_tax_text raw_text;;
    Ok (one_row (map (fun kv => (fst kv, Some (VStr (snd kv)))) parsed_data))
  else Raise (ValueError (str "Invalid option selected.")).

(** What the loop builds: the frames appended to [extracted_data] and the
    messages shown by [st.error], both in the order they were produced. *)
Record session := { extracted_data : list DataFrame; errors : list text }.

(** [f"Error processing '{pdf_file.name}': {e}"] *)
Definition error_message (pdf_file : pdf_file) (e : exn) : text :=
  str "Error processing '" ++ name pdf_file ++ str "': " ++ str_exn e.

(** One turn of the loop: the [try] and its [except Exception].  The
    progress bar, which is updated after the frame is appended, is left
    out. *)
Definition process_file (option payment_option : text) (st : session)
    (pdf_file : pdf_file) : session :=
  match process_document option payment_option pdf_file with
  | Ok combined_df =>
      {| extracted_data := extracted_data st ++ [combined_df];
         errors := errors st |}
  | Raise e =>
      {| extracted_data := extracted_data st;
         errors := errors st ++ [error_message pdf_file e] |}
  end.

Definition main_loop (option payment_option : text) (uploaded_files : list pdf_file)
  : session :=
  fold_left (process_file option payment_option) uploaded_files
    {| extracted_data := []; errors := [] |}.

(** [final_combined_df], when [extracted_data] is not empty; otherwise the
    warning that no data was extracted. *)
Definition final_combined_df (st : session) : option (result DataFrame) :=
  match extracted_data st with
  | [] => None
  | dfs => Some (pd_concat dfs)
  end.

(** *** save_to_excel *)
Definition save_to_excel (data_frames : list DataFrame) : result (list N) :=
  combined_df <- pd_concat data_frames;;
  to_excel combined_df.
End Payments.

(** *** The page after the loop

    What the page shows once the script has run to its end: the hint to
    upload files, the warning that nothing was extracted, or the table
    together with the workbook offered for download; the messages of
    [st.error] come first.  An exception that leaves the script ends the
    run. *)
Inductive screen :=
| ShowInfo
| ShowWarning (errors : list text)
| ShowData (errors : list text) (final_combined_df : DataFrame)
    (excel_data : list N).

Section Page.
Context {rt : Runtime} {io : Outputs}.

(** [if submit and st.session_state.uploaded_files: ... else: st.info(...)] *)
Definition main_section (submit : bool) (option payment_option : text)
    (uploaded_files : list pdf_file) : result screen :=
  if submit && negb (length uploaded_files =? 0) then
    let st := main_loop option payment_option uploaded_files in
    match extracted_data st with
    | [] => Ok (ShowWarning (errors st))
    | extracted =>
        final_combined_df <- pd_concat extracted;;
        _ <- st_dataframe final_combined_df;;
        excel_data <- save_to_excel [final_combined_df];;
        Ok (ShowData (errors st) final_combined_df excel_data)
    end
  else Ok ShowInfo.
End Page.

(** * Vocabulary of the statements *)

Section Vocabulary.
Context {rt : Runtime}.

(** The pattern [re] matches in [t] starting at offset [i]. *)
Definition matches_at (re : regex) (t : text) (i : nat) : Prop :=
  exists r, match_here re st0 (skipn i t) = Some r.

Definition zero_matches (re : regex) (t : text) : Prop :=
  forall i, ~ matches_at re t i.

(** The text the [try] of [extract_details_from_pdf] gets from the
    decoder, or the exception the decoder raises. *)
Definition decoded_text (pdf_path : pdf_file) : result text :=
  pdf <- plumber_open pdf_path;;
  details_text pdf.

(** The rows the [try] of [extract_table_from_pdf] gets from the decoder. *)
Definition decoded_rows (pdf_path : pdf_file) : result (list row) :=
  pdf <- plumber_open pdf_path;;
  table_rows pdf.

Definition details_schema : list text :=
  [str "Period"; str "Date Range"; str "Form No."; str "Date"].

(** A raw row with exactly six cells. *)
Definition six_cells (r : row) : bool := length r =? 6.

(** The first cell of a raw row is the header label. *)
Definition starts_with_label (r : row) : bool :=
  match r with
  | Some s :: _ => text_eqb s (str "Sr. No.")
  | _ => false
  end.

(** The six-cell rows in their order, without the first of them when it
    starts with the header label and is not the only one. *)
Definition surviving (extracted_data : list row) : list row :=
  match filter six_cells extracted_data with
  | first :: second :: rest =>
      if starts_with_label first then second :: rest
      else first :: second :: rest
  | kept => kept
  end.

(** A raw row zipped position by position into the six-column schema. *)
Definition as_record (r : row) : dict cell := combine headers (map cell_of r).

Definition entirely_empty (r : row) : bool :=
  forallb (fun c => match c with None => true | Some _ => false end) r.

(** The eleven fields of the bank receipt, in the order of the record. *)
Definition hdfc_fields : list text :=
  [str "Date of Receipt"; str "Nature of Payment"; str "Basic Tax";
   str "Interest"; str "Penalty"; str "Fee (Sec. 234E)"; str "TOTAL Amount";
   str "Drawn on"; str "Payment Realisation Date"; str "Challan No";
   str "Challan Serial No."].

(** A whitespace-separated token of a line, when the line and the token are
    there. *)
Definition token (lines : list text) (i : nat) (j : Z) : option text :=
  match nth_error lines i with
  | Some l =>
      match index (split_ws l) j with
      | Ok t => Some t
      | Raise _ => None
      end
  | None => None
  end.

Definition without_commas (s : text) : text := replace (str ",") [] s.

(** The offset table of the five amounts: the field, and the text cut out
    of the lines for it, thousands separators removed (nothing when the
    line or the token is missing). *)
Definition hdfc_amounts (lines : list text) : list (text * option text) :=
  [(str "Basic Tax",
    option_map (fun l => without_commas (strip (replace (str "Basic Tax") [] l)))
      (nth_error lines 9));
   (str "Interest", option_map without_commas (token lines 14 1));
   (str "Penalty", option_map without_commas (token lines 12 1));
   (str "Fee (Sec. 234E)", option_map without_commas (token lines 15 3));
   (str "TOTAL Amount",
    option_map (fun l => without_commas
                           (strip (replace (str "TOTAL") []
                                     (hd [] (split (str "Drawn on") l)))))
      (nth_error lines 16))].

(** The offset table of the two challan numbers. *)
Definition hdfc_numbers (lines : list text) : list (text * option text) :=
  [(str "Challan No", option_map without_commas (token lines 10 (-1)));
   (str "Challan Serial No.", option_map without_commas (token lines 13 (-1)))].

(** The offset table of the four texts. *)
Definition hdfc_texts (lines : list text) : list (text * option text) :=
  [(str "Date of Receipt", token lines 12 (-1));
   (str "Nature of Payment",
    option_map (fun l => replace (str "Nature of Payment ") [] (strip l))
      (nth_error lines 7));
   (str "Drawn on",
    option_map (fun l => strip (last (split (str "Drawn on") l) []))
      (nth_error lines 16));
   (str "Payment Realisation Date", token lines 19 (-1))].

(** The cells of the three offset tables. *)
Definition hdfc_cells (lines : list text) : list (text * option text) :=
  hdfc_texts lines ++ hdfc_amounts lines ++ hdfc_numbers lines.

(** The predicate list of the prefix scanner as the specification words
    it: a test on the line, the field it is bound to, and the rule that
    extracts the value. *)
Inductive label_test :=
| Contains (label : text)       (* the label occurs in the line *)
| StartsWith (marker : text).   (* the line starts with the marker *)

Inductive extraction :=
| AfterLastColon
| AfterLastColonUpTo (section_label : text)
| AfterCurrencyMarker.

Definition predicates : list (label_test * text * extraction) :=
  [(Contains (str "Nature of Payment"), str "Nature of Payment", AfterLastColon);
   (Contains (str "Amount (in Rs.)"), str "Amount (in Rs.)", AfterLastColon);
   (Contains (str "Challan No"), str "Challan No.", AfterLastColon);
   (Contains (str "Tender Date"), str "Tender Date",
    AfterLastColonUpTo (str "Tax Breakup Details"));
   (StartsWith (str "DInterest"), str "Interest", AfterCurrencyMarker);
   (StartsWith (str "EPenalty"), str "Penalty", AfterCurrencyMarker);
   (StartsWith (str "FFee under section 234E"), str "Fee (Sec. 234E)",
    AfterCurrencyMarker);
   (StartsWith (str "Total (A+B+C+D+E+F)"), str "TOTAL", AfterCurrencyMarker)].

Definition holds (p : label_test) (line : text) : bool :=
  match p with
  | Contains label => contains label line
  | StartsWith marker => startswith marker line
  end.

Definition extract (x : extraction) (line : text) : text :=
  match x with
  | AfterLastColon => strip (last (split (str ":") line) [])
  | AfterLastColonUpTo section_label =>
      strip (hd [] (split section_label (last (split (str ":") line) [])))
  | AfterCurrencyMarker => strip (last (split [rupee] line) [])
  end.

(** The field and value of the first predicate that holds of the line. *)
Definition first_match (line : text) : option (text * text) :=
  match find (fun p => holds (fst (fst p)) line) predicates with
  | Some (_, field, x) => Some (field, extract x line)
  | None => None
  end.

(** What a line does to the record: a matching line stores its value under
    its field, any other line leaves the record as it is. *)
Definition store (details : dict text) (line : text) : dict text :=
  match first_match line with
  | Some (field, v) => dict_set details field v
  | None => details
  end.

(** One pass over the lines, top to bottom. *)
Definition scan (lines : list text) : dict text := fold_left store lines [].

Definition income_tax_fields : list text :=
  [str "Nature of Payment"; str "Amount (in Rs.)"; str "Challan No.";
   str "Tender Date"; str "Interest"; str "Penalty"; str "Fee (Sec. 234E)";
   str "TOTAL"].

(** No whitespace at the head of the text. *)
Definition head_ok (s : text) : bool :=
  match s with
  | c :: _ => negb (is_space c)
  | [] => true
  end.

(** No whitespace at either end of the text. *)
Definition trimmed (s : text) : bool := head_ok s && head_ok (rev s).

(** The number of rows of a list of frames. *)
Definition total_rows (objs : list DataFrame) : nat :=
  list_sum (map (fun df => length (rows df)) objs).

(** No cell of the frame stores an integer. *)
Definition without_ints (df : DataFrame) : Prop :=
  forall row x, In row (rows df) -> In x row -> is_int x = false.
End Vocabulary.

(** ** Sample documents *)

Definition no_pdf : result (list (result text)) :=
  Raise (DecoderError (str "EOF marker not found")).

(** A document whose pages carry the given texts and tables. *)
Definition plumber_pdf (n : String.string) (pages : list (text * list table)) : pdf_file :=
  {| name := str n;
     plumber_open :=
       Ok (map (fun p => {| extract_text := Ok (Some (fst p));
                            extract_tables := Ok (snd p) |}) pages);
     pypdf_pages := no_pdf |}.
Arguments plumber_pdf n%_string pages.

(** A file the decoder cannot open. *)
Definition unreadable_pdf : pdf_file :=
  {| name := str "broken.pdf";
     plumber_open := Raise (DecoderError (str "No /Root object! - Is this really a PDF?"));
     pypdf_pages := no_pdf |}.

Definition three_forms : pdf_file :=
  plumber_pdf "three.pdf"
    [(str "Form No. 26Q x FORM  no.24Q ", []); (str "y form No.27A", [])].

Definition one_form : pdf_file :=
  plumber_pdf "one.pdf" [(str "Statement under Form No. 26Q", [])].

Definition blank_pdf : pdf_file :=
  plumber_pdf "blank.pdf" [(str "nothing to see", [])].

Definition header_row : row := map Some headers.

Definition data_row (n : String.string) : row :=
  [Some (str n); Some (str "Regular"); Some (str "12"); Some (str "4,500.00");
   Some (str "450.00"); Some (str "450.00")].
Arguments data_row n%_string.

Definition empty_row : row := [None; None; None; None; None; None].

(** A table that holds its header line and nothing else. *)
Definition header_only_pdf : pdf_file :=
  plumber_pdf "header.pdf" [(str "Form No. 26Q", [[header_row]])].

(** Two pages that both repeat the header, with short, long and empty rows
    in between. *)
Definition two_page_pdf : pdf_file :=
  plumber_pdf "two.pdf"
    [([], [[header_row; data_row "1"; [Some (str "short")]; empty_row]]);
     ([], [[]; [header_row; data_row "2"; data_row "2" ++ [None]]])].

(** A bank receipt of twenty lines laid out as the parser expects. *)
Definition reference_lines : list text :=
  [str "HDFC BANK"; str "Taxpayer Counterfoil"; str "PAN AAAPL1234C";
   str "Received from ACME TRADERS"; str "Cash/Debit to A/c"; str "For Rs. 126707.25";
   str "on account of Income Tax on Companies";
   str "  Nature of Payment 94C ";
   str "Assessment Year 2024-25";
   str "Basic Tax 1,23,456.50";
   str "Challan No 12,345";
   str "Surcharge 0.00";
   str "Penalty 1,000.00 Date 05/01/2024";
   str "Serial 00042";
   str "Interest 250.75";
   str "Fee under 234E 2,000.00";
   str "TOTAL 1,26,707.25 Drawn on HDFC Bank Ltd ";
   str "Rupees one lakh"; str "Debit account";
   str "Realisation 06/01/2024"].

Definition reference_document : text := join newline reference_lines.

(** The same receipt with a letter O in the interest. *)
Definition misprinted_document : text :=
  join newline (firstn 14 reference_lines ++ str "Interest 25O.75"
                :: skipn 15 reference_lines).

(** The same receipt cut after its first ten lines. *)
Definition truncated_document : text := join newline (firstn 10 reference_lines).

(** The same receipt with nothing but blanks on its last line. *)
Definition undated_document : text :=
  join newline (firstn 19 reference_lines ++ [str "   "]).

(** The same receipt with another challan number. *)
Definition numbered_lines (challan_no : String.string) : list text :=
  firstn 10 reference_lines ++ (str "Challan No " ++ str challan_no)
  :: skipn 11 reference_lines.
Arguments numbered_lines challan_no%_string.

(** A table widget and a workbook writer that take every table, and a
    table widget that takes none. *)
Definition accepting_outputs : Outputs :=
  {| st_dataframe := fun _ => Ok tt;
     to_excel := fun df => Ok [N.of_nat (length (rows df))] |}.

Definition refusing_outputs : Outputs :=
  {| st_dataframe := fun _ => Raise (ValueError (str "Could not convert the table"));
     to_excel := fun df => Ok [N.of_nat (length (rows df))] |}.

(** A bank receipt as [pdfplumber] delivers it, on one page. *)
Definition receipt_pdf (n : String.string) (lines : list text) : pdf_file :=
  plumber_pdf n [(join newline lines, [])].
Arguments receipt_pdf n%_string lines.

(** The lines of a tax department challan. *)
Definition challan_lines : list text :=
  [str "Nature of Payment: 94C"; str "Income Tax Department";
   str "Challan No: 00042 Amount (in Rs.): 1,500  ";
   str "Tender Date : 05/01/2024 Tax Breakup Details (Amount In " ++ [rupee] ++ str ")";
   str "DInterest  " ++ [rupee] ++ str " 250";
   str "Nature of Payment:  TDS on Salary "; str ""].

Definition challan_pdf : pdf_file :=
  {| name := str "challan.pdf";
     plumber_open := Raise (DecoderError (str "not opened"));
     pypdf_pages := Ok [Ok (join newline (firstn 3 challan_lines) ++ newline);
                        Ok (join newline (skipn 3 challan_lines))] |}.

(** A one-page return with its field record and a two-line table. *)
Definition return_pdf : pdf_file :=
  plumber_pdf "return.pdf"
    [(str "for the period Q3 (From 01/10/23 to 31/12/23) Form No. 26Q Form No. 26Q Date: 15/01/2024",
      [[header_row; data_row "1"; data_row "2"]])].

(** Three returns of which the second cannot be opened. *)
Definition returns_batch : list pdf_file := [return_pdf; unreadable_pdf; return_pdf].

(** A document without any table. *)
Definition no_table_pdf : pdf_file :=
  plumber_pdf "text.pdf" [(str "period Q3", [])].

(** ** What a pattern captures *)

(** The character classes a pattern writes inside each of its groups, for a
    pattern whose groups hold single-character items only; [done] are the
    groups closed so far and [cur] the one being read. *)
Fixpoint group_classes (re : regex) (done : list (list cset)) (cur : option (list cset))
  : option (list (list cset)) :=
  match re with
  | [] => match cur with None => Some done | Some _ => None end
  | One k :: re' => group_classes re' done (option_map (fun ks => ks ++ [k]) cur)
  | Plus _ :: re' | Star _ :: re' =>
      match cur with
      | None => group_classes re' done None
      | Some _ => None
      end
  | GOpen :: re' =>
      match cur with
      | None => group_classes re' done (Some [])
      | Some _ => None
      end
  | GClose :: re' =>
      match cur with
      | Some ks => group_classes re' (done ++ [ks]) None
      | None => None
      end
  end.

Section Shapes.
Context {rt : Runtime}.

(** The text has one character of each class, in order. *)
Fixpoint fits (ks : list cset) (g : text) : bool :=
  match ks, g with
  | [], [] => true
  | k :: ks', c :: g' => in_cset k c && fits ks' g'
  | _, _ => false
  end.
(** The state of the matcher agrees with the classes read so far. *)
Definition agrees (st : mstate) (done : list (list cset)) (cur : option (list cset)) : Prop :=
  Forall2 (fun g ks => fits ks g = true) (closed st) done /\
  match cur, opened st with
  | None, None => True
  | Some ks, Some g => fits ks g = true
  | _, _ => False
  end.
End Shapes.

(** [Q\d], [\d{2}/\d{2}/\d{2}], [\d{2}\w] and [\d{2}/\d{2}/\d{4}]. *)
Definition quarter : list cset := [CLit 81%N; CDigit].

Definition short_date : list cset :=
  [CDigit; CDigit; CLit 47%N; CDigit; CDigit; CLit 47%N; CDigit; CDigit].

Definition form_code : list cset := [CDigit; CDigit; CWord].

Definition long_date : list cset :=
  [CDigit; CDigit; CLit 47%N; CDigit; CDigit; CLit 47%N; CDigit; CDigit; CDigit; CDigit].

(** ** More sample documents *)

(** A page the decoder finds no text on. *)
Definition textless_page : page :=
  {| extract_text := Ok None; extract_tables := Ok [] |}.

Definition text_page (t : text) (tables : list table) : page :=
  {| extract_text := Ok (Some t); extract_tables := Ok tables |}.

(** A page whose tables the decoder fails on. *)
Definition torn_page (t : text) : page :=
  {| extract_text := Ok (Some t);
     extract_tables := Raise (DecoderError (str "bad table stream")) |}.

(** A receipt whose twenty lines are followed by a page without text. *)
Definition scanned_pdf : pdf_file :=
  {| name := str "scan.pdf";
     plumber_open := Ok [text_page reference_document []; textless_page];
     pypdf_pages := no_pdf |}.

(** A return whose second page has a table the decoder fails on. *)
Definition torn_pdf : pdf_file :=
  {| name := str "torn.pdf";
     plumber_open :=
       Ok [text_page (str "period Q2 ") [[header_row; data_row "1"]];
           torn_page (str "Date: 15/01/2024")];
     pypdf_pages := no_pdf |}.

(** [page.extract_text() or ""] *)
Definition text_or_empty (o : option text) : text :=
  match o with Some x => x | None => [] end.

Definition no_page_text : exn :=
  TypeError (str "unsupported operand type(s) for +: 'NoneType' and 'str'").

(** The line offsets that [parse_hdfc_bank_text] reads. *)
Definition hdfc_read_lines : list nat := [7; 9; 10; 12; 13; 14; 15; 16; 19].

(** The reference receipt under another letterhead, with a footer line. *)
Definition relabelled_document : text :=
  join newline (str "ANOTHER BANK" :: tl reference_lines ++ [str "Page 1 of 1"]).

(** The fields of the lines that match, in the order of the lines. *)
Definition matched_fields (lines : list text) : list text :=
  flat_map (fun line =>
              match first_match line with
              | Some (field, _) => [field]
              | None => []
              end)
    lines.

(** Every label at its first appearance only; [seen] are the labels
    before. *)
Fixpoint first_appearances (seen : list text) (l : list text) : list text :=
  match l with
  | [] => []
  | x :: l' =>
      if mem x seen then first_appearances seen l'
      else x :: first_appearances (seen ++ [x]) l'
  end.

(** The fields read after a colon and those read after the rupee sign. *)
Definition colon_fields : list text :=
  [str "Nature of Payment"; str "Amount (in Rs.)"; str "Challan No."; str "Tender Date"].

Definition rupee_fields : list text :=
  [str "Interest"; str "Penalty"; str "Fee (Sec. 234E)"; str "TOTAL"].

(** No occurrence of [sep] in [cur ++ s] starts inside [cur]. *)
Definition clear_of (sep cur s : text) : Prop :=
  forall a b, cur = a ++ b -> b <> [] -> startswith sep (b ++ s) = false.

(** * Properties *)

(** ** The patterns on sample texts *)

Example findall_three :
  findall (rt := ascii_runtime) form_no_box_pattern
    (str "Form No. 26Q x FORM  no.24Q y form No.27A") = [str "26Q"; str "24Q"; str "27A"].
Proof. vm_compute. reflexivity. Qed.

Example search_range :
  search (rt := ascii_runtime) date_range_pattern
    (str "period Q3 (From 01/10/23 to 31/12/23)") = Some [str "01/10/23"; str "31/12/23"].
Proof. vm_compute. reflexivity. Qed.

(** ** Texts, indices and dictionaries *)

Lemma text_eqb_eq (a b : text) : text_eqb a b = true <-> a = b.
Proof.
  revert b; induction a as [|x a IH]; intros [|y b]; simpl; try (split; congruence).
  unfold char_eqb. rewrite andb_true_iff, N.eqb_eq, IH.
  split; [intros [-> ->]; reflexivity | intros E; inversion E; auto].
Qed.

Lemma text_eqb_refl (a : text) : text_eqb a a = true.
Proof. apply text_eqb_eq; reflexivity. Qed.

Lemma text_eqb_neq (a b : text) : text_eqb a b = false <-> a <> b.
Proof.
  rewrite <- text_eqb_eq. destruct (text_eqb a b); split; congruence.
Qed.

Lemma mem_In (k : text) (l : list text) : mem k l = true <-> In k l.
Proof.
  unfold mem. rewrite existsb_exists. split.
  - intros [x [Hx E]]. apply text_eqb_eq in E. subst; assumption.
  - intros Hk. exists k. split; [assumption | apply text_eqb_refl].
Qed.

Lemma index_second {A} (a b : A) (l : list A) : index (a :: b :: l) 1 = Ok b.
Proof.
  unfold index. simpl length.
  replace (1 <? 0)%Z with false by reflexivity.
  destruct ((0 <=? 1)%Z && (1 <? Z.of_nat (S (S (length l))))%Z) eqn:E.
  - reflexivity.
  - apply andb_false_iff in E. destruct E as [E|E]; [discriminate|].
    apply Z.ltb_ge in E. lia.
Qed.

Lemma index_first {A} (a : A) (l : list A) : index (a :: l) 0 = Ok a.
Proof.
  unfold index. simpl length.
  replace (0 <? 0)%Z with false by reflexivity.
  destruct ((0 <=? 0)%Z && (0 <? Z.of_nat (S (length l)))%Z) eqn:E.
  - reflexivity.
  - apply andb_false_iff in E. destruct E as [E|E]; [discriminate|].
    apply Z.ltb_ge in E. lia.
Qed.

Lemma nth_error_last {A} (l : list A) :
  forall a d, nth_error (a :: l) (length l) = Some (last (a :: l) d).
Proof.
  induction l as [|b l IH]; intros a d.
  - reflexivity.
  - change (nth_error (b :: l) (length l) = Some (last (b :: l) d)). apply IH.
Qed.

(** [l[-1]] of a non-empty list is its last element. *)
Lemma index_last {A} (a : A) (l : list A) : index (a :: l) (-1) = Ok (last (a :: l) a).
Proof.
  unfold index.
  replace (-1 <? 0)%Z with true by reflexivity.
  set (n := length (a :: l)).
  assert (Hn : n = S (length l)) by reflexivity.
  destruct ((0 <=? Z.of_nat n + -1)%Z && (Z.of_nat n + -1 <? Z.of_nat n)%Z) eqn:E.
  - replace (Z.to_nat (Z.of_nat n + -1)) with (length l) by lia.
    rewrite (nth_error_last l a a). reflexivity.
  - apply andb_false_iff in E. destruct E as [E|E].
    + apply Z.leb_gt in E. lia.
    + apply Z.ltb_ge in E. lia.
Qed.

Lemma index_out_of_range {A} (l : list A) (i : nat) :
  length l <= i -> index l (Z.of_nat i) = Raise IndexError.
Proof.
  intros H. unfold index.
  destruct (Z.of_nat i <? 0)%Z eqn:E; [apply Z.ltb_lt in E; lia|].
  destruct ((0 <=? Z.of_nat i)%Z && (Z.of_nat i <? Z.of_nat (length l))%Z) eqn:E'.
  - apply andb_true_iff in E'. destruct E' as [_ E']. apply Z.ltb_lt in E'. lia.
  - reflexivity.
Qed.

Lemma index_in_range {A} (l : list A) (i : nat) :
  i < length l -> exists a, index l (Z.of_nat i) = Ok a /\ nth_error l i = Some a.
Proof.
  intros H. unfold index.
  destruct (Z.of_nat i <? 0)%Z eqn:E; [apply Z.ltb_lt in E; lia|].
  destruct ((0 <=? Z.of_nat i)%Z && (Z.of_nat i <? Z.of_nat (length l))%Z) eqn:E'.
  - rewrite Nat2Z.id. destruct (nth_error l i) eqn:Hn.
    + eauto.
    + apply nth_error_None in Hn. lia.
  - apply andb_false_iff in E'. destruct E' as [E'|E'].
    + apply Z.leb_gt in E'. lia.
    + apply Z.ltb_ge in E'. lia.
Qed.

(** An index that is served lies within the list. *)
Lemma index_ok_length {A} (l : list A) (i : nat) (a : A) :
  index l (Z.of_nat i) = Ok a -> i < length l.
Proof.
  intros H. destruct (Nat.lt_ge_cases i (length l)) as [Hlt|Hge]; [assumption|].
  rewrite (index_out_of_range l Hge) in H. discriminate.
Qed.

Lemma index_ok_nth {A} (l : list A) (i : nat) (a : A) :
  index l (Z.of_nat i) = Ok a -> nth_error l i = Some a.
Proof.
  intros H. pose proof (index_ok_length l i H) as Hl.
  destruct (index_in_range l Hl) as [a' [Ha Hn]]. congruence.
Qed.

Lemma split_go_nonempty (sep : text) (s : text) :
  forall skip cur, split_go sep skip cur s <> [].
Proof.
  induction s as [|c s IH]; intros skip cur; simpl.
  - discriminate.
  - destruct skip; [destruct (startswith sep (c :: s))|]; try apply IH; discriminate.
Qed.

(** [s.split(sep)] always has a first and a last piece. *)
Lemma split_nonempty (sep s : text) : exists p ps, split sep s = p :: ps.
Proof.
  unfold split. destruct (split_go sep 0 [] s) eqn:E.
  - exfalso. exact (split_go_nonempty _ _ _ _ E).
  - eauto.
Qed.

Lemma last_default {A} (l : list A) :
  forall a d d', last (a :: l) d = last (a :: l) d'.
Proof.
  induction l as [|b l IH]; intros a d d'; [reflexivity|].
  change (last (b :: l) d = last (b :: l) d'). apply IH.
Qed.

Lemma after_last_ok (sep line : text) :
  after_last sep line = Ok (strip (last (split sep line) [])).
Proof.
  unfold after_last. destruct (split_nonempty sep line) as [p [ps E]].
  rewrite E, index_last. cbn [bind]. do 2 f_equal. apply last_default.
Qed.

Lemma index_last_split (sep line : text) :
  index (split sep line) (-1) = Ok (last (split sep line) []).
Proof.
  destruct (split_nonempty sep line) as [p [ps E]].
  rewrite E, index_last. f_equal. apply last_default.
Qed.

Lemma index_first_split (sep line : text) :
  index (split sep line) 0 = Ok (hd [] (split sep line)).
Proof.
  destruct (split_nonempty sep line) as [p [ps E]].
  rewrite E, index_first. reflexivity.
Qed.

(** ** PatternFieldExtractor: [extract_details_from_pdf] *)

Section Details.
Context {rt : Runtime}.

Lemma search_none_iff (re : regex) (t : text) :
  search re t = None <-> zero_matches re t.
Proof.
  unfold zero_matches, matches_at. induction t as [|c t IH]; simpl.
  - destruct (match_here re st0 []) as [[gs rest]|] eqn:E.
    + split; [discriminate|]. intros H. exfalso. apply (H 0). simpl. eauto.
    + split; [|reflexivity]. intros _ i [r Hr].
      destruct i; simpl in Hr; congruence.
  - destruct (match_here re st0 (c :: t)) as [[gs rest]|] eqn:E.
    + split; [discriminate|]. intros H. exfalso. apply (H 0). simpl. eauto.
    + rewrite IH. split.
      * intros H [|i] [r Hr]; simpl in Hr; [congruence|]. apply (H i). eauto.
      * intros H i Hi. apply (H (S i)). exact Hi.
Qed.

Lemma findall_none (re : regex) (t : text) :
  zero_matches re t -> findall re t = [].
Proof.
  rewrite <- search_none_iff. unfold findall.
  induction t as [|c t IH]; simpl.
  - destruct (match_here re st0 []) as [[gs rest]|]; [discriminate|reflexivity].
  - destruct (match_here re st0 (c :: t)) as [[gs rest]|]; [discriminate|exact IH].
Qed.

(** The indexing of [form_no_matches] never fails: the field is the second
    match when there is one and the sentinel otherwise. *)
Lemma form_no_field_second (t : text) :
  form_no_field t =
  Ok (match findall form_no_box_pattern t with
      | _ :: b :: _ => b
      | _ => not_found
      end).
Proof.
  unfold form_no_field.
  destruct (findall form_no_box_pattern t) as [|a [|b l]]; try reflexivity.
  change (1 <? length (a :: b :: l)) with true. cbv iota.
  apply index_second.
Qed.

Lemma extract_details_decoded (pdf_path : pdf_file) (t : text) :
  decoded_text pdf_path = Ok t ->
  extract_details_from_pdf pdf_path =
  Ok (one_row
        [(str "Period", Some (VStr (period_field t)));
         (str "Date Range", Some (VStr (date_range_field t)));
         (str "Form No.",
          Some (VStr (match findall form_no_box_pattern t with
                      | _ :: b :: _ => b
                      | _ => not_found
                      end)));
         (str "Date", Some (VStr (date_field t)))]).
Proof.
  unfold decoded_text, extract_details_from_pdf. intros H.
  destruct (plumber_open pdf_path) as [pdf|e]; simpl in *; [|discriminate].
  rewrite H. simpl. unfold details_of_text.
  rewrite form_no_field_second. reflexivity.
Qed.

Lemma extract_details_failed (pdf_path : pdf_file) (e : exn) :
  decoded_text pdf_path = Raise e ->
  extract_details_from_pdf pdf_path = Ok (error_frame e).
Proof.
  unfold decoded_text, extract_details_from_pdf. intros H.
  destruct (plumber_open pdf_path) as [pdf|e']; simpl in *.
  - rewrite H. reflexivity.
  - congruence.
Qed.

(** C1.  Whatever text the decoder delivers, the "Form No." cell of the
    record is the second match of the form-number pattern in document
    order when there are at least two matches, and the sentinel
    "Not found" when there are fewer, one match included: matches
    [A; B; C] give [B], and [A] alone gives "Not found". *)
Theorem form_no_is_second_match (pdf_path : pdf_file) (t : text) :
  decoded_text pdf_path = Ok t ->
  exists df,
    extract_details_from_pdf pdf_path = Ok df /\
    frame_cell df 0 (str "Form No.") =
    Some (VStr (match findall form_no_box_pattern t with
                | _ :: second :: _ => second
                | [] | [_] => not_found
                end)).
Proof.
  intros H. eexists. split.
  - apply (extract_details_decoded _ H).
  - reflexivity.
Qed.

(** C2.  [extract_details_from_pdf] returns a record on every input, the
    decoder failing or not, so no exception escapes it; and whenever one
    of the four patterns has no match in the text, the record holds
    exactly "Not found" under that pattern's field. *)
Theorem absent_match_gives_sentinel (pdf_path : pdf_file) :
  returns (extract_details_from_pdf pdf_path) /\
  forall t, decoded_text pdf_path = Ok t ->
    exists df,
      extract_details_from_pdf pdf_path = Ok df /\
      (zero_matches period_pattern t ->
       frame_cell df 0 (str "Period") = Some (VStr not_found)) /\
      (zero_matches date_range_pattern t ->
       frame_cell df 0 (str "Date Range") = Some (VStr not_found)) /\
      (zero_matches form_no_box_pattern t ->
       frame_cell df 0 (str "Form No.") = Some (VStr not_found)) /\
      (zero_matches date_pattern t ->
       frame_cell df 0 (str "Date") = Some (VStr not_found)).
Proof.
  split.
  - destruct (decoded_text pdf_path) as [t|e] eqn:E.
    + eexists. apply (extract_details_decoded _ E).
    + eexists. apply (extract_details_failed _ E).
  - intros t H. eexists. split; [apply (extract_details_decoded _ H)|].
    repeat split; intros Z.
    + apply search_none_iff in Z.
      change (Some (VStr (period_field t)) = Some (VStr not_found)).
      unfold period_field. rewrite Z. reflexivity.
    + apply search_none_iff in Z.
      change (Some (VStr (date_range_field t)) = Some (VStr not_found)).
      unfold date_range_field. rewrite Z. reflexivity.
    + apply findall_none in Z.
      change (Some (VStr (match findall form_no_box_pattern t with
                          | _ :: b :: _ => b
                          | _ => not_found
                          end)) = Some (VStr not_found)).
      rewrite Z. reflexivity.
    + apply search_none_iff in Z.
      change (Some (VStr (date_field t)) = Some (VStr not_found)).
      unfold date_field. rewrite Z. reflexivity.
Qed.

(** C8, as the code has it.  When the decoder delivers the text, the
    record has exactly the columns Period, Date Range, Form No. and Date,
    each once, and one row of four strings, which are all "Not found" when
    no pattern matches.  When the decoder raises, the record has the
    single column Error instead. *)
Theorem details_schema_unless_decoder_fails (pdf_path : pdf_file) :
  NoDup details_schema /\
  (forall t, decoded_text pdf_path = Ok t ->
     exists period date_range form_no date,
       extract_details_from_pdf pdf_path =
       Ok {| columns := details_schema;
             rows := [[Some (VStr period); Some (VStr date_range);
                       Some (VStr form_no); Some (VStr date)]] |} /\
       (zero_matches period_pattern t -> zero_matches date_range_pattern t ->
        zero_matches form_no_box_pattern t -> zero_matches date_pattern t ->
        period = not_found /\ date_range = not_found /\
        form_no = not_found /\ date = not_found)) /\
  (forall e, decoded_text pdf_path = Raise e ->
     extract_details_from_pdf pdf_path =
     Ok {| columns := [str "Error"]; rows := [[Some (VStr (str_exn e))]] |}).
Proof.
  split; [|split].
  - unfold details_schema.
    repeat (constructor; [simpl; intuition discriminate|]). constructor.
  - intros t H. do 4 eexists. split.
    + rewrite (extract_details_decoded _ H). reflexivity.
    + intros Z1 Z2 Z3 Z4.
      apply search_none_iff in Z1, Z2, Z4. apply findall_none in Z3.
      unfold period_field, date_range_field, date_field.
      rewrite Z1, Z2, Z3, Z4. repeat split; reflexivity.
  - intros e H. rewrite (extract_details_failed _ H). reflexivity.
Qed.
End Details.

Lemma form_no_is_second_match_witness :
  (exists df,
     extract_details_from_pdf (rt := ascii_runtime) three_forms = Ok df /\
     frame_cell df 0 (str "Form No.") = Some (VStr (str "24Q"))) /\
  (exists df,
     extract_details_from_pdf (rt := ascii_runtime) one_form = Ok df /\
     frame_cell df 0 (str "Form No.") = Some (VStr not_found)).
Proof.
  split.
  - destruct (form_no_is_second_match (rt := ascii_runtime) three_forms eq_refl)
      as [df [H1 H2]].
    exists df. split; [exact H1|]. rewrite H2. vm_compute. reflexivity.
  - destruct (form_no_is_second_match (rt := ascii_runtime) one_form eq_refl)
      as [df [H1 H2]].
    exists df. split; [exact H1|]. rewrite H2. vm_compute. reflexivity.
Defined.

Lemma absent_match_gives_sentinel_witness :
  exists df,
    extract_details_from_pdf (rt := ascii_runtime) blank_pdf = Ok df /\
    frame_cell df 0 (str "Period") = Some (VStr not_found) /\
    frame_cell df 0 (str "Date Range") = Some (VStr not_found) /\
    frame_cell df 0 (str "Form No.") = Some (VStr not_found) /\
    frame_cell df 0 (str "Date") = Some (VStr not_found).
Proof.
  destruct (absent_match_gives_sentinel (rt := ascii_runtime) blank_pdf) as [_ H].
  destruct (H (str "nothing to see") eq_refl) as [df [E [P [R [F D]]]]].
  exists df. split; [exact E|].
  repeat split; [apply P | apply R | apply F | apply D];
    apply search_none_iff; vm_compute; reflexivity.
Defined.

Lemma details_schema_unless_decoder_fails_witness :
  extract_details_from_pdf (rt := ascii_runtime) blank_pdf =
  Ok {| columns := details_schema;
        rows := [[Some (VStr not_found); Some (VStr not_found);
                  Some (VStr not_found); Some (VStr not_found)]] |} /\
  extract_details_from_pdf (rt := ascii_runtime) unreadable_pdf =
  Ok {| columns := [str "Error"];
        rows := [[Some (VStr (str "No /Root object! - Is this really a PDF?"))]] |}.
Proof.
  destruct (details_schema_unless_decoder_fails (rt := ascii_runtime) blank_pdf)
    as [_ [H _]].
  destruct (details_schema_unless_decoder_fails (rt := ascii_runtime) unreadable_pdf)
    as [_ [_ H']].
  split.
  - destruct (H (str "nothing to see") eq_refl) as [p [r [f [d [E Z]]]]].
    destruct Z as [-> [-> [-> ->]]];
      try (apply search_none_iff; vm_compute; reflexivity).
    exact E.
  - apply (H' _ eq_refl).
Defined.

(** C8 as stated fails on a file the decoder cannot open: the record then
    has the one column Error and none of the four fields. *)
Lemma decoder_failure_changes_the_columns :
  extract_details_from_pdf (rt := ascii_runtime) unreadable_pdf =
  Ok {| columns := [str "Error"];
        rows := [[Some (VStr (str "No /Root object! - Is this really a PDF?"))]] |} /\
  forall field, In field details_schema -> ~ In field [str "Error"].
Proof.
  split.
  - reflexivity.
  - intros field Hf [E|[]]. subst field.
    unfold details_schema in Hf. simpl in Hf.
    destruct Hf as [E|[E|[E|[E|[]]]]]; discriminate E.
Qed.

(** ** TableReconciler: [extract_table_from_pdf] *)

Ltac six_row r H :=
  destruct r as [|?c [|?c [|?c [|?c [|?c [|?c [|?c r]]]]]]];
  try discriminate H.

Section Table.
Context {rt : Runtime}.

Lemma dict_zip_headers (r : row) :
  six_cells r = true -> dict_zip headers (map cell_of r) = as_record r.
Proof. intros H. six_row r H. reflexivity. Qed.

Lemma six_column_rows_filter (extracted_data : list row) :
  six_column_rows extracted_data = map as_record (filter six_cells extracted_data).
Proof.
  unfold six_column_rows.
  induction extracted_data as [|r l IH]; [reflexivity|].
  cbn [flat_map filter]. rewrite IH.
  change (length r =? length headers) with (six_cells r).
  destruct (six_cells r) eqn:E; [|reflexivity].
  rewrite (dict_zip_headers _ E). reflexivity.
Qed.

Lemma is_header_row_label (r : row) :
  six_cells r = true -> is_header_row (as_record r) = starts_with_label r.
Proof.
  intros H. six_row r H. destruct c as [s|]; reflexivity.
Qed.

Lemma filter_six_cells (extracted_data : list row) (r : row) :
  In r (filter six_cells extracted_data) -> six_cells r = true.
Proof. intros H. apply filter_In in H. tauto. Qed.

Lemma reconcile_surviving (extracted_data : list row) :
  reconcile extracted_data = map as_record (surviving extracted_data).
Proof.
  unfold reconcile, surviving. rewrite six_column_rows_filter.
  pose proof (filter_six_cells extracted_data) as Hsix.
  destruct (filter six_cells extracted_data) as [|first [|second rest]];
    try reflexivity.
  cbn [map length Nat.ltb Nat.leb andb].
  rewrite (is_header_row_label first) by (apply Hsix; simpl; auto).
  destruct (starts_with_label first); reflexivity.
Qed.

(** C3, as the code has it.  The rows with a cell count other than six
    are discarded and the six-cell rows are kept in their order, zipped
    position by position into the six columns; the first kept row is
    removed when its first cell is "Sr. No." and at least one more row
    was kept, and no other row is removed for being a header. *)
Theorem header_removed_unless_alone (extracted_data : list row) :
  reconcile extracted_data =
  map (fun r => combine headers (map cell_of r))
    (match filter (fun r => length r =? 6) extracted_data with
     | first :: second :: rest =>
         if starts_with_label first then second :: rest
         else first :: second :: rest
     | kept => kept
     end).
Proof. apply reconcile_surviving. Qed.
End Table.

(** C3 as stated fails on a table that holds only its header line: the
    header row is the sole surviving row and it stays in the output. *)
Lemma sole_header_row_is_kept :
  reconcile [header_row] = [combine headers (map cell_of header_row)] /\
  extract_table_from_pdf (rt := ascii_runtime) header_only_pdf =
  Ok {| columns := headers; rows := [map cell_of header_row] |} /\
  starts_with_label header_row = true.
Proof. repeat split; reflexivity. Qed.

Section Dropna.
Context {rt : Runtime}.

Lemma surviving_six_cells (extracted_data : list row) (r : row) :
  In r (surviving extracted_data) -> six_cells r = true.
Proof.
  unfold surviving. intros H. apply (filter_six_cells extracted_data).
  destruct (filter six_cells extracted_data) as [|first [|second rest]];
    try assumption.
  destruct (starts_with_label first); [right|]; assumption.
Qed.

Lemma keys_as_record (r : row) : six_cells r = true -> keys (as_record r) = headers.
Proof. intros H. six_row r H. reflexivity. Qed.

Lemma columns_of_records (l : list row) :
  (forall r, In r l -> six_cells r = true) ->
  fold_left (fun a d => union_cols a (keys d)) (map as_record l) headers = headers.
Proof.
  induction l as [|r l IH]; intros H; [reflexivity|].
  cbn [map fold_left]. rewrite keys_as_record by (apply H; left; reflexivity).
  change (union_cols headers headers) with headers.
  apply IH. intros r' Hr'. apply H. right; assumption.
Qed.

Lemma cells_of_record (r : row) :
  six_cells r = true ->
  map (fun c => match dict_get (as_record r) c with
                | Some v => v
                | None => None
                end) headers = map cell_of r.
Proof. intros H. six_row r H. reflexivity. Qed.

Lemma frame_of_surviving (l : list row) :
  l <> [] -> (forall r, In r l -> six_cells r = true) ->
  DataFrame_of_records (map as_record l) =
  {| columns := headers; rows := map (map cell_of) l |}.
Proof.
  intros Hne H. unfold DataFrame_of_records.
  assert (Hc : fold_left (fun a d => union_cols a (keys d)) (map as_record l) []
               = headers).
  { destruct l as [|r l]; [congruence|]. cbn [map fold_left].
    rewrite keys_as_record by (apply H; left; reflexivity).
    change (union_cols [] headers) with headers.
    apply columns_of_records. intros r' Hr'. apply H. right; assumption. }
  rewrite Hc. f_equal. rewrite map_map.
  apply map_ext_in. intros r Hr. apply cells_of_record, H, Hr.
Qed.

Lemma all_missing_entirely_empty (r : row) :
  six_cells r = true ->
  forallb (fun c => is_na (cell_under headers (map cell_of r) c)) headers
  = entirely_empty r.
Proof.
  intros H. six_row r H.
  destruct c as [?|], c0 as [?|], c1 as [?|], c2 as [?|], c3 as [?|], c4 as [?|];
    reflexivity.
Qed.

Lemma filter_not_all_missing (l : list row) :
  (forall r, In r l -> six_cells r = true) ->
  filter (fun row => negb (forallb (fun c => is_na (cell_under headers row c))
                             headers))
    (map (map cell_of) l)
  = map (map cell_of) (filter (fun r => negb (entirely_empty r)) l).
Proof.
  induction l as [|r l IH]; intros H; [reflexivity|].
  cbn [map filter].
  rewrite all_missing_entirely_empty by (apply H; left; reflexivity).
  rewrite IH by (intros r' Hr'; apply H; right; assumption).
  destruct (entirely_empty r); reflexivity.
Qed.

Lemma dropna_surviving (l : list row) :
  (forall r, In r l -> six_cells r = true) ->
  dropna_all headers {| columns := headers; rows := map (map cell_of) l |} =
  Ok {| columns := headers;
        rows := map (map cell_of) (filter (fun r => negb (entirely_empty r)) l) |}.
Proof.
  intros H. unfold dropna_all. cbn [columns rows].
  change (filter (fun c => negb (mem c headers)) headers) with (@nil text).
  cbv iota. rewrite (filter_not_all_missing _ H). reflexivity.
Qed.

Lemma table_of_rows_surviving (extracted_data : list row) :
  surviving extracted_data <> [] ->
  table_of_rows extracted_data =
  Ok {| columns := headers;
        rows := map (map cell_of)
                  (filter (fun r => negb (entirely_empty r))
                     (surviving extracted_data)) |}.
Proof.
  intros Hne. unfold table_of_rows. rewrite reconcile_surviving.
  rewrite frame_of_surviving by (assumption || apply surviving_six_cells).
  apply dropna_surviving, surviving_six_cells.
Qed.

Lemma table_of_rows_none (extracted_data : list row) :
  surviving extracted_data = [] ->
  table_of_rows extracted_data = Raise (KeyError headers).
Proof.
  intros He. unfold table_of_rows. rewrite reconcile_surviving, He. reflexivity.
Qed.

Lemma extract_table_decoded (pdf_path : pdf_file) (extracted_data : list row) :
  decoded_rows pdf_path = Ok extracted_data ->
  extract_table_from_pdf pdf_path =
  try_except (table_of_rows extracted_data) (fun e => Ok (error_frame e)).
Proof.
  unfold decoded_rows, extract_table_from_pdf. intros H.
  destruct (plumber_open pdf_path) as [pdf|e]; simpl in *; [|discriminate].
  rewrite H. reflexivity.
Qed.

(** C4, on the code.  While at least one row survives the six-cell filter
    and the header removal, the output is the six-column table of the
    surviving rows without those that are empty in all six columns (so it
    has zero rows when all of them are).  When no row survives, the
    missing-value filter is asked for columns the frame does not have,
    and the output is a one-row table with the single column Error. *)
Theorem empty_rows_dropped_and_no_rows_is_an_error
    (pdf_path : pdf_file) (extracted_data : list row) :
  decoded_rows pdf_path = Ok extracted_data ->
  (surviving extracted_data <> [] ->
   extract_table_from_pdf pdf_path =
   Ok {| columns := headers;
         rows := map (map cell_of)
                   (filter (fun r => negb (entirely_empty r))
                      (surviving extracted_data)) |}) /\
  (surviving extracted_data = [] ->
   extract_table_from_pdf pdf_path =
   Ok {| columns := [str "Error"];
         rows := [[Some (VStr (str_exn (KeyError headers)))]] |}).
Proof.
  intros H. rewrite (extract_table_decoded _ H). split; intros Hs.
  - rewrite (table_of_rows_surviving _ Hs). reflexivity.
  - rewrite (table_of_rows_none _ Hs). reflexivity.
Qed.
End Dropna.

Lemma empty_rows_dropped_and_no_rows_is_an_error_witness :
  extract_table_from_pdf (rt := ascii_runtime) two_page_pdf =
  Ok {| columns := headers;
        rows := map (map cell_of) [data_row "1"; header_row; data_row "2"] |} /\
  extract_table_from_pdf (rt := ascii_runtime) no_table_pdf =
  Ok {| columns := [str "Error"];
        rows := [[Some (VStr (str_exn (rt := ascii_runtime) (KeyError headers)))]] |}.
Proof.
  split.
  - destruct (empty_rows_dropped_and_no_rows_is_an_error
                (rt := ascii_runtime) two_page_pdf eq_refl) as [H _].
    rewrite H; [reflexivity | discriminate].
  - destruct (empty_rows_dropped_and_no_rows_is_an_error
                (rt := ascii_runtime) no_table_pdf eq_refl) as [_ H].
    apply H. reflexivity.
Defined.

(** ** PositionalLineParser: [parse_hdfc_bank_text] *)

Lemma join_cons (sep x : text) (l : list text) :
  l <> [] -> join sep (x :: l) = x ++ sep ++ join sep l.
Proof. destruct l; [congruence | reflexivity]. Qed.

(** Removing a one-character separator leaves no such character. *)
Lemma join_split_char (c : char) (s : text) :
  forall cur, join [] (split_go [c] 0 cur s)
              = cur ++ filter (fun x => negb (char_eqb c x)) s.
Proof.
  induction s as [|x s IH]; intros cur.
  - simpl. rewrite app_nil_r. reflexivity.
  - cbn [split_go startswith length Nat.sub filter].
    rewrite andb_true_r.
    destruct (char_eqb c x) eqn:E; cbn [negb].
    + rewrite join_cons by apply split_go_nonempty.
      rewrite IH. reflexivity.
    + rewrite IH, <- app_assoc. reflexivity.
Qed.

Lemma replace_char (c : char) (s : text) :
  replace [c] [] s = filter (fun x => negb (char_eqb c x)) s.
Proof. unfold replace, split. apply join_split_char. Qed.

Lemma no_comma_left (s : text) : contains (str ",") (replace (str ",") [] s) = false.
Proof.
  change (str ",") with [44%N]. rewrite replace_char.
  induction s as [|x s IH]; [reflexivity|].
  cbn [filter]. destruct (char_eqb 44%N x) eqn:E; cbn [negb]; [exact IH|].
  cbn [contains startswith]. rewrite E, IH. reflexivity.
Qed.

Lemma index_raise {A} (l : list A) (i : Z) (e : exn) :
  index l i = Raise e -> e = IndexError.
Proof.
  unfold index.
  destruct ((0 <=? (if (i <? 0)%Z then (Z.of_nat (length l) + i)%Z else i))%Z
            && ((if (i <? 0)%Z then (Z.of_nat (length l) + i)%Z else i)
                <? Z.of_nat (length l))%Z).
  - destruct (nth_error l _); congruence.
  - congruence.
Qed.

(** Peels the leading [bind] of an equation [H] on a chain of calls: the
    call returned and the chain goes on, or it raised and [H] says what. *)
Ltac peel H raised :=
  match type of H with
  | bind ?r _ = _ =>
      let E := fresh "E" in
      destruct r eqn:E; cbn [bind] in H; [|raised E]
  end.

Section Hdfc.
Context {rt : Runtime}.

Lemma float_ok (s : text) (x : pyfloat) : float s = Ok x -> py_float s = Some x.
Proof. unfold float. destruct (py_float s); congruence. Qed.

Lemma float_raise (s : text) (e : exn) :
  float s = Raise e ->
  py_float s = None /\
  e = ValueError (str "could not convert string to float: " ++ repr s).
Proof. unfold float. destruct (py_float s); [discriminate|]. intros H.
       inversion H. auto. Qed.

Lemma int_ok (s : text) (z : Z) : int s = Ok z -> py_int s = Some z.
Proof. unfold int. destruct (py_int s); congruence. Qed.

Lemma int_raise (s : text) (e : exn) :
  int s = Raise e -> py_int s = None /\ e = ValueError (int_error s).
Proof. unfold int. destruct (py_int s); [discriminate|]. intros H.
       inversion H. auto. Qed.

Lemma index_raise_nth {A} (l : list A) (i : nat) (e : exn) :
  index l (Z.of_nat i) = Raise e -> e = IndexError /\ nth_error l i = None.
Proof.
  intros H. split; [exact (index_raise _ _ H)|].
  destruct (nth_error l i) eqn:E; [|reflexivity].
  assert (Hi : i < length l) by (apply nth_error_Some; congruence).
  destruct (index_in_range l Hi) as [a' [Ha _]]. congruence.
Qed.

(** What the calls before have returned, as facts on the lines. *)
Ltac lines_read raw_text :=
  repeat match goal with
         | E : float _ = Ok _ |- _ => apply float_ok in E
         | E : int _ = Ok _ |- _ => apply int_ok in E
         | E : index (split newline raw_text) ?i = Ok _ |- _ =>
             let n := eval vm_compute in (Z.to_nat i) in
             apply (index_ok_nth (split newline raw_text) n) in E
         | E : index (split (str "Drawn on") ?l) 0 = Ok _ |- _ =>
             rewrite index_first_split in E; injection E as E
         | E : index (split (str "Drawn on") ?l) (-1) = Ok _ |- _ =>
             rewrite index_last_split in E; injection E as E
         end.

(** What the run of calls has established is carried over to the offset
    tables. *)
Ltac settle_cells :=
  unfold token;
  repeat match goal with
         | H : nth_error ?l ?i = Some _ |- context [nth_error ?l ?i] => rewrite H
         | H : nth_error ?l ?i = None |- context [nth_error ?l ?i] => rewrite H
         | H : index ?l ?i = Ok _ |- context [index ?l ?i] => rewrite H
         | H : index ?l ?i = Raise _ |- context [index ?l ?i] => rewrite H
         end;
  cbn [option_map].

(** The entry of a table that the goal asks for. *)
Ltac entry := cbn [In app]; repeat (first [left; reflexivity | right]).

(** The call that raised is charged to a cell of the offset tables. *)
Ltac blame raw_text H E :=
  inversion H; subst; clear H; lines_read raw_text; subst;
  first
    [ (* a line or a token is missing *)
      first [ match type of E with
              | index (split newline raw_text) ?i = Raise _ =>
                  let n := eval vm_compute in (Z.to_nat i) in
                  apply (index_raise_nth (split newline raw_text) n) in E;
                  destruct E as [-> E]
              end
            | pose proof (index_raise _ _ E) as ->
            ];
      left; split; [reflexivity|];
      unfold hdfc_cells, hdfc_texts, hdfc_amounts, hdfc_numbers; settle_cells;
      eexists; solve [entry]
    | (* an amount is not a number *)
      apply float_raise in E; destruct E as [E ->];
      right; left;
      match type of E with
      | py_float ?s = None =>
          eexists; exists s; split; [|split; [exact E | reflexivity]]
      end;
      unfold hdfc_amounts; settle_cells; solve [entry]
    | (* a challan number is not a number *)
      apply int_raise in E; destruct E as [E ->];
      right; right;
      match type of E with
      | py_int ?s = None =>
          eexists; exists s; split; [|split; [exact E | reflexivity]]
      end;
      unfold hdfc_numbers; settle_cells; solve [entry]
    | (* the pieces around "Drawn on" are always there *)
      exfalso; first [ rewrite index_first_split in E | rewrite index_last_split in E ];
      discriminate E ].

Lemma parse_hdfc_raise (raw_text : text) (e : exn) :
  parse_hdfc_bank_text raw_text = Raise e ->
  (e = IndexError /\ exists k, In (k, None) (hdfc_cells (split newline raw_text))) \/
  (exists k s, In (k, Some s) (hdfc_amounts (split newline raw_text)) /\
               py_float s = None /\
               e = ValueError (str "could not convert string to float: " ++ repr s)) \/
  (exists k s, In (k, Some s) (hdfc_numbers (split newline raw_text)) /\
               py_int s = None /\ e = ValueError (int_error s)).
Proof.
  unfold parse_hdfc_bank_text. cbv zeta. intros H.
  repeat peel H ltac:(fun E => blame raw_text H E).
  discriminate H.
Qed.

Ltac absurd_raise H E := discriminate H.

Lemma parse_hdfc_ok (raw_text : text) (d : dict value) :
  parse_hdfc_bank_text raw_text = Ok d ->
  index (split newline raw_text) 19 <> Raise IndexError /\
  keys d = hdfc_fields /\
  (forall k c, In (k, c) (hdfc_texts (split newline raw_text)) ->
     exists s, c = Some s /\ dict_get d k = Some (VStr s)) /\
  (forall k c, In (k, c) (hdfc_amounts (split newline raw_text)) ->
     exists s x, c = Some s /\ py_float s = Some x /\ dict_get d k = Some (VFloat x)) /\
  (forall k c, In (k, c) (hdfc_numbers (split newline raw_text)) ->
     exists s z, c = Some s /\ py_int s = Some z /\ dict_get d k = Some (VInt z)).
Proof.
  unfold parse_hdfc_bank_text. cbv zeta. intros H.
  repeat peel H ltac:(fun E => absurd_raise H E).
  inversion H; subst d; clear H.
  lines_read raw_text.
  split; [discriminate|]. split; [reflexivity|]. split; [|split].
  - intros k c Hk. unfold hdfc_texts in Hk. cbn [In] in Hk.
    destruct Hk as [Hk|[Hk|[Hk|[Hk|[]]]]];
      apply pair_equal_spec in Hk; destruct Hk as [<- <-]; settle_cells;
      (eexists; (split; [reflexivity|])); subst; reflexivity.
  - intros k c Hk. unfold hdfc_amounts in Hk. cbn [In] in Hk.
    destruct Hk as [Hk|[Hk|[Hk|[Hk|[Hk|[]]]]]];
      apply pair_equal_spec in Hk; destruct Hk as [<- <-]; settle_cells;
      (do 2 eexists; (split; [reflexivity|split; [|reflexivity]]));
      subst; assumption.
  - intros k c Hk. unfold hdfc_numbers in Hk. cbn [In] in Hk.
    destruct Hk as [Hk|[Hk|[]]];
      apply pair_equal_spec in Hk; destruct Hk as [<- <-]; settle_cells;
      (do 2 eexists; (split; [reflexivity|split; [|reflexivity]]));
      assumption.
Qed.

Lemma parse_hdfc_cells_there (raw_text : text) (d : dict value) :
  parse_hdfc_bank_text raw_text = Ok d ->
  forall k c, In (k, c) (hdfc_cells (split newline raw_text)) -> c <> None.
Proof.
  intros Hd k c Hk. apply parse_hdfc_ok in Hd.
  destruct Hd as [_ [_ [Ht [Ha Hn]]]].
  unfold hdfc_cells in Hk. apply in_app_or in Hk.
  destruct Hk as [Hk|Hk]; [|apply in_app_or in Hk; destruct Hk as [Hk|Hk]].
  - destruct (Ht k c Hk) as [s [-> _]]. discriminate.
  - destruct (Ha k c Hk) as [s [x [-> _]]]. discriminate.
  - destruct (Hn k c Hk) as [s [z [-> _]]]. discriminate.
Qed.

(** C5, as the code has it.  The parser has no error type of its own and
    no sentinel.  A call returns exactly when every line and token it reads
    is there and the text cut out for each of the five amounts and the two
    challan numbers is a number; the record then holds all eleven fields,
    every one as it is cut out of the lines: the four texts as they stand,
    the amounts as [float] and the challan numbers as [int] read them, with
    the thousands separators removed.  In every other case an exception of
    the interpreter comes out: IndexError when a line or a token is
    missing, and for text that is not a number the ValueError of [float]
    or [int], whose message quotes that text and names neither the field
    nor the line.  With at most twelve lines the first access already raises
    IndexError, and with fewer than twenty lines the call always raises. *)
Theorem hdfc_record_or_bare_error (raw_text : text) :
  let lines := split newline raw_text in
  (length lines <= 12 -> parse_hdfc_bank_text raw_text = Raise IndexError) /\
  (length lines < 20 -> raises (parse_hdfc_bank_text raw_text)) /\
  (forall k, In (k, None) (hdfc_cells lines) ->
     raises (parse_hdfc_bank_text raw_text)) /\
  (forall k s, In (k, Some s) (hdfc_amounts lines) -> py_float s = None ->
     raises (parse_hdfc_bank_text raw_text)) /\
  (forall k s, In (k, Some s) (hdfc_numbers lines) -> py_int s = None ->
     raises (parse_hdfc_bank_text raw_text)) /\
  ((forall k c, In (k, c) (hdfc_cells lines) ->
      c <> None) ->
   (forall k s, In (k, Some s) (hdfc_amounts lines) -> py_float s <> None) ->
   (forall k s, In (k, Some s) (hdfc_numbers lines) -> py_int s <> None) ->
   returns (parse_hdfc_bank_text raw_text)) /\
  (forall e, parse_hdfc_bank_text raw_text = Raise e ->
     (e = IndexError /\
      exists k, In (k, None) (hdfc_cells lines)) \/
     (exists k s, In (k, Some s) (hdfc_amounts lines) /\ py_float s = None /\
                  e = ValueError (str "could not convert string to float: "
                                  ++ repr s)) \/
     (exists k s, In (k, Some s) (hdfc_numbers lines) /\ py_int s = None /\
                  e = ValueError (int_error s))) /\
  (forall k s, In (k, Some s) (hdfc_amounts lines ++ hdfc_numbers lines) ->
     contains (str ",") s = false) /\
  (forall d, parse_hdfc_bank_text raw_text = Ok d ->
     20 <= length lines /\
     keys d = hdfc_fields /\
     (forall k c, In (k, c) (hdfc_texts lines) ->
        exists s, c = Some s /\ dict_get d k = Some (VStr s)) /\
     (forall k c, In (k, c) (hdfc_amounts lines) ->
        exists s x, c = Some s /\ py_float s = Some x /\
                    dict_get d k = Some (VFloat x)) /\
     (forall k c, In (k, c) (hdfc_numbers lines) ->
        exists s z, c = Some s /\ py_int s = Some z /\
                    dict_get d k = Some (VInt z))).
Proof.
  intros lines.
  assert (Hok : forall d, parse_hdfc_bank_text raw_text = Ok d -> 20 <= length lines).
  { intros d Hd. apply parse_hdfc_ok in Hd. destruct Hd as [H19 _].
    destruct (Nat.lt_ge_cases 19 (length lines)) as [Hlt|Hge]; [lia|].
    exfalso. apply H19. apply (index_out_of_range lines (i := 19)). exact Hge. }
  split; [|split; [|split; [|split; [|split; [|split; [|split; [|split]]]]]]].
  - intros Hlen. unfold parse_hdfc_bank_text. cbv zeta. fold lines.
    pose proof (index_out_of_range lines (i := 12) Hlen) as Hi.
    change (Z.of_nat 12) with 12%Z in Hi. rewrite Hi. reflexivity.
  - intros Hlen. destruct (parse_hdfc_bank_text raw_text) as [d|e] eqn:E.
    + specialize (Hok d eq_refl). lia.
    + exists e. reflexivity.
  - intros k Hk. destruct (parse_hdfc_bank_text raw_text) as [d|e] eqn:E.
    + exfalso. eapply parse_hdfc_cells_there; [exact E | exact Hk | reflexivity].
    + exists e. reflexivity.
  - intros k s Hk Hs. destruct (parse_hdfc_bank_text raw_text) as [d|e] eqn:E.
    + apply parse_hdfc_ok in E. destruct E as [_ [_ [_ [Ha _]]]].
      destruct (Ha k (Some s) Hk) as [s' [x [Hs' [Hx _]]]]. congruence.
    + exists e. reflexivity.
  - intros k s Hk Hs. destruct (parse_hdfc_bank_text raw_text) as [d|e] eqn:E.
    + apply parse_hdfc_ok in E. destruct E as [_ [_ [_ [_ Hn]]]].
      destruct (Hn k (Some s) Hk) as [s' [z [Hs' [Hz _]]]]. congruence.
    + exists e. reflexivity.
  - intros Hc Hf Hi. destruct (parse_hdfc_bank_text raw_text) as [d|e] eqn:E.
    + exists d. reflexivity.
    + exfalso. apply parse_hdfc_raise in E.
      destruct E as [[_ [k Hk]]|[[k [s [Hk [Hs _]]]]|[k [s [Hk [Hs _]]]]]].
      * exact (Hc k None Hk eq_refl).
      * exact (Hf k s Hk Hs).
      * exact (Hi k s Hk Hs).
  - intros e He. apply parse_hdfc_raise in He. exact He.
  - intros k s Hk. apply in_app_or in Hk.
    unfold hdfc_amounts, hdfc_numbers, token in Hk. cbn [In] in Hk.
    repeat match type of Hk with
           | _ \/ _ => destruct Hk as [Hk|Hk]
           | False => destruct Hk
           | (_, _) = (_, _) => apply pair_equal_spec in Hk; destruct Hk as [_ Hk]
           end;
      repeat match type of Hk with
             | context [nth_error ?l ?i] => destruct (nth_error l i)
             | context [index ?l ?i] => destruct (index l i)
             end;
      cbn [option_map] in Hk; try discriminate Hk;
      injection Hk as <-; apply no_comma_left.
  - intros d Hd. split; [exact (Hok d Hd)|].
    apply parse_hdfc_ok in Hd. tauto.
Qed.
End Hdfc.

Lemma hdfc_record_or_bare_error_witness :
  parse_hdfc_bank_text (rt := ascii_runtime) truncated_document = Raise IndexError /\
  (exists d,
     parse_hdfc_bank_text (rt := ascii_runtime) reference_document = Ok d /\
     keys d = hdfc_fields /\
     dict_get d (str "Date of Receipt") = Some (VStr (str "05/01/2024")) /\
     dict_get d (str "Nature of Payment") = Some (VStr (str "94C")) /\
     dict_get d (str "Basic Tax") = Some (VFloat (Dec false 12345650 (-2))) /\
     dict_get d (str "TOTAL Amount") = Some (VFloat (Dec false 12670725 (-2))) /\
     dict_get d (str "Drawn on") = Some (VStr (str "HDFC Bank Ltd")) /\
     dict_get d (str "Payment Realisation Date") = Some (VStr (str "06/01/2024")) /\
     dict_get d (str "Challan No") = Some (VInt 12345)) /\
  parse_hdfc_bank_text (rt := ascii_runtime) misprinted_document
  = Raise (ValueError (str "could not convert string to float: '25O.75'")) /\
  parse_hdfc_bank_text (rt := ascii_runtime) undated_document = Raise IndexError.
Proof.
  split; [|split; [|split]].
  - apply (hdfc_record_or_bare_error (rt := ascii_runtime) truncated_document).
    vm_compute. lia.
  - destruct (hdfc_record_or_bare_error (rt := ascii_runtime) reference_document)
      as [_ [_ [_ [_ [_ [R [_ [_ H]]]]]]]].
    destruct R as [d E].
    + intros k c Hk. vm_compute in Hk.
      repeat (destruct Hk as [Hk|Hk]; [injection Hk as _ <-; discriminate|]).
      destruct Hk.
    + intros k s Hk. vm_compute in Hk.
      repeat (destruct Hk as [Hk|Hk]; [injection Hk as _ <-; discriminate|]).
      destruct Hk.
    + intros k s Hk. vm_compute in Hk.
      repeat (destruct Hk as [Hk|Hk]; [injection Hk as _ <-; discriminate|]).
      destruct Hk.
    + exists d. split; [exact E|].
      destruct (H d E) as [_ [K _]]. split; [exact K|].
      vm_compute in E. injection E as <-. repeat split; reflexivity.
  - destruct (hdfc_record_or_bare_error (rt := ascii_runtime) misprinted_document)
      as [_ [_ [_ [F _]]]].
    destruct (F (str "Interest") (str "25O.75")) as [e E]; [|reflexivity|].
    + right. left. reflexivity.
    + rewrite E. vm_compute in E. injection E as <-. reflexivity.
  - destruct (hdfc_record_or_bare_error (rt := ascii_runtime) undated_document)
      as [_ [_ [M _]]].
    destruct (M (str "Payment Realisation Date")) as [e E].
    + vm_compute. tauto.
    + rewrite E. vm_compute in E. injection E as <-. reflexivity.
Defined.

(** C5 as stated fails on the receipt cut to ten lines: what comes out is
    the interpreter's IndexError, whose message names none of the eleven
    fields and no line number. *)
Lemma truncated_receipt_raises_unnamed_error :
  parse_hdfc_bank_text (rt := ascii_runtime) truncated_document = Raise IndexError /\
  str_exn (rt := ascii_runtime) IndexError = str "list index out of range" /\
  forallb (fun field => negb (contains field (str_exn (rt := ascii_runtime) IndexError)))
    hdfc_fields = true /\
  existsb ascii_digit (str_exn (rt := ascii_runtime) IndexError) = false.
Proof. repeat split; vm_compute; reflexivity. Qed.

(** ** PrefixLineParser: [parse_income_tax_text] *)

(** One turn of the loop does what the first predicate that holds says. *)
Lemma income_tax_line_first_match (details : dict text) (line : text) :
  income_tax_line details line = Ok (store details line).
Proof.
  unfold income_tax_line, store, first_match, predicates.
  cbn [find holds fst snd].
  repeat match goal with
         | |- context [if ?b then _ else _] =>
             destruct b eqn:?; [| ]
         end;
    rewrite ?after_last_ok, ?index_last_split; cbn [bind];
    rewrite ?index_first_split; cbn [bind]; reflexivity.
Qed.

Lemma income_tax_lines_scan (lines : list text) :
  forall details, income_tax_lines details lines = Ok (fold_left store lines details).
Proof.
  induction lines as [|line lines IH]; intros details; [reflexivity|].
  cbn [income_tax_lines fold_left].
  rewrite income_tax_line_first_match. cbn [bind]. apply IH.
Qed.

Lemma parse_income_tax_scan (t : text) :
  parse_income_tax_text t = Ok (scan (split newline t)).
Proof. unfold parse_income_tax_text, scan. apply income_tax_lines_scan. Qed.

Lemma dict_get_set_same {V} (d : dict V) (k : text) (v : V) :
  dict_get (dict_set d k v) k = Some v.
Proof.
  induction d as [|[k' v'] d IH]; simpl.
  - rewrite text_eqb_refl. reflexivity.
  - destruct (text_eqb k' k) eqn:E; simpl; rewrite E; [reflexivity | exact IH].
Qed.

Lemma dict_get_set_other {V} (d : dict V) (k k' : text) (v : V) :
  k' <> k -> dict_get (dict_set d k' v) k = dict_get d k.
Proof.
  intros Hne. pose proof (proj2 (text_eqb_neq k' k) Hne) as Hb.
  induction d as [|[k0 v0] d IH]; simpl.
  - rewrite Hb. reflexivity.
  - destruct (text_eqb k0 k') eqn:E; simpl.
    + apply text_eqb_eq in E. subst k0. rewrite Hb. reflexivity.
    + rewrite IH. reflexivity.
Qed.

Lemma keys_dict_set {V} (d : dict V) (k : text) (v : V) :
  keys (dict_set d k v) = if mem k (keys d) then keys d else keys d ++ [k].
Proof.
  unfold keys, mem. induction d as [|[k' v'] d IH]; simpl; [reflexivity|].
  destruct (text_eqb k' k) eqn:E.
  - apply text_eqb_eq in E. subst k'. rewrite text_eqb_refl. reflexivity.
  - assert (E' : text_eqb k k' = false).
    { apply text_eqb_neq. apply text_eqb_neq in E. congruence. }
    rewrite E'. simpl. rewrite IH.
    destruct (existsb (text_eqb k) (map fst d)); reflexivity.
Qed.

Lemma In_dict_set {V} (d : dict V) (k : text) (v : V) (k' : text) (v' : V) :
  In (k', v') (dict_set d k v) -> (k', v') = (k, v) \/ In (k', v') d.
Proof.
  induction d as [|[k0 v0] d IH]; simpl.
  - intros [E|[]]; left; congruence.
  - destruct (text_eqb k0 k) eqn:E; simpl.
    + apply text_eqb_eq in E. subst k0.
      intros [H|H]; [left; congruence | right; right; exact H].
    + intros [H|H]; [right; left; exact H|].
      destruct (IH H) as [H'|H']; [left | right; right]; exact H'.
Qed.

Lemma scan_app (before after : list text) :
  scan (before ++ after) = fold_left store after (scan before).
Proof. unfold scan. apply fold_left_app. Qed.

(** A field stored by a line stays as it is while no later line matches it. *)
Lemma fold_store_keeps (after : list text) (field : text) :
  (forall l, In l after -> forall v', first_match l <> Some (field, v')) ->
  forall details, dict_get (fold_left store after details) field = dict_get details field.
Proof.
  induction after as [|l after IH]; intros H details; [reflexivity|].
  cbn [fold_left]. rewrite IH by (intros l' Hl'; apply H; right; exact Hl').
  unfold store. destruct (first_match l) as [[k v]|] eqn:E; [|reflexivity].
  apply dict_get_set_other. intros ->. apply (H l (or_introl eq_refl) v E).
Qed.

Lemma find_first {A} (f : A -> bool) (l : list A) (a : A) :
  find f l = Some a ->
  exists pre post,
    l = pre ++ a :: post /\ f a = true /\ forallb (fun x => negb (f x)) pre = true.
Proof.
  induction l as [|x l IH]; simpl; [discriminate|].
  destruct (f x) eqn:E.
  - intros H. injection H as <-. exists [], l. auto.
  - intros H. destruct (IH H) as [pre [post [-> [Ha Hp]]]].
    exists (x :: pre), post. simpl. rewrite E. auto.
Qed.

(** C6.  The parser is one pass over the lines in which every line is
    tested against the ordered predicate list and the first predicate that
    holds, and only that one, extracts the value: the trimmed text after the
    last colon (cut at "Tax Breakup Details" for the tender date) or after
    the last currency marker.  The line "Nature of Payment: TDS on Salary"
    yields that field with the value "TDS on Salary"; a line on which no
    predicate holds leaves the record as it was; and a field holds the value
    of the last line that matched it. *)
Theorem first_predicate_extracts_last_line_wins :
  (forall t, parse_income_tax_text t = Ok (scan (split newline t))) /\
  (forall line field v,
     first_match line = Some (field, v) ->
     exists earlier p x later,
       predicates = earlier ++ (p, field, x) :: later /\
       holds p line = true /\
       forallb (fun q => negb (holds (fst (fst q)) line)) earlier = true /\
       v = extract x line) /\
  parse_income_tax_text (str "Nature of Payment: TDS on Salary")
  = Ok [(str "Nature of Payment", str "TDS on Salary")] /\
  (forall before line after,
     first_match line = None ->
     scan (before ++ line :: after) = scan (before ++ after)) /\
  (forall before line after field v,
     first_match line = Some (field, v) ->
     (forall l, In l after -> forall v', first_match l <> Some (field, v')) ->
     dict_get (scan (before ++ line :: after)) field = Some v).
Proof.
  split; [exact parse_income_tax_scan|]. split; [|split; [reflexivity|split]].
  - intros line field v H. unfold first_match in H.
    destruct (find (fun p => holds (fst (fst p)) line) predicates)
      as [[[p f] x]|] eqn:E; [|discriminate].
    injection H as <- <-.
    destruct (find_first _ _ E) as [earlier [later [Hp [Hh He]]]].
    exists earlier, p, x, later. auto.
  - intros before line after H.
    rewrite !scan_app. cbn [fold_left]. unfold store at 2. rewrite H. reflexivity.
  - intros before line after field v H Hafter.
    rewrite scan_app. cbn [fold_left].
    rewrite (fold_store_keeps after Hafter).
    unfold store. rewrite H. apply dict_get_set_same.
Qed.

Lemma first_predicate_extracts_last_line_wins_witness :
  first_match (str "Challan No: 00042 Amount (in Rs.): 1,500  ")
  = Some (str "Amount (in Rs.)", str "1,500") /\
  scan (firstn 1 challan_lines ++ str "Income Tax Department" :: skipn 2 challan_lines)
  = scan (firstn 1 challan_lines ++ skipn 2 challan_lines) /\
  dict_get (scan challan_lines) (str "Nature of Payment") = Some (str "TDS on Salary") /\
  dict_get (scan challan_lines) (str "Tender Date") = Some (str "05/01/2024").
Proof.
  destruct first_predicate_extracts_last_line_wins as [_ [_ [_ [Hnone Hlast]]]].
  split; [reflexivity|]. split; [|split].
  - apply Hnone. reflexivity.
  - apply (Hlast (firstn 5 challan_lines) (str "Nature of Payment:  TDS on Salary ")
             [str ""]).
    + reflexivity.
    + intros l [<-|[]] v'. discriminate.
  - apply (Hlast (firstn 3 challan_lines) (nth 3 challan_lines []) (skipn 4 challan_lines)).
    + reflexivity.
    + intros l Hl v'. simpl in Hl.
      destruct Hl as [<-|[<-|[<-|[]]]]; vm_compute; discriminate.
Defined.

Lemma head_ok_lstrip (s : text) : head_ok (lstrip s) = true.
Proof.
  induction s as [|c s IH]; [reflexivity|].
  simpl. destruct (is_space c) eqn:E; [exact IH|]. simpl. rewrite E. reflexivity.
Qed.

Lemma lstrip_suffix (s : text) : exists p, s = p ++ lstrip s.
Proof.
  induction s as [|c s [p IH]]; [exists []; reflexivity|].
  simpl. destruct (is_space c).
  - exists (c :: p). simpl. f_equal. exact IH.
  - exists []. reflexivity.
Qed.

(** The head of a non-empty prefix is the head of the whole. *)
Lemma head_ok_app (a b : text) : a <> [] -> head_ok (a ++ b) = head_ok a.
Proof. destruct a; [congruence | reflexivity]. Qed.

(** [s.strip()] has no whitespace at either end. *)
Lemma strip_trimmed (s : text) : trimmed (strip s) = true.
Proof.
  unfold trimmed, strip. rewrite head_ok_lstrip. simpl.
  destruct (lstrip_suffix (rstrip s)) as [p Hp].
  destruct (rev (lstrip (rstrip s))) as [|c r] eqn:E; [reflexivity|].
  assert (H : head_ok (rev (rstrip s)) = true).
  { unfold rstrip. rewrite rev_involutive. apply head_ok_lstrip. }
  rewrite Hp, rev_app_distr, E in H.
  rewrite head_ok_app in H by discriminate. exact H.
Qed.

Lemma first_match_field (line field v : text) :
  first_match line = Some (field, v) ->
  In field income_tax_fields /\ trimmed v = true.
Proof.
  unfold first_match. intros H.
  destruct (find (fun p => holds (fst (fst p)) line) predicates)
    as [[[p f] x]|] eqn:E; [|discriminate].
  injection H as <- <-. apply find_some in E. destruct E as [E _].
  split.
  - unfold predicates in E. simpl in E.
    repeat (destruct E as [E|E]; [injection E as _ <- _; simpl; tauto|]).
    destruct E.
  - destruct x; apply strip_trimmed.
Qed.

(** What every record built by the scan satisfies. *)
Lemma store_invariant (details : dict text) (line : text) :
  incl (keys details) income_tax_fields /\ NoDup (keys details) /\
  (forall field v, In (field, v) details -> trimmed v = true) ->
  incl (keys (store details line)) income_tax_fields /\
  NoDup (keys (store details line)) /\
  (forall field v, In (field, v) (store details line) -> trimmed v = true).
Proof.
  intros [Hi [Hn Ht]]. unfold store.
  destruct (first_match line) as [[k v]|] eqn:E; [|auto].
  destruct (first_match_field _ E) as [Hk Hv].
  rewrite keys_dict_set. destruct (mem k (keys details)) eqn:M.
  - split; [exact Hi|]. split; [exact Hn|].
    intros f w H. apply In_dict_set in H. destruct H as [H|H].
    + congruence.
    + apply (Ht f w H).
  - split; [|split].
    + intros f Hf. apply in_app_or in Hf. destruct Hf as [Hf|[<-|[]]]; auto.
    + apply NoDup_app.
      * exact Hn.
      * repeat constructor. simpl. tauto.
      * intros f Hf [<-|[]]. apply mem_In in Hf. congruence.
    + intros f w H. apply In_dict_set in H. destruct H as [H|H].
      * congruence.
      * apply (Ht f w H).
Qed.

Lemma scan_invariant (lines : list text) :
  forall details,
    incl (keys details) income_tax_fields /\ NoDup (keys details) /\
    (forall field v, In (field, v) details -> trimmed v = true) ->
    incl (keys (fold_left store lines details)) income_tax_fields /\
    NoDup (keys (fold_left store lines details)) /\
    (forall field v, In (field, v) (fold_left store lines details) -> trimmed v = true).
Proof.
  induction lines as [|line lines IH]; intros details H; [exact H|].
  cbn [fold_left]. apply IH, store_invariant, H.
Qed.

Section IncomeTax.
Context {rt : Runtime}.

Lemma process_document_income_tax (pdf_file : pdf_file) :
  process_document (str "TDS Payments") (str "Income Tax Department") pdf_file =
  (raw_text <- process_income_tax pdf_file;;
   parsed_data <- parse_income_tax_text raw_text;;
   Ok (one_row (map (fun kv => (fst kv, Some (VStr (snd kv)))) parsed_data))).
Proof. reflexivity. Qed.

(** C10.  On every text the parser returns a record, never an exception;
    the keys of the record are among the eight field names, no key occurs
    twice, and every value is a string without whitespace at either end.
    The values go into the frame of the document as those strings: nothing
    is converted to a number. *)
Theorem income_tax_record_invariants (t : text) :
  exists details,
    parse_income_tax_text t = Ok details /\
    incl (keys details) income_tax_fields /\
    length income_tax_fields = 8 /\
    NoDup (keys details) /\
    (forall field v, In (field, v) details -> trimmed v = true) /\
    (forall pdf_file,
       process_income_tax pdf_file = Ok t ->
       process_document (str "TDS Payments") (str "Income Tax Department") pdf_file =
       Ok {| columns := keys details;
             rows := [map (fun kv => Some (VStr (snd kv))) details] |}).
Proof.
  exists (scan (split newline t)).
  split; [apply parse_income_tax_scan|].
  destruct (scan_invariant (split newline t) []) as [Hi [Hn Ht]].
  { split; [intros k []|]. split; [constructor|]. intros f v []. }
  split; [exact Hi|]. split; [reflexivity|]. split; [exact Hn|].
  split; [exact Ht|].
  intros pdf_file H. rewrite process_document_income_tax, H. cbn [bind].
  rewrite parse_income_tax_scan. cbn [bind]. unfold one_row, keys.
  rewrite !map_map. reflexivity.
Qed.
End IncomeTax.

(** ** DocumentProcessor: the main processing loop *)

Section Returns.
Context {rt : Runtime}.

Lemma details_one_row (pdf_path : pdf_file) :
  exists details_df field_record,
    extract_details_from_pdf pdf_path = Ok details_df /\
    rows details_df = [field_record].
Proof.
  destruct (decoded_text pdf_path) as [t|e] eqn:E.
  - do 2 eexists. rewrite (extract_details_decoded _ E). split; reflexivity.
  - do 2 eexists. rewrite (extract_details_failed _ E). split; reflexivity.
Qed.

Lemma extract_table_returns (pdf_path : pdf_file) :
  returns (extract_table_from_pdf pdf_path).
Proof.
  unfold extract_table_from_pdf, returns, try_except.
  match goal with |- exists a, match ?r with _ => _ end = _ => destruct r end; eauto.
Qed.

Lemma process_document_returns (payment_option : text) (pdf_file : pdf_file) :
  process_document (str "TDS Returns") payment_option pdf_file =
  (details_df <- extract_details_from_pdf pdf_file;;
   table_df <- extract_table_from_pdf pdf_file;;
   pd_concat [details_df; table_df]).
Proof. reflexivity. Qed.

Lemma extract_table_failed (pdf_path : pdf_file) (e : exn) :
  decoded_rows pdf_path = Raise e ->
  extract_table_from_pdf pdf_path = Ok (error_frame e).
Proof.
  unfold decoded_rows, extract_table_from_pdf. intros H.
  destruct (plumber_open pdf_path) as [pdf|e']; simpl in *.
  - rewrite H. reflexivity.
  - congruence.
Qed.

(** Under TDS Returns the body of the loop's [try] always reaches
    [combined_df]. *)
Lemma returns_document_never_raises (payment_option : text) (pdf_file : pdf_file) :
  returns (process_document (str "TDS Returns") payment_option pdf_file).
Proof.
  rewrite process_document_returns.
  destruct (details_one_row pdf_file) as [details_df [field_record [Hd _]]].
  destruct (extract_table_returns pdf_file) as [table_df Ht].
  rewrite Hd, Ht. cbn [bind]. eexists. reflexivity.
Qed.

(** A file that cannot be opened becomes two Error rows. *)
Lemma returns_document_unopened (payment_option : text) (pdf_file : pdf_file) (e : exn) :
  plumber_open pdf_file = Raise e ->
  process_document (str "TDS Returns") payment_option pdf_file =
  Ok {| columns := [str "Error"];
        rows := [[Some (VStr (str_exn e))]; [Some (VStr (str_exn e))]] |}.
Proof.
  intros H. rewrite process_document_returns.
  rewrite (extract_details_failed pdf_file (e := e))
    by (unfold decoded_text; rewrite H; reflexivity).
  rewrite (extract_table_failed pdf_file (e := e))
    by (unfold decoded_rows; rewrite H; reflexivity).
  reflexivity.
Qed.
(** While no document raises, the loop collects a frame for every document
    and no error entry. *)
Lemma loop_without_errors (option payment_option : text)
    (uploaded_files : list pdf_file) :
  (forall pdf_file, returns (process_document option payment_option pdf_file)) ->
  forall st,
    errors (fold_left (process_file option payment_option) uploaded_files st) = errors st /\
    length (extracted_data (fold_left (process_file option payment_option)
                              uploaded_files st))
    = length (extracted_data st) + length uploaded_files.
Proof.
  intros Hr. induction uploaded_files as [|f fs IH]; intros st.
  - simpl. split; [reflexivity | lia].
  - cbn [fold_left]. destruct (IH (process_file option payment_option st f)) as [He Hl].
    rewrite He, Hl. unfold process_file. destruct (Hr f) as [df Hf]. rewrite Hf.
    cbn [errors extracted_data]. rewrite length_app. simpl. split; [reflexivity | lia].
Qed.

Lemma returns_loop_without_errors (payment_option : text) (uploaded_files : list pdf_file) :
  errors (main_loop (str "TDS Returns") payment_option uploaded_files) = [] /\
  length (extracted_data (main_loop (str "TDS Returns") payment_option uploaded_files))
  = length uploaded_files.
Proof.
  unfold main_loop.
  apply (loop_without_errors (str "TDS Returns") payment_option uploaded_files).
  apply returns_document_never_raises.
Qed.
End Returns.

Section Loop.
Context {rt : Runtime}.
Variables option payment_option : text.

Lemma process_file_from (st : session) (pdf_file : pdf_file) :
  process_file option payment_option st pdf_file =
  {| extracted_data :=
       extracted_data st
       ++ extracted_data (process_file option payment_option
                            {| extracted_data := []; errors := [] |} pdf_file);
     errors :=
       errors st
       ++ errors (process_file option payment_option
                    {| extracted_data := []; errors := [] |} pdf_file) |}.
Proof.
  unfold process_file.
  destruct (process_document option payment_option pdf_file); simpl;
    rewrite ?app_nil_r; reflexivity.
Qed.

Lemma loop_from (uploaded_files : list pdf_file) :
  forall st,
    fold_left (process_file option payment_option) uploaded_files st =
    {| extracted_data :=
         extracted_data st ++ extracted_data (main_loop option payment_option uploaded_files);
       errors := errors st ++ errors (main_loop option payment_option uploaded_files) |}.
Proof.
  unfold main_loop.
  induction uploaded_files as [|f fs IH]; intros st.
  - simpl. rewrite !app_nil_r. destruct st; reflexivity.
  - cbn [fold_left]. rewrite IH.
    rewrite (IH (process_file option payment_option _ f)).
    rewrite (process_file_from st f). cbn [extracted_data errors].
    rewrite !app_assoc. reflexivity.
Qed.

(** C7, as the code has it.  An exception that leaves the body of the
    loop's [try], as the payment parsers and an invalid selection raise
    them, is caught by the loop and turned into one error entry that carries
    the name of the document and the message, and the loop goes on: what it
    collects for a batch is what it collects for the documents before,
    followed by what it collects for those after.  When the second of three
    documents fails this way, the frames of the first and the third are
    collected and one error entry names the second.  Under TDS Returns the
    two extractors catch their exceptions themselves: the loop collects a
    frame for every document and no error entry, and a file that cannot be
    opened becomes two Error rows that carry the message only. *)
Theorem failing_document_is_reported_and_skipped :
  (forall st pdf_file e,
     process_document option payment_option pdf_file = Raise e ->
     process_file option payment_option st pdf_file =
     {| extracted_data := extracted_data st;
        errors := errors st ++ [str "Error processing '" ++ name pdf_file
                                ++ str "': " ++ str_exn e] |}) /\
  (forall st pdf_file combined_df,
     process_document option payment_option pdf_file = Ok combined_df ->
     process_file option payment_option st pdf_file =
     {| extracted_data := extracted_data st ++ [combined_df];
        errors := errors st |}) /\
  (forall before after,
     extracted_data (main_loop option payment_option (before ++ after)) =
     extracted_data (main_loop option payment_option before)
     ++ extracted_data (main_loop option payment_option after) /\
     errors (main_loop option payment_option (before ++ after)) =
     errors (main_loop option payment_option before)
     ++ errors (main_loop option payment_option after)) /\
  (forall first second third df1 e df3,
     process_document option payment_option first = Ok df1 ->
     process_document option payment_option second = Raise e ->
     process_document option payment_option third = Ok df3 ->
     main_loop option payment_option [first; second; third] =
     {| extracted_data := [df1; df3];
        errors := [error_message second e] |}) /\
  (forall uploaded_files,
     errors (main_loop (str "TDS Returns") payment_option uploaded_files) = [] /\
     length (extracted_data (main_loop (str "TDS Returns") payment_option uploaded_files))
     = length uploaded_files) /\
  (forall pdf_file e,
     plumber_open pdf_file = Raise e ->
     process_document (str "TDS Returns") payment_option pdf_file =
     Ok {| columns := [str "Error"];
           rows := [[Some (VStr (str_exn e))]; [Some (VStr (str_exn e))]] |}).
Proof.
  split; [|split; [|split; [|split; [|split]]]].
  - intros st f e H. unfold process_file. rewrite H. reflexivity.
  - intros st f df H. unfold process_file. rewrite H. reflexivity.
  - intros before after. unfold main_loop at 1 4.
    rewrite !fold_left_app. fold (main_loop option payment_option before).
    rewrite loop_from. split; reflexivity.
  - intros f1 f2 f3 df1 e df3 H1 H2 H3.
    unfold main_loop, process_file. simpl. rewrite H1. simpl. rewrite H2. simpl.
    rewrite H3. reflexivity.
  - intros files. apply returns_loop_without_errors.
  - intros f e. apply returns_document_unopened.
Qed.
End Loop.

Lemma failing_document_is_reported_and_skipped_witness :
  (exists df1 df3,
     main_loop (rt := ascii_runtime) (str "TDS Payments") (str "HDFC Bank")
       [receipt_pdf "first.pdf" reference_lines;
        receipt_pdf "cut.pdf" (firstn 10 reference_lines);
        receipt_pdf "third.pdf" reference_lines] =
     {| extracted_data := [df1; df3];
        errors := [str "Error processing 'cut.pdf': list index out of range"] |} /\
     columns df1 = hdfc_fields /\ columns df3 = hdfc_fields) /\
  process_document (rt := ascii_runtime) (str "TDS Returns") (str "HDFC Bank")
    unreadable_pdf =
  Ok {| columns := [str "Error"];
        rows := [[Some (VStr (str "No /Root object! - Is this really a PDF?"))];
                 [Some (VStr (str "No /Root object! - Is this really a PDF?"))]] |}.
Proof.
  destruct (failing_document_is_reported_and_skipped
              (rt := ascii_runtime) (str "TDS Payments") (str "HDFC Bank"))
    as [_ [_ [_ [H [_ U]]]]].
  split; [|apply (U unreadable_pdf _ eq_refl)].
  destruct (process_document (rt := ascii_runtime) (str "TDS Payments") (str "HDFC Bank")
              (receipt_pdf "first.pdf" reference_lines)) as [df1|e1] eqn:E1;
    [|vm_compute in E1; discriminate E1].
  destruct (process_document (rt := ascii_runtime) (str "TDS Payments") (str "HDFC Bank")
              (receipt_pdf "cut.pdf" (firstn 10 reference_lines))) as [df2|e2] eqn:E2;
    [vm_compute in E2; discriminate E2|].
  destruct (process_document (rt := ascii_runtime) (str "TDS Payments") (str "HDFC Bank")
              (receipt_pdf "third.pdf" reference_lines)) as [df3|e3] eqn:E3;
    [|vm_compute in E3; discriminate E3].
  exists df1, df3. rewrite (H _ _ _ _ _ _ E1 E2 E3).
  pose proof E1 as C1. pose proof E2 as C2. pose proof E3 as C3.
  vm_compute in C1, C2, C3.
  injection C1 as <-. injection C2 as <-. injection C3 as <-.
  repeat split; reflexivity.
Defined.

(** C7 as stated fails under TDS Returns: when the second of three returns
    cannot be opened, the exception is caught inside the extractors, the
    loop reports no error entry, and the frame of the document is two Error
    rows whose text does not carry the name of the document. *)
Lemma unreadable_return_is_not_reported_by_the_loop :
  decoded_text unreadable_pdf
  = Raise (DecoderError (str "No /Root object! - Is this really a PDF?")) /\
  errors (main_loop (rt := ascii_runtime) (str "TDS Returns") [] returns_batch) = [] /\
  nth_error (extracted_data
               (main_loop (rt := ascii_runtime) (str "TDS Returns") [] returns_batch)) 1 =
  Some {| columns := [str "Error"];
          rows := [[Some (VStr (str "No /Root object! - Is this really a PDF?"))];
                   [Some (VStr (str "No /Root object! - Is this really a PDF?"))]] |} /\
  contains (name unreadable_pdf) (str "No /Root object! - Is this really a PDF?") = false.
Proof. repeat split; vm_compute; reflexivity. Qed.

Lemma income_tax_record_invariants_witness :
  exists details,
    parse_income_tax_text (join newline challan_lines) = Ok details /\
    keys details = [str "Nature of Payment"; str "Amount (in Rs.)"; str "Tender Date";
                    str "Interest"] /\
    process_document (rt := ascii_runtime) (str "TDS Payments")
      (str "Income Tax Department") challan_pdf =
    Ok {| columns := keys details;
          rows := [[Some (VStr (str "TDS on Salary")); Some (VStr (str "1,500"));
                    Some (VStr (str "05/01/2024")); Some (VStr (str "250"))]] |}.
Proof.
  destruct (income_tax_record_invariants (rt := ascii_runtime)
              (join newline challan_lines)) as [details [E [_ [_ [_ [_ F]]]]]].
  exists details. split; [exact E|].
  rewrite (F challan_pdf eq_refl).
  vm_compute in E. injection E as <-. split; reflexivity.
Defined.

(** ** Aggregator: [pd.concat] over the collected frames *)

Lemma union_cols_keeps (new acc : list text) (c : text) :
  In c acc -> In c (union_cols acc new).
Proof.
  unfold union_cols. revert acc. induction new as [|x new IH]; intros acc H; [exact H|].
  cbn [fold_left]. apply IH. destruct (mem x acc); [exact H|].
  apply in_or_app. left; exact H.
Qed.

Lemma union_cols_adds (new acc : list text) (c : text) :
  In c new -> In c (union_cols acc new).
Proof.
  unfold union_cols. revert acc. induction new as [|x new IH]; intros acc H; [destruct H|].
  cbn [fold_left]. destruct H as [->|H]; [|apply IH, H].
  apply (union_cols_keeps new). destruct (mem c acc) eqn:M.
  - apply mem_In, M.
  - apply in_or_app. right. left. reflexivity.
Qed.

(** Labels that are all there already add no column. *)
Lemma union_cols_known (new acc : list text) :
  incl new acc -> union_cols acc new = acc.
Proof.
  unfold union_cols. induction new as [|x new IH]; intros H; [reflexivity|].
  cbn [fold_left].
  assert (M : mem x acc = true) by (apply mem_In, H; left; reflexivity).
  rewrite M. apply IH. intros y Hy. apply H. right; exact Hy.
Qed.

Lemma union_cols_fresh (new acc : list text) :
  NoDup (acc ++ new) -> union_cols acc new = acc ++ new.
Proof.
  unfold union_cols. revert acc. induction new as [|x new IH]; intros acc H.
  - simpl. rewrite app_nil_r. reflexivity.
  - cbn [fold_left].
    assert (M : mem x acc = false).
    { destruct (mem x acc) eqn:M; [|reflexivity]. apply mem_In in M.
      apply NoDup_remove_2 in H. exfalso. apply H. apply in_or_app. left; exact M. }
    rewrite M. rewrite IH; rewrite <- app_assoc; [reflexivity | exact H].
Qed.

Lemma union_cols_NoDup (new acc : list text) :
  NoDup acc -> NoDup (union_cols acc new).
Proof.
  unfold union_cols. revert acc. induction new as [|x new IH]; intros acc H; [exact H|].
  cbn [fold_left]. apply IH. destruct (mem x acc) eqn:M; [exact H|].
  apply NoDup_app; [exact H | repeat constructor; simpl; tauto |].
  intros y Hy [<-|[]]. apply mem_In in Hy. congruence.
Qed.

(** The columns of a concatenation, starting from the labels [acc]. *)
Lemma all_columns_keep (objs : list DataFrame) :
  forall acc c, In c acc ->
    In c (fold_left (fun a df => union_cols a (columns df)) objs acc).
Proof.
  induction objs as [|df objs IH]; intros acc c H; [exact H|].
  cbn [fold_left]. apply IH, union_cols_keeps, H.
Qed.

Lemma all_columns_cover (objs : list DataFrame) (df : DataFrame) (c : text) :
  In df objs -> In c (columns df) ->
  forall acc, In c (fold_left (fun a df => union_cols a (columns df)) objs acc).
Proof.
  induction objs as [|x objs IH]; intros Hdf Hc acc; [destruct Hdf|].
  cbn [fold_left]. destruct Hdf as [->|Hdf].
  - apply all_columns_keep, union_cols_adds, Hc.
  - apply IH; assumption.
Qed.

Lemma all_columns_known (more : list DataFrame) (acc : list text) :
  (forall df, In df more -> incl (columns df) acc) ->
  fold_left (fun a df => union_cols a (columns df)) more acc = acc.
Proof.
  induction more as [|df more IH]; intros H; [reflexivity|].
  cbn [fold_left]. rewrite union_cols_known by (apply H; left; reflexivity).
  apply IH. intros df' Hdf'. apply H. right; exact Hdf'.
Qed.

Lemma all_columns_NoDup (objs : list DataFrame) :
  forall acc, NoDup acc ->
    NoDup (fold_left (fun a df => union_cols a (columns df)) objs acc).
Proof.
  induction objs as [|df objs IH]; intros acc H; [exact H|].
  cbn [fold_left]. apply IH, union_cols_NoDup, H.
Qed.

Lemma position_In (cols : list text) (c : text) :
  In c cols -> exists j, position c cols = Some j /\ j < length cols /\
                         forall d, nth j cols d = c.
Proof.
  induction cols as [|x cols IH]; intros H; [destruct H|].
  simpl. destruct (text_eqb x c) eqn:E.
  - apply text_eqb_eq in E. exists 0. repeat split; [lia | intros; exact E].
  - destruct H as [->|H]; [rewrite text_eqb_refl in E; discriminate|].
    destruct (IH H) as [j [Hj [Hl Hn]]]. exists (S j). rewrite Hj.
    repeat split; [lia | exact Hn].
Qed.

Lemma position_nth (cols : list text) :
  NoDup cols -> forall j d, j < length cols -> position (nth j cols d) cols = Some j.
Proof.
  induction cols as [|x cols IH]; intros H j d Hj; [simpl in Hj; lia|].
  inversion H as [|? ? Hx Hn]; subst. destruct j as [|j]; simpl.
  - rewrite text_eqb_refl. reflexivity.
  - simpl in Hj. destruct (text_eqb x (nth j cols d)) eqn:E.
    + apply text_eqb_eq in E. exfalso. apply Hx. rewrite E. apply nth_In. lia.
    + rewrite IH by (assumption || lia). reflexivity.
Qed.

(** A row laid out again along columns that include [c] keeps its cell
    under [c]. *)
Lemma cell_under_reindexed (cols : list text) (g : text -> cell) (c : text) :
  In c cols -> cell_under cols (map g cols) c = g c.
Proof.
  intros H. destruct (position_In cols c H) as [j [Hj [Hl Hn]]].
  unfold cell_under. rewrite Hj.
  rewrite (nth_indep _ None (g c)) by (rewrite length_map; exact Hl).
  rewrite map_nth. rewrite Hn. reflexivity.
Qed.

(** A row laid out along its own columns is itself. *)
Lemma reindex_own_row (cols : list text) (r : list cell) :
  NoDup cols -> length r = length cols -> map (cell_under cols r) cols = r.
Proof.
  intros Hn Hl. apply (nth_ext _ _ None None).
  - rewrite length_map. symmetry; exact Hl.
  - intros j Hj. rewrite length_map in Hj.
    rewrite (nth_indep _ None (cell_under cols r [])) by (rewrite length_map; exact Hj).
    rewrite map_nth. unfold cell_under.
    rewrite position_nth by assumption. reflexivity.
Qed.

Lemma length_reindex (cols : list text) (df : DataFrame) :
  length (reindex cols df) = length (rows df).
Proof. unfold reindex. apply length_map. Qed.

Lemma total_rows_cons (df : DataFrame) (objs : list DataFrame) :
  total_rows (df :: objs) = length (rows df) + total_rows objs.
Proof. reflexivity. Qed.

Lemma total_rows_app (before after : list DataFrame) :
  total_rows (before ++ after) = total_rows before + total_rows after.
Proof. unfold total_rows. rewrite map_app. apply list_sum_app. Qed.

Lemma length_rows_concat (cols : list text) (objs : list DataFrame) :
  length (flat_map (reindex cols) objs) = total_rows objs.
Proof.
  induction objs as [|df objs IH]; [reflexivity|].
  rewrite total_rows_cons. cbn [flat_map].
  rewrite length_app, length_reindex, IH. reflexivity.
Qed.

Lemma pd_concat_ok (objs : list DataFrame) (T : DataFrame) :
  pd_concat objs = Ok T ->
  objs <> [] /\
  T = {| columns := fold_left (fun a df => union_cols a (columns df)) objs [];
         rows := map (astype_row (concat_dtype objs)
                        (fold_left (fun a df => union_cols a (columns df)) objs []))
                   (flat_map (reindex (fold_left (fun a df => union_cols a (columns df))
                                         objs [])) objs) |}.
Proof.
  destruct objs as [|df objs]; simpl; [discriminate|].
  intros H. injection H as <-. split; [discriminate | reflexivity].
Qed.

Lemma pd_concat_nonempty (objs : list DataFrame) :
  objs <> [] ->
  pd_concat objs =
  Ok {| columns := fold_left (fun a df => union_cols a (columns df)) objs [];
        rows := map (astype_row (concat_dtype objs)
                       (fold_left (fun a df => union_cols a (columns df)) objs []))
                  (flat_map (reindex (fold_left (fun a df => union_cols a (columns df))
                                        objs [])) objs) |}.
Proof. destruct objs; [congruence | reflexivity]. Qed.

(** *** Moving cells into the dtype of their column *)

Lemma astype_row_reindexed (dtypes : text -> dtype) (cols : list text) (g : text -> cell) :
  astype_row dtypes cols (map g cols) = map (fun c => astype (dtypes c) (g c)) cols.
Proof.
  unfold astype_row. induction cols as [|c cols IH]; [reflexivity|].
  cbn [map combine fst snd]. rewrite IH. reflexivity.
Qed.

Lemma astype_row_ext (dt dt' : text -> dtype) (cols : list text) (row : list cell) :
  (forall c, In c cols -> dt c = dt' c) ->
  astype_row dt cols row = astype_row dt' cols row.
Proof.
  intros H. unfold astype_row. apply map_ext_in. intros [c x] Hin.
  apply in_combine_l in Hin. cbn [fst snd]. rewrite (H c Hin). reflexivity.
Qed.

Lemma astype_not_int (d : dtype) (x : cell) : is_int x = false -> astype d x = x.
Proof. destruct d, x as [[s|f|z]|]; simpl; congruence. Qed.

Lemma astype_missing (d : dtype) : astype d None = None.
Proof. destruct d; reflexivity. Qed.

Lemma astype_not_float64 (d : dtype) (x : cell) : d <> float64 -> astype d x = x.
Proof. destruct d, x as [[s|f|z]|]; simpl; congruence. Qed.

(** A column that stores an integer is not a column of floats. *)
Lemma column_dtype_with_int (cells : list cell) (x : cell) :
  In x cells -> is_int x = true -> column_dtype cells <> float64.
Proof.
  intros Hin Hx. unfold column_dtype.
  assert (E : existsb is_int cells = true) by (apply existsb_exists; eauto).
  rewrite E.
  repeat match goal with |- context [if ?b then _ else _] => destruct b end;
    discriminate.
Qed.

Lemma astype_column_dtype (cells : list cell) (x : cell) :
  In x cells -> astype (column_dtype cells) x = x.
Proof.
  intros Hin. destruct (is_int x) eqn:E; [|apply astype_not_int, E].
  apply astype_not_float64. apply (column_dtype_with_int cells x Hin E).
Qed.

Lemma dtype_eqb_refl (d : dtype) : dtype_eqb d d = true.
Proof. destruct d; reflexivity. Qed.

Lemma find_common_type_two (d : dtype) : find_common_type [d; d] = d.
Proof. unfold find_common_type. cbn [forallb]. rewrite dtype_eqb_refl. reflexivity. Qed.

Lemma concat_dtype_one (A : DataFrame) (c : text) :
  concat_dtype [A] c =
  if mem c (columns A) then column_dtype (column_cells A c) else object.
Proof.
  unfold concat_dtype. cbn [filter forallb]. destruct (mem c (columns A)); reflexivity.
Qed.

(** A frame next to itself has the column types it has alone. *)
Lemma concat_dtype_twice (A : DataFrame) (c : text) :
  concat_dtype [A; A] c = concat_dtype [A] c.
Proof.
  rewrite concat_dtype_one. unfold concat_dtype. cbn [filter forallb].
  destruct (mem c (columns A)); cbn [map andb]; [apply find_common_type_two | reflexivity].
Qed.

(** Frames that agree on the dtype of a column keep it. *)
Lemma concat_dtype_uniform (objs : list DataFrame) (c : text) (d : dtype) :
  objs <> [] ->
  (forall df, In df objs ->
     In c (columns df) /\ column_dtype (column_cells df c) = d) ->
  concat_dtype objs c = d.
Proof.
  intros Hne H. unfold concat_dtype.
  assert (Hm : forall df, In df objs -> mem c (columns df) = true).
  { intros df Hdf. apply mem_In. apply (H df Hdf). }
  assert (Hf : filter (fun df => mem c (columns df)) objs = objs).
  { clear Hne H. induction objs as [|df objs IH]; [reflexivity|].
    cbn [filter]. rewrite (Hm df) by (left; reflexivity).
    rewrite IH; [reflexivity|]. intros df' Hdf'. apply Hm. right; exact Hdf'. }
  assert (Ha : forallb (fun df => mem c (columns df)) objs = true).
  { apply forallb_forall. exact Hm. }
  rewrite Hf, Ha. destruct objs as [|df objs]; [congruence|].
  cbn [map find_common_type].
  destruct (H df (or_introl eq_refl)) as [_ ->].
  assert (Hall : forallb (dtype_eqb d)
                   (map (fun df => column_dtype (column_cells df c)) objs) = true).
  { apply forallb_forall. intros d' Hd'. apply in_map_iff in Hd'.
    destruct Hd' as [df' [<- Hdf']].
    destruct (H df' (or_intror Hdf')) as [_ ->]. apply dtype_eqb_refl. }
  rewrite Hall. reflexivity.
Qed.

Lemma astype_own_column (T : DataFrame) (c : text) (r : list cell) :
  In r (rows T) ->
  astype (concat_dtype [T] c) (cell_under (columns T) r c) = cell_under (columns T) r c.
Proof.
  intros Hr. rewrite concat_dtype_one. destruct (mem c (columns T)).
  - apply astype_column_dtype. unfold column_cells.
    apply (in_map (fun row => cell_under (columns T) row c)), Hr.
  - apply astype_not_float64. discriminate.
Qed.

Lemma cell_under_In (cols : list text) (row : list cell) (c : text) :
  cell_under cols row c = None \/ In (cell_under cols row c) row.
Proof.
  unfold cell_under. destruct (position c cols) as [i|]; [|left; reflexivity].
  destruct (Nat.lt_ge_cases i (length row)) as [Hlt|Hge].
  - right. apply nth_In, Hlt.
  - left. apply nth_overflow, Hge.
Qed.

Lemma reindex_without_ints (cols : list text) (df : DataFrame) (row : list cell) (x : cell) :
  without_ints df -> In row (reindex cols df) -> In x row -> is_int x = false.
Proof.
  intros Hw Hr Hx. unfold reindex in Hr. apply in_map_iff in Hr.
  destruct Hr as [r [<- Hr]]. apply in_map_iff in Hx. destruct Hx as [c [<- _]].
  destruct (cell_under_In (columns df) r c) as [E|E]; [rewrite E; reflexivity|].
  apply (Hw r _ Hr E).
Qed.

Lemma astype_row_without_ints (dtypes : text -> dtype) (cols : list text)
    (df : DataFrame) (row : list cell) :
  without_ints df -> In row (reindex cols df) -> astype_row dtypes cols row = row.
Proof.
  intros Hw Hr. pose proof Hr as Hr'. unfold reindex in Hr'.
  apply in_map_iff in Hr'. destruct Hr' as [r [E Hin]]. rewrite <- E.
  rewrite astype_row_reindexed. apply map_ext_in. intros c Hc.
  apply astype_not_int.
  eapply reindex_without_ints; [exact Hw | exact Hr |].
  rewrite <- E. apply (in_map (cell_under (columns df) r)), Hc.
Qed.

(** Frames that store no integer are concatenated as they are. *)
Lemma pd_concat_exact (objs : list DataFrame) :
  objs <> [] -> (forall df, In df objs -> without_ints df) ->
  pd_concat objs =
  Ok {| columns := fold_left (fun a df => union_cols a (columns df)) objs [];
        rows := flat_map (reindex (fold_left (fun a df => union_cols a (columns df))
                                     objs [])) objs |}.
Proof.
  intros Hne Hw. rewrite (pd_concat_nonempty Hne). do 2 f_equal.
  rewrite <- (map_id (flat_map _ objs)) at 2. apply map_ext_in.
  intros row Hr. apply in_flat_map in Hr. destruct Hr as [df [Hdf Hr]].
  eapply astype_row_without_ints; [exact (Hw df Hdf) | exact Hr].
Qed.

Lemma nth_rows_concat (cols : list text) (before after : list DataFrame) (A : DataFrame)
    (i : nat) :
  i < length (rows A) ->
  nth (total_rows before + i) (flat_map (reindex cols) (before ++ A :: after)) []
  = map (cell_under (columns A) (nth i (rows A) [])) cols.
Proof.
  intros Hi. rewrite flat_map_app. cbn [flat_map].
  rewrite app_nth2 by (rewrite length_rows_concat; lia).
  rewrite length_rows_concat.
  replace (total_rows before + i - total_rows before) with i by lia.
  rewrite app_nth1 by (rewrite length_reindex; exact Hi).
  unfold reindex.
  rewrite (nth_indep _ [] (map (cell_under (columns A) []) cols))
    by (rewrite length_map; exact Hi).
  apply (map_nth (fun row => map (cell_under (columns A) row) cols)).
Qed.

Lemma nth_astype_rows (dtypes : text -> dtype) (cols : list text)
    (l : list (list cell)) (k : nat) :
  k < length l ->
  nth k (map (astype_row dtypes cols) l) [] = astype_row dtypes cols (nth k l []).
Proof.
  intros Hk.
  rewrite (nth_indep _ [] (astype_row dtypes cols [])) by (rewrite length_map; exact Hk).
  apply map_nth.
Qed.

(** The row of a frame in the concatenation: its cells along the columns
    of the table, each in the dtype of its column. *)
Lemma pd_concat_row (before after : list DataFrame) (A T : DataFrame) (i : nat) :
  pd_concat (before ++ A :: after) = Ok T ->
  i < length (rows A) ->
  nth (total_rows before + i) (rows T) []
  = map (fun c => astype (concat_dtype (before ++ A :: after) c)
                    (cell_under (columns A) (nth i (rows A) []) c))
      (columns T).
Proof.
  intros H Hi. apply pd_concat_ok in H. destruct H as [_ ->]. cbn [columns rows].
  rewrite nth_astype_rows
    by (rewrite length_rows_concat, total_rows_app, total_rows_cons; lia).
  rewrite (nth_rows_concat _ before after A Hi). apply astype_row_reindexed.
Qed.

(** The rows of a frame keep their place in the concatenation, and their
    cells are those of the frame in the dtype of the column. *)
Lemma pd_concat_cell (before after : list DataFrame) (A T : DataFrame) (i : nat) (c : text) :
  pd_concat (before ++ A :: after) = Ok T ->
  i < length (rows A) -> In c (columns A) ->
  frame_cell T (total_rows before + i) c
  = astype (concat_dtype (before ++ A :: after) c) (frame_cell A i c).
Proof.
  intros H Hi Hc. unfold frame_cell. erewrite pd_concat_row by eassumption.
  apply pd_concat_ok in H. destruct H as [_ ->]. cbn [columns].
  apply (cell_under_reindexed _
           (fun c => astype (concat_dtype (before ++ A :: after) c)
                       (cell_under (columns A) (nth i (rows A) []) c))).
  apply (all_columns_cover (before ++ A :: after) A c);
    [apply in_or_app; right; left; reflexivity | exact Hc].
Qed.

Lemma length_rows_concat_as (dtypes : text -> dtype) (cols : list text)
    (objs : list DataFrame) :
  length (map (astype_row dtypes cols) (flat_map (reindex cols) objs)) = total_rows objs.
Proof. rewrite length_map. apply length_rows_concat. Qed.

Lemma pd_concat_length (objs : list DataFrame) (T : DataFrame) :
  pd_concat objs = Ok T -> length (rows T) = total_rows objs.
Proof.
  intros H. apply pd_concat_ok in H. destruct H as [_ ->]. cbn [rows].
  apply length_rows_concat_as.
Qed.

(** A concatenation has distinct columns and rows as long as its columns. *)
Lemma pd_concat_well_formed (objs : list DataFrame) (T : DataFrame) :
  pd_concat objs = Ok T ->
  NoDup (columns T) /\ forall r, In r (rows T) -> length r = length (columns T).
Proof.
  intros H. apply pd_concat_ok in H. destruct H as [_ ->]. cbn [columns rows].
  split; [apply all_columns_NoDup; constructor|].
  intros r Hr. apply in_map_iff in Hr. destruct Hr as [r' [<- Hr]].
  apply in_flat_map in Hr. destruct Hr as [df [_ Hr]].
  unfold reindex in Hr. apply in_map_iff in Hr. destruct Hr as [row [<- _]].
  rewrite astype_row_reindexed. apply length_map.
Qed.

(** A well-formed frame concatenated alone is itself. *)
Lemma pd_concat_single (T : DataFrame) :
  NoDup (columns T) -> (forall r, In r (rows T) -> length r = length (columns T)) ->
  pd_concat [T] = Ok T.
Proof.
  intros Hn Hl. unfold pd_concat. cbn [fold_left flat_map].
  rewrite (union_cols_fresh (columns T) []) by exact Hn.
  cbn [app]. rewrite app_nil_r. unfold reindex. rewrite map_map.
  rewrite (map_ext_in _ (fun r => r)), map_id; [destruct T; reflexivity|].
  intros r Hr. rewrite astype_row_reindexed.
  rewrite (map_ext_in _ (cell_under (columns T) r)).
  - apply reindex_own_row; [exact Hn | apply Hl, Hr].
  - intros c _. apply astype_own_column, Hr.
Qed.

(** A frame next to itself: the rows it has alone, twice. *)
Lemma pd_concat_twice (A : DataFrame) :
  exists T,
    pd_concat [A] = Ok T /\
    pd_concat [A; A] = Ok {| columns := columns T; rows := rows T ++ rows T |}.
Proof.
  eexists. split; [reflexivity|]. unfold pd_concat. cbn [fold_left flat_map columns rows].
  rewrite (union_cols_known (new := columns A) (acc := union_cols [] (columns A)))
    by (intros c Hc; apply union_cols_adds, Hc).
  rewrite !app_nil_r, map_app.
  rewrite (map_ext _ _ (fun row => astype_row_ext _ _ _ row
                                     (fun c _ => concat_dtype_twice A c))).
  reflexivity.
Qed.

(** Appending frames that bring no new column and leave the column types
    as they are leaves the rows so far as they are. *)
Lemma pd_concat_more (docs more : list DataFrame) (T : DataFrame) :
  pd_concat docs = Ok T ->
  (forall df, In df more -> incl (columns df) (columns T)) ->
  (forall c, In c (columns T) -> concat_dtype (docs ++ more) c = concat_dtype docs c) ->
  pd_concat (docs ++ more) =
  Ok {| columns := columns T;
        rows := rows T ++ map (astype_row (concat_dtype docs) (columns T))
                            (flat_map (reindex (columns T)) more) |}.
Proof.
  intros H Hm Hd. apply pd_concat_ok in H. destruct H as [Hne ->].
  cbn [columns rows] in *.
  rewrite pd_concat_nonempty by (destruct docs; [congruence | discriminate]).
  rewrite fold_left_app, (all_columns_known more Hm), flat_map_app, map_app.
  do 2 f_equal; f_equal; apply map_ext; intros row; apply astype_row_ext; exact Hd.
Qed.

(** *** The frames of a TDS Returns document store texts only *)

Lemma one_row_without_ints (d : dict cell) :
  (forall x, In x (map snd d) -> is_int x = false) -> without_ints (one_row d).
Proof. intros H row x [<-|[]] Hx. apply H, Hx. Qed.

Lemma error_frame_without_ints {rt : Runtime} (e : exn) : without_ints (error_frame e).
Proof. apply one_row_without_ints. intros x [<-|[]]. reflexivity. Qed.

Lemma texts_without_ints (cols : list text) (l : list row) :
  without_ints {| columns := cols; rows := map (map cell_of) l |}.
Proof.
  intros row x Hr Hx. cbn [rows] in Hr. apply in_map_iff in Hr.
  destruct Hr as [r [<- _]]. apply in_map_iff in Hx. destruct Hx as [o [<- _]].
  destruct o; reflexivity.
Qed.

Section ReturnsFrames.
Context {rt : Runtime}.

Lemma details_without_ints (pdf_path : pdf_file) (details_df : DataFrame) :
  extract_details_from_pdf pdf_path = Ok details_df -> without_ints details_df.
Proof.
  intros H. destruct (decoded_text pdf_path) as [t|e] eqn:E.
  - rewrite (extract_details_decoded _ E) in H. injection H as <-.
    apply one_row_without_ints. intros x Hx. simpl in Hx.
    repeat (destruct Hx as [<-|Hx]; [reflexivity|]). destruct Hx.
  - erewrite extract_details_failed in H by eassumption. injection H as <-.
    apply error_frame_without_ints.
Qed.

Lemma table_without_ints (pdf_path : pdf_file) (table_df : DataFrame) :
  extract_table_from_pdf pdf_path = Ok table_df -> without_ints table_df.
Proof.
  intros H. destruct (decoded_rows pdf_path) as [extracted_data|e] eqn:E.
  - rewrite (extract_table_decoded _ E) in H.
    destruct (surviving extracted_data) as [|r l] eqn:Es.
    + rewrite (table_of_rows_none _ Es) in H. cbn [try_except] in H.
      injection H as <-. apply error_frame_without_ints.
    + rewrite table_of_rows_surviving in H by (rewrite Es; discriminate).
      cbn [try_except] in H. injection H as <-. apply texts_without_ints.
  - erewrite extract_table_failed in H by eassumption. injection H as <-.
    apply error_frame_without_ints.
Qed.

(** The frame of a TDS Returns document: the two frames, laid out along
    the columns of both, with no cell changed. *)
Lemma returns_document_frame (payment_option : text) (pdf_file : pdf_file)
    (details_df table_df : DataFrame) :
  extract_details_from_pdf pdf_file = Ok details_df ->
  extract_table_from_pdf pdf_file = Ok table_df ->
  process_document (str "TDS Returns") payment_option pdf_file =
  Ok {| columns := union_cols (union_cols [] (columns details_df)) (columns table_df);
        rows := reindex (union_cols (union_cols [] (columns details_df))
                           (columns table_df)) details_df
                ++ reindex (union_cols (union_cols [] (columns details_df))
                              (columns table_df)) table_df |}.
Proof.
  intros Hd Ht. rewrite process_document_returns, Hd, Ht. cbn [bind].
  rewrite pd_concat_exact.
  - cbn [fold_left flat_map]. rewrite app_nil_r. reflexivity.
  - discriminate.
  - intros df [<-|[<-|[]]];
      [eapply details_without_ints; eassumption | eapply table_without_ints; eassumption].
Qed.
End ReturnsFrames.

(** *** The frames the loop collects *)

Section Collected.
Context {rt : Runtime}.
Variables option payment_option : text.

(** The frame of a document that returns stands between the frames of the
    documents before it and those of the documents after it. *)
Lemma loop_around (before after : list pdf_file) (pdf_file : pdf_file) (A : DataFrame) :
  process_document option payment_option pdf_file = Ok A ->
  extracted_data (main_loop option payment_option (before ++ pdf_file :: after))
  = extracted_data (main_loop option payment_option before)
    ++ A :: extracted_data (main_loop option payment_option after).
Proof.
  intros H. unfold main_loop at 1. rewrite fold_left_app.
  fold (main_loop option payment_option before). cbn [fold_left].
  rewrite loop_from. cbn [extracted_data].
  unfold process_file at 1. rewrite H. cbn [extracted_data].
  rewrite <- app_assoc. reflexivity.
Qed.

Lemma loop_one (pdf_file : pdf_file) (A : DataFrame) :
  process_document option payment_option pdf_file = Ok A ->
  extracted_data (main_loop option payment_option [pdf_file]) = [A].
Proof. intros H. unfold main_loop, process_file. cbn [fold_left]. rewrite H. reflexivity. Qed.

Lemma loop_two (pdf_file : pdf_file) (A : DataFrame) :
  process_document option payment_option pdf_file = Ok A ->
  extracted_data (main_loop option payment_option [pdf_file; pdf_file]) = [A; A].
Proof.
  intros H. unfold main_loop, process_file. cbn [fold_left]. rewrite H.
  cbn [extracted_data]. rewrite ?H. reflexivity.
Qed.
End Collected.

Section Aggregator.
Context {rt : Runtime} {io : Outputs}.

(** C9.  Concatenating [A; A] gives the table of [A] followed by the same
    rows again, so its first half is the table of [A]; more generally,
    appending frames that bring no new column and leave the column types
    as they are leaves the rows so far as they are.  The rows of every
    frame appear in the order of the frames and the table has as many rows
    as the frames have together: nothing is merged or dropped.  Every cell
    is the cell of its frame in the dtype that the column has in the table:
    a text, a float or a missing cell is never changed, no cell is changed
    in a column that all frames have with the same dtype, and an integer
    becomes the nearest float where the column of the table is a column of
    floats.  The loop collects
    the frames in the order of the submitted documents, so the rows of a
    document stand after those of the documents before it and before those
    of the documents after it, and a document submitted twice gives its
    rows twice.  For a TDS Returns document the field record is the first
    row and the line items follow.  The export concatenates the table once
    more and hands that same table to the writer. *)
Theorem aggregation_keeps_rows_in_order :
  (forall A, exists T,
     pd_concat [A] = Ok T /\
     pd_concat [A; A] = Ok {| columns := columns T; rows := rows T ++ rows T |} /\
     firstn (length (rows T)) (rows T ++ rows T) = rows T) /\
  (forall docs more T,
     pd_concat docs = Ok T ->
     (forall df, In df more -> incl (columns df) (columns T)) ->
     (forall c, In c (columns T) ->
                concat_dtype (docs ++ more) c = concat_dtype docs c) ->
     pd_concat (docs ++ more) =
     Ok {| columns := columns T;
           rows := rows T ++ map (astype_row (concat_dtype docs) (columns T))
                               (flat_map (reindex (columns T)) more) |}) /\
  (forall before A after T,
     pd_concat (before ++ A :: after) = Ok T ->
     length (rows T) = total_rows before + length (rows A) + total_rows after /\
     forall i c, i < length (rows A) -> In c (columns A) ->
       frame_cell T (total_rows before + i) c
       = astype (concat_dtype (before ++ A :: after) c) (frame_cell A i c) /\
       (is_int (frame_cell A i c) = false \/
        concat_dtype (before ++ A :: after) c <> float64 \/
        (forall df, In df (before ++ A :: after) ->
           In c (columns df) /\
           column_dtype (column_cells df c) = column_dtype (column_cells A c)) ->
        frame_cell T (total_rows before + i) c = frame_cell A i c)) /\
  (forall option payment_option before pdf_file after A,
     process_document option payment_option pdf_file = Ok A ->
     exists T,
       final_combined_df
         (main_loop option payment_option (before ++ pdf_file :: after))
       = Some (Ok T) /\
       length (rows T)
       = total_rows (extracted_data (main_loop option payment_option before))
         + length (rows A)
         + total_rows (extracted_data (main_loop option payment_option after)) /\
       forall i c, i < length (rows A) -> In c (columns A) ->
         frame_cell T
           (total_rows (extracted_data (main_loop option payment_option before)) + i) c
         = astype (concat_dtype
                     (extracted_data
                        (main_loop option payment_option (before ++ pdf_file :: after)))
                     c)
             (frame_cell A i c)) /\
  (forall option payment_option pdf_file A,
     process_document option payment_option pdf_file = Ok A ->
     exists T,
       final_combined_df (main_loop option payment_option [pdf_file]) = Some (Ok T) /\
       final_combined_df (main_loop option payment_option [pdf_file; pdf_file])
       = Some (Ok {| columns := columns T; rows := rows T ++ rows T |})) /\
  (forall payment_option pdf_file T,
     process_document (str "TDS Returns") payment_option pdf_file = Ok T ->
     exists details_df field_record table_df,
       extract_details_from_pdf pdf_file = Ok details_df /\
       rows details_df = [field_record] /\
       extract_table_from_pdf pdf_file = Ok table_df /\
       rows T = map (cell_under (columns details_df) field_record) (columns T)
                :: reindex (columns T) table_df) /\
  (forall st,
     extracted_data st <> [] ->
     exists T,
       final_combined_df st = Some (Ok T) /\
       length (rows T) = total_rows (extracted_data st) /\
       save_to_excel [T] = to_excel T).
Proof.
  split; [|split; [|split; [|split; [|split; [|split]]]]].
  - intros A. destruct (pd_concat_twice A) as [T [H1 H2]].
    exists T. split; [exact H1|]. split; [exact H2|].
    rewrite firstn_app, Nat.sub_diag, firstn_all. cbn [firstn]. apply app_nil_r.
  - intros docs more T. apply pd_concat_more.
  - intros before A after T H. split.
    + erewrite pd_concat_length by eassumption.
      rewrite total_rows_app, total_rows_cons. lia.
    + intros i c Hi Hc. erewrite pd_concat_cell by eassumption.
      split; [reflexivity|].
      intros [Hx|[Hd|Hu]];
        [apply astype_not_int, Hx | apply astype_not_float64, Hd |].
      erewrite concat_dtype_uniform; [| destruct before; discriminate | exact Hu].
      apply astype_column_dtype. unfold frame_cell, column_cells.
      apply (in_map (fun row => cell_under (columns A) row c)).
      apply nth_In, Hi.
  - intros option payment_option before pdf_file after A HA.
    unfold final_combined_df. erewrite loop_around by eassumption.
    set (bs := extracted_data (main_loop option payment_option before)).
    set (fs := extracted_data (main_loop option payment_option after)).
    assert (Hne : bs ++ A :: fs <> []) by (destruct bs; discriminate).
    pose proof (pd_concat_nonempty Hne) as H.
    destruct (bs ++ A :: fs) as [|df dfs] eqn:E; [congruence|]. rewrite <- E in *.
    eexists. split; [rewrite H; reflexivity|]. split.
    + erewrite pd_concat_length by eassumption.
      rewrite total_rows_app, total_rows_cons. lia.
    + intros i c Hi Hc. eapply pd_concat_cell; eassumption.
  - intros option payment_option pdf_file A HA.
    unfold final_combined_df.
    erewrite loop_one by eassumption. erewrite loop_two by eassumption.
    destruct (pd_concat_twice A) as [T [H1 H2]].
    exists T. rewrite H1, H2. split; reflexivity.
  - intros payment_option pdf_file T H.
    destruct (details_one_row pdf_file) as [details_df [field_record [Hd Hr]]].
    destruct (extract_table_returns pdf_file) as [table_df Ht].
    erewrite returns_document_frame in H by eassumption.
    injection H as <-.
    exists details_df, field_record, table_df.
    repeat split; try assumption.
    cbn [rows columns]. unfold reindex at 1. rewrite Hr. reflexivity.
  - intros st Hne. unfold final_combined_df, save_to_excel.
    destruct (extracted_data st) as [|df dfs] eqn:E; [congruence|].
    pose proof (pd_concat_nonempty (objs := df :: dfs) Hne) as H.
    eexists. split; [rewrite H; reflexivity|]. split.
    + eapply pd_concat_length; eassumption.
    + destruct (pd_concat_well_formed _ H) as [Hn Hl].
      rewrite pd_concat_single by assumption. reflexivity.
Qed.
End Aggregator.

Lemma aggregation_keeps_rows_in_order_witness :
  (exists A T,
     process_document (rt := ascii_runtime) (str "TDS Returns") [] return_pdf = Ok A /\
     final_combined_df
       (main_loop (rt := ascii_runtime) (str "TDS Returns") [] [return_pdf; return_pdf])
     = Some (Ok T) /\
     length (rows A) = 3 /\ length (rows T) = 6 /\
     frame_cell A 0 (str "Period") = Some (VStr (str "Q3")) /\
     frame_cell T 3 (str "Period") = Some (VStr (str "Q3")) /\
     frame_cell T 4 (str "Sr. No.") = Some (VStr (str "1"))) /\
  (exists T,
     final_combined_df
       (main_loop (rt := ascii_runtime) (str "TDS Payments") (str "HDFC Bank")
          [receipt_pdf "small.pdf" (numbered_lines "12,345");
           receipt_pdf "large.pdf" (numbered_lines "9223372036854775809")])
     = Some (Ok T) /\
     length (rows T) = 2 /\
     frame_cell T 0 (str "Drawn on") = Some (VStr (str "HDFC Bank Ltd")) /\
     frame_cell T 0 (str "Challan No") = Some (VFloat (Dec false 12345 0)) /\
     frame_cell T 1 (str "Challan No")
     = Some (VFloat (Dec false 9223372036854775808 0))) /\
  (exists T,
     final_combined_df
       (main_loop (rt := ascii_runtime) (str "TDS Payments") (str "HDFC Bank")
          [receipt_pdf "large.pdf" (numbered_lines "9223372036854775809");
           receipt_pdf "large.pdf" (numbered_lines "9223372036854775809")])
     = Some (Ok T) /\
     length (rows T) = 2 /\
     frame_cell T 0 (str "Challan No") = Some (VInt 9223372036854775809) /\
     frame_cell T 1 (str "Challan No") = Some (VInt 9223372036854775809)).
Proof.
  destruct (aggregation_keeps_rows_in_order (rt := ascii_runtime)
              (io := accepting_outputs)) as [_ [_ [_ [Hloop [Htwice _]]]]].
  split; [|split].
  - destruct (process_document (rt := ascii_runtime) (str "TDS Returns") [] return_pdf)
      as [A|e] eqn:E; [|vm_compute in E; discriminate E].
    destruct (Hloop (str "TDS Returns") [] [return_pdf] return_pdf [] A E)
      as [T [HT _]].
    exists A, T. split; [reflexivity|]. split; [exact HT|].
    vm_compute in E. injection E as <-.
    vm_compute in HT. injection HT as <-.
    repeat split; reflexivity.
  - destruct (process_document (rt := ascii_runtime) (str "TDS Payments")
                (str "HDFC Bank")
                (receipt_pdf "large.pdf" (numbered_lines "9223372036854775809")))
      as [A|e] eqn:E; [|vm_compute in E; discriminate E].
    destruct (Hloop (str "TDS Payments") (str "HDFC Bank")
                [receipt_pdf "small.pdf" (numbered_lines "12,345")]
                (receipt_pdf "large.pdf" (numbered_lines "9223372036854775809"))
                [] A E) as [T [HT _]].
    exists T. split; [exact HT|].
    vm_compute in HT. injection HT as <-.
    repeat split; reflexivity.
  - destruct (process_document (rt := ascii_runtime) (str "TDS Payments")
                (str "HDFC Bank")
                (receipt_pdf "large.pdf" (numbered_lines "9223372036854775809")))
      as [A|e] eqn:E; [|vm_compute in E; discriminate E].
    destruct (Htwice (str "TDS Payments") (str "HDFC Bank")
                (receipt_pdf "large.pdf" (numbered_lines "9223372036854775809"))
                A E) as [T [H1 HT]].
    eexists. split; [exact HT|].
    vm_compute in H1. injection H1 as <-.
    repeat split; reflexivity.
Defined.

(** * Further properties *)

(** ** What the four patterns capture *)

Section Captures.
Context {rt : Runtime}.

Lemma fits_snoc (ks : list cset) (k : cset) (c : char) :
  forall g, fits ks g = true -> in_cset k c = true -> fits (ks ++ [k]) (g ++ [c]) = true.
Proof.
  induction ks as [|k' ks IH]; intros [|c' g] H Hc; simpl in *; try discriminate.
  - rewrite Hc. reflexivity.
  - apply andb_true_iff in H. destruct H as [H1 H2].
    rewrite H1. simpl. apply IH; assumption.
Qed.

Lemma star_passes (p : cset) (k : mstate -> text -> option (list text * text))
    (Q : mstate -> Prop) :
  (forall c st, Q st -> Q (consume c st)) ->
  forall s st r, Q st -> star p k st s = Some r -> exists st' s', Q st' /\ k st' s' = Some r.
Proof.
  intros HQ. induction s as [|c s IH]; intros st r Hst H; simpl in H.
  - eauto.
  - destruct (in_cset p c); [|eauto].
    destruct (star p k (consume c st) s) as [r'|] eqn:E.
    + injection H as <-. apply (IH (consume c st)); auto.
    + eauto.
Qed.

Lemma agrees_outside_group (c : char) (st : mstate) (done : list (list cset)) :
  agrees st done None -> agrees (consume c st) done None.
Proof.
  unfold agrees, consume. simpl. intros [H1 H2].
  destruct (opened st); [contradiction|]. simpl. auto.
Qed.

(** Every group of a match holds one character of each class the pattern
    writes in it. *)
Lemma groups_fit (re : regex) :
  forall st done cur final s gs rest,
    group_classes re done cur = Some final ->
    agrees st done cur ->
    match_here re st s = Some (gs, rest) ->
    Forall2 (fun g ks => fits ks g = true) gs final.
Proof.
  induction re as [|a re IH]; intros st done cur final s gs rest Hc Ha Hm.
  - simpl in Hc, Hm. destruct cur; [discriminate|].
    injection Hc as <-. injection Hm as <- _. apply Ha.
  - destruct a as [k|k|k| |]; cbn [group_classes match_here] in Hc, Hm.
    + destruct s as [|c s]; [discriminate|].
      destruct (in_cset k c) eqn:Hk; [|discriminate].
      apply (IH _ _ _ _ _ _ _ Hc) in Hm; [exact Hm|].
      destruct Ha as [H1 H2]. split; [exact H1|].
      unfold consume; simpl.
      destruct cur as [ks|], (opened st) as [g|]; simpl; try contradiction; auto.
      apply fits_snoc; assumption.
    + destruct cur; [discriminate|].
      destruct s as [|c s]; [discriminate|].
      destruct (in_cset k c); [|discriminate].
      apply (star_passes k (match_here re) (fun st => agrees st done None)) in Hm.
      * destruct Hm as [st' [s' [Hst' Hm]]]. apply (IH _ _ _ _ _ _ _ Hc Hst' Hm).
      * intros c' st' H. apply agrees_outside_group, H.
      * apply agrees_outside_group, Ha.
    + destruct cur; [discriminate|].
      apply (star_passes k (match_here re) (fun st => agrees st done None)) in Hm.
      * destruct Hm as [st' [s' [Hst' Hm]]]. apply (IH _ _ _ _ _ _ _ Hc Hst' Hm).
      * intros c' st' H. apply agrees_outside_group, H.
      * exact Ha.
    + destruct cur; [discriminate|].
      apply (IH _ _ _ _ _ _ _ Hc) in Hm; [exact Hm|].
      destruct Ha as [H1 H2]. split; [exact H1|]. reflexivity.
    + destruct cur as [ks|]; [|discriminate].
      apply (IH _ _ _ _ _ _ _ Hc) in Hm; [exact Hm|].
      destruct Ha as [H1 H2]. unfold close_group. simpl.
      destruct (opened st) as [g|]; [|contradiction].
      split; [|exact I]. apply Forall2_app; [exact H1|]. constructor; [exact H2|constructor].
Qed.

Lemma agrees_start : agrees st0 [] None.
Proof. split; [constructor | exact I]. Qed.

(** A successful search reports the groups of a match somewhere in the
    text. *)
Lemma search_some (re : regex) (t : text) (gs : list text) :
  search re t = Some gs -> exists s rest, match_here re st0 s = Some (gs, rest).
Proof.
  induction t as [|c t IH]; simpl.
  - destruct (match_here re st0 []) as [[gs' rest]|] eqn:E; [|discriminate].
    intros H. injection H as <-. eauto.
  - destruct (match_here re st0 (c :: t)) as [[gs' rest]|] eqn:E.
    + intros H. injection H as <-. eauto.
    + exact IH.
Qed.

Lemma findall_from_In (re : regex) (t : text) :
  forall skip g, In g (findall_from re skip t) ->
    exists s gs rest, match_here re st0 s = Some (gs, rest) /\ g = group gs 1.
Proof.
  induction t as [|c t IH]; intros skip g H.
  - destruct skip; simpl in H; [|destruct H].
    destruct (match_here re st0 []) as [[gs rest]|] eqn:E; [|destruct H].
    destruct H as [<-|[]]. eauto.
  - destruct skip as [|k]; cbn [findall_from] in H; [|apply (IH k g H)].
    destruct (match_here re st0 (c :: t)) as [[gs rest]|] eqn:E.
    + destruct H as [<-|H]; [eauto | apply (IH _ g H)].
    + apply (IH 0 g H).
Qed.

Lemma one_group_fits (re : regex) (ks : list cset) (s : text) (gs : list text) (rest : text) :
  group_classes re [] None = Some [ks] ->
  match_here re st0 s = Some (gs, rest) ->
  fits ks (group gs 1) = true.
Proof.
  intros Hc Hm. assert (H : Forall2 (fun g ks => fits ks g = true) gs [ks]).
  { eapply groups_fit; [exact Hc | exact agrees_start | exact Hm]. }
  inversion H as [|g ks' gs' l' Hg Hr]; subst. inversion Hr; subst. exact Hg.
Qed.
End Captures.

Section FieldShapes.
Context {rt : Runtime}.

Lemma period_field_shape (t : text) :
  period_field t = not_found \/ fits quarter (period_field t) = true.
Proof.
  unfold period_field. destruct (search period_pattern t) as [gs|] eqn:E; [|left; reflexivity].
  right. apply search_some in E. destruct E as [s [rest E]].
  apply (one_group_fits period_pattern (ks := quarter) s (rest := rest)); [reflexivity | exact E].
Qed.

Lemma date_field_shape (t : text) :
  date_field t = not_found \/ fits long_date (date_field t) = true.
Proof.
  unfold date_field. destruct (search date_pattern t) as [gs|] eqn:E; [|left; reflexivity].
  right. apply search_some in E. destruct E as [s [rest E]].
  apply (one_group_fits date_pattern (ks := long_date) s (rest := rest)); [reflexivity | exact E].
Qed.

Lemma date_range_field_shape (t : text) :
  date_range_field t = not_found \/
  exists a b, date_range_field t = a ++ str " to " ++ b /\
              fits short_date a = true /\ fits short_date b = true.
Proof.
  unfold date_range_field.
  destruct (search date_range_pattern t) as [gs|] eqn:E; [|left; reflexivity].
  right. apply search_some in E. destruct E as [s [rest E]].
  assert (H : Forall2 (fun g ks => fits ks g = true) gs [short_date; short_date]).
  { eapply groups_fit; [|exact agrees_start|exact E]. reflexivity. }
  inversion H as [|a ks gs' l' Ha Hr]; subst.
  inversion Hr as [|b ks' gs'' l'' Hb Hr']; subst. inversion Hr'; subst.
  exists a, b. auto.
Qed.

Lemma form_no_matches_shape (t : text) (g : text) :
  In g (findall form_no_box_pattern t) -> fits form_code g = true.
Proof.
  intros H. apply findall_from_In in H. destruct H as [s [gs [rest [E ->]]]].
  apply (one_group_fits form_no_box_pattern (ks := form_code) s (rest := rest));
    [reflexivity | exact E].
Qed.

(** X1.  Whatever the text, every cell of the field record is either the
    sentinel "Not found" or has the shape its pattern captures: a Q and a
    digit for the period, two dates dd/dd/dd joined by " to " for the date
    range, two digits and a word character for the form number, a date
    dd/dd/dddd for the date. *)
Theorem field_record_cells_fit_their_patterns (pdf_path : pdf_file) (t : text) :
  decoded_text pdf_path = Ok t ->
  exists period date_range form_no date,
    extract_details_from_pdf pdf_path =
    Ok {| columns := details_schema;
          rows := [[Some (VStr period); Some (VStr date_range);
                    Some (VStr form_no); Some (VStr date)]] |} /\
    (period = not_found \/ fits quarter period = true) /\
    (date_range = not_found \/
     exists a b, date_range = a ++ str " to " ++ b /\
                 fits short_date a = true /\ fits short_date b = true) /\
    (form_no = not_found \/ fits form_code form_no = true) /\
    (date = not_found \/ fits long_date date = true).
Proof.
  intros H. do 4 eexists. split; [rewrite (extract_details_decoded _ H); reflexivity|].
  split; [apply period_field_shape|]. split; [apply date_range_field_shape|].
  split; [|apply date_field_shape].
  pose proof (form_no_matches_shape t) as Hf.
  destruct (findall form_no_box_pattern t) as [|a [|b l]]; auto.
  right. apply Hf. right. left. reflexivity.
Qed.
End FieldShapes.

Lemma field_record_cells_fit_their_patterns_witness :
  extract_details_from_pdf (rt := ascii_runtime) return_pdf =
  Ok {| columns := details_schema;
        rows := [[Some (VStr (str "Q3")); Some (VStr (str "01/10/23 to 31/12/23"));
                  Some (VStr (str "26Q")); Some (VStr (str "15/01/2024"))]] |}.
Proof.
  destruct (field_record_cells_fit_their_patterns (rt := ascii_runtime) return_pdf eq_refl)
    as [p [r [f [d [E _]]]]].
  rewrite E. vm_compute in E. injection E as <- <- <- <-. reflexivity.
Defined.

(** ** How the page loops assemble their input *)

Section Pages.
Context {rt : Runtime}.

Lemma details_text_from (pages : list page) (os : list (option text)) :
  map extract_text pages = map Ok os ->
  forall acc,
    fold_left (fun acc p =>
                 t <- acc;; o <- extract_text p;;
                 Ok (t ++ match o with Some x => x | None => [] end))
      pages (Ok acc)
    = Ok (acc ++ flat_map text_or_empty os).
Proof.
  revert os. induction pages as [|p pages IH]; intros [|o os] H acc; try discriminate.
  - simpl. rewrite app_nil_r. reflexivity.
  - simpl in H. injection H as Hp H. cbn [fold_left bind]. rewrite Hp. cbn [bind].
    rewrite (IH os H). cbn [flat_map]. rewrite app_assoc. reflexivity.
Qed.

Lemma hdfc_text_raised (pages : list page) (e : exn) :
  fold_left (fun acc p =>
               t <- acc;; o <- extract_text p;;
               match o with
               | Some x => Ok (t ++ x ++ newline)
               | None => Raise no_page_text
               end)
    pages (Raise e)
  = Raise e.
Proof. induction pages as [|p pages IH]; [reflexivity | exact IH]. Qed.

Lemma hdfc_text_from (pages : list page) (xs : list text) :
  map extract_text pages = map (fun x => Ok (Some x)) xs ->
  forall acc rest,
    fold_left (fun acc p =>
                 t <- acc;; o <- extract_text p;;
                 match o with
                 | Some x => Ok (t ++ x ++ newline)
                 | None => Raise no_page_text
                 end)
      (pages ++ rest) (Ok acc)
    = fold_left (fun acc p =>
                   t <- acc;; o <- extract_text p;;
                   match o with
                   | Some x => Ok (t ++ x ++ newline)
                   | None => Raise no_page_text
                   end)
        rest (Ok (acc ++ flat_map (fun x => x ++ newline) xs)).
Proof.
  revert xs. induction pages as [|p pages IH]; intros [|x xs] H acc rest; try discriminate.
  - simpl. rewrite app_nil_r. reflexivity.
  - simpl in H. injection H as Hp H. cbn [app fold_left bind]. rewrite Hp. cbn [bind].
    rewrite (IH xs H). cbn [flat_map]. rewrite <- !app_assoc. reflexivity.
Qed.

Lemma process_hdfc_bank_texts (pdf_path : pdf_file) (pages : list page) (xs : list text) :
  plumber_open pdf_path = Ok pages ->
  map extract_text pages = map (fun x => Ok (Some x)) xs ->
  process_hdfc_bank pdf_path = Ok (flat_map (fun x => x ++ newline) xs).
Proof.
  intros Ho Hp. unfold process_hdfc_bank. rewrite Ho. cbn [bind].
  pose proof (hdfc_text_from pages xs Hp [] []) as H.
  rewrite app_nil_r in H. exact H.
Qed.

(** X2.  The returns extractor joins the page texts without a separator and
    takes a page without text as empty; the bank-receipt extraction ends
    every page text with a newline and, unlike it, raises TypeError on the
    first page without text. *)
Theorem page_without_text_is_skipped_or_fatal
    (pdf_path : pdf_file) (pages : list page) (os : list (option text)) :
  plumber_open pdf_path = Ok pages ->
  map extract_text pages = map Ok os ->
  decoded_text pdf_path = Ok (flat_map text_or_empty os) /\
  (forall xs, os = map Some xs ->
     process_hdfc_bank pdf_path = Ok (flat_map (fun x => x ++ newline) xs)) /\
  (In None os -> process_hdfc_bank pdf_path = Raise no_page_text).
Proof.
  intros Ho Hp. split; [|split].
  - unfold decoded_text, details_text. rewrite Ho. cbn [bind].
    exact (details_text_from pages os Hp []).
  - intros xs ->. rewrite map_map in Hp.
    eapply process_hdfc_bank_texts; eassumption.
  - intros Hn. unfold process_hdfc_bank. rewrite Ho. cbn [bind].
    apply in_split in Hn. destruct Hn as [os1 [os2 ->]].
    clear Ho. revert pages Hp. generalize (@nil char) as acc.
    induction os1 as [|o os1 IH]; intros acc [|p pages] Hp; try discriminate.
    + simpl in Hp. injection Hp as Hp _. cbn [fold_left bind]. rewrite Hp. cbn [bind].
      apply hdfc_text_raised.
    + simpl in Hp. injection Hp as Hp Hps. cbn [fold_left bind]. rewrite Hp. cbn [bind].
      destruct o as [x|]; [apply (IH _ pages Hps) | apply hdfc_text_raised].
Qed.
End Pages.

Lemma page_without_text_is_skipped_or_fatal_witness :
  decoded_text scanned_pdf = Ok reference_document /\
  process_hdfc_bank scanned_pdf = Raise no_page_text.
Proof.
  destruct (page_without_text_is_skipped_or_fatal scanned_pdf
              [Some reference_document; None] eq_refl eq_refl) as [H [_ H']].
  split.
  - rewrite H. vm_compute. reflexivity.
  - apply H'. right. left. reflexivity.
Defined.

Section TableRows.
Context {rt : Runtime}.

Lemma table_rows_raised (pages : list page) (e : exn) :
  fold_left (fun acc p => rs <- acc;; tables <- extract_tables p;; Ok (rs ++ concat tables))
    pages (Raise e)
  = Raise e.
Proof. induction pages as [|p pages IH]; [reflexivity | exact IH]. Qed.

Lemma table_rows_from (pages : list page) (tss : list (list table)) :
  map extract_tables pages = map Ok tss ->
  forall acc rest,
    fold_left (fun acc p => rs <- acc;; tables <- extract_tables p;; Ok (rs ++ concat tables))
      (pages ++ rest) (Ok acc)
    = fold_left (fun acc p => rs <- acc;; tables <- extract_tables p;;
                              Ok (rs ++ concat tables))
        rest (Ok (acc ++ concat (concat tss))).
Proof.
  revert tss. induction pages as [|p pages IH]; intros [|ts tss] H acc rest; try discriminate.
  - simpl. rewrite app_nil_r. reflexivity.
  - simpl in H. injection H as Hp H. cbn [app fold_left bind]. rewrite Hp. cbn [bind].
    rewrite (IH tss H). cbn [concat]. rewrite concat_app, <- !app_assoc. reflexivity.
Qed.

(** X3.  The table extractor takes the rows of all tables of all pages in
    page and table order; when the decoder fails on the tables of one page,
    the rows of the pages before it are given up as well and the result is
    the one-row Error table. *)
Theorem table_rows_all_or_nothing
    (pdf_path : pdf_file) (good rest : list page) (tss : list (list table)) :
  plumber_open pdf_path = Ok (good ++ rest) ->
  map extract_tables good = map Ok tss ->
  (rest = [] -> decoded_rows pdf_path = Ok (concat (concat tss))) /\
  (forall bad more e,
     rest = bad :: more -> extract_tables bad = Raise e ->
     decoded_rows pdf_path = Raise e /\
     extract_table_from_pdf pdf_path = Ok (error_frame e)).
Proof.
  intros Ho Hg.
  assert (Hr : forall bad more e, rest = bad :: more -> extract_tables bad = Raise e ->
                                  decoded_rows pdf_path = Raise e).
  { intros bad more e -> Hb. unfold decoded_rows, table_rows. rewrite Ho. cbn [bind].
    rewrite (table_rows_from good tss Hg). cbn [fold_left bind]. rewrite Hb. cbn [bind].
    apply table_rows_raised. }
  split.
  - intros ->. unfold decoded_rows, table_rows. rewrite Ho. cbn [bind].
    rewrite (table_rows_from good tss Hg). reflexivity.
  - intros bad more e Hrest Hb. split; [apply (Hr bad more e Hrest Hb)|].
    apply extract_table_failed. apply (Hr bad more e Hrest Hb).
Qed.
End TableRows.

Lemma table_rows_all_or_nothing_witness :
  decoded_rows two_page_pdf
  = Ok [header_row; data_row "1"; [Some (str "short")]; empty_row;
        header_row; data_row "2"; data_row "2" ++ [None]] /\
  extract_table_from_pdf (rt := ascii_runtime) torn_pdf
  = Ok {| columns := [str "Error"]; rows := [[Some (VStr (str "bad table stream"))]] |}.
Proof.
  split.
  - destruct (table_rows_all_or_nothing (rt := ascii_runtime) two_page_pdf
                [text_page [] [[header_row; data_row "1"; [Some (str "short")];
                                empty_row]];
                 text_page [] [[]; [header_row; data_row "2"; data_row "2" ++ [None]]]]
                []
                [[[header_row; data_row "1"; [Some (str "short")]; empty_row]];
                 [[]; [header_row; data_row "2"; data_row "2" ++ [None]]]]
                eq_refl eq_refl) as [H _].
    rewrite (H eq_refl). reflexivity.
  - destruct (table_rows_all_or_nothing (rt := ascii_runtime) torn_pdf
                [text_page (str "period Q2 ") [[header_row; data_row "1"]]]
                [torn_page (str "Date: 15/01/2024")]
                [[[header_row; data_row "1"]]]
                eq_refl eq_refl) as [_ H].
    destruct (H _ _ _ eq_refl eq_refl) as [_ H']. rewrite H'. reflexivity.
Defined.

(** ** The frame of a TDS Returns document *)

Section ReturnsFrame.
Context {rt : Runtime}.

Lemma line_item_in_ten_columns (r : row) :
  six_cells r = true ->
  map (cell_under headers (map cell_of r)) (details_schema ++ headers)
  = [None; None; None; None] ++ map cell_of r.
Proof. intros H. six_row r H. reflexivity. Qed.

Lemma line_items_in_ten_columns (l : list row) :
  (forall r, In r l -> six_cells r = true) ->
  reindex (details_schema ++ headers)
    {| columns := headers; rows := map (map cell_of) l |}
  = map (fun r => [None; None; None; None] ++ map cell_of r) l.
Proof.
  intros H. unfold reindex. cbn [columns rows]. rewrite map_map.
  apply map_ext_in. intros r Hr. apply line_item_in_ten_columns, H, Hr.
Qed.

(** X4.  For a TDS Returns document with text and at least one surviving
    table row, the frame has the four field columns followed by the six
    table columns; the field record is the first row and is empty under the
    table columns, and every line item is empty under the field columns:
    the missing cells are empty, not "Not found". *)
Theorem returns_frame_has_ten_columns
    (payment_option : text) (pdf_file : pdf_file) (t : text) (extracted_data : list row) :
  decoded_text pdf_file = Ok t ->
  decoded_rows pdf_file = Ok extracted_data ->
  surviving extracted_data <> [] ->
  exists period date_range form_no date,
    process_document (str "TDS Returns") payment_option pdf_file =
    Ok {| columns := details_schema ++ headers;
          rows :=
            ([Some (VStr period); Some (VStr date_range); Some (VStr form_no);
              Some (VStr date)] ++ [None; None; None; None; None; None])
            :: map (fun r => [None; None; None; None] ++ map cell_of r)
                 (filter (fun r => negb (entirely_empty r))
                    (surviving extracted_data)) |}.
Proof.
  intros Ht Hr Hs.
  erewrite returns_document_frame;
    [| apply (extract_details_decoded _ Ht)
     | rewrite (extract_table_decoded _ Hr), (table_of_rows_surviving _ Hs);
       reflexivity ].
  do 4 eexists.
  change (union_cols (union_cols [] (columns (one_row _))) (columns _))
    with (details_schema ++ headers).
  rewrite line_items_in_ten_columns.
  - reflexivity.
  - intros r Hin. apply filter_In in Hin. apply (surviving_six_cells extracted_data), Hin.
Qed.

(** X5.  When the table extractor gives its Error table, for a decoder
    failure or for want of a six-cell row, the field record is not lost:
    the frame of the document has the four field columns and the column
    Error, the field record in the first row and the message in the
    second. *)
Theorem table_error_keeps_the_field_record
    (payment_option : text) (pdf_file : pdf_file) (t : text) (e : exn) :
  decoded_text pdf_file = Ok t ->
  extract_table_from_pdf pdf_file = Ok (error_frame e) ->
  exists period date_range form_no date,
    process_document (str "TDS Returns") payment_option pdf_file =
    Ok {| columns := details_schema ++ [str "Error"];
          rows := [[Some (VStr period); Some (VStr date_range); Some (VStr form_no);
                    Some (VStr date); None];
                   [None; None; None; None; Some (VStr (str_exn e))]] |}.
Proof.
  intros Ht He.
  erewrite returns_document_frame; [| apply (extract_details_decoded _ Ht) | exact He].
  do 4 eexists. reflexivity.
Qed.
End ReturnsFrame.

Lemma returns_frame_has_ten_columns_witness :
  process_document (rt := ascii_runtime) (str "TDS Returns") [] return_pdf =
  Ok {| columns := details_schema ++ headers;
        rows := [map (fun s => Some (VStr s))
                   [str "Q3"; str "01/10/23 to 31/12/23"; str "26Q"; str "15/01/2024"]
                 ++ [None; None; None; None; None; None];
                 [None; None; None; None] ++ map cell_of (data_row "1");
                 [None; None; None; None] ++ map cell_of (data_row "2")] |}.
Proof.
  destruct (returns_frame_has_ten_columns (rt := ascii_runtime) [] return_pdf
              (t := _) (extracted_data := [header_row; data_row "1"; data_row "2"])
              eq_refl eq_refl) as [p [r [f [d E]]]].
  - discriminate.
  - rewrite E. vm_compute in E. injection E as <- <- <- <-. reflexivity.
Defined.

Lemma table_error_keeps_the_field_record_witness :
  (exists msg,
     process_document (rt := ascii_runtime) (str "TDS Returns") [] no_table_pdf =
     Ok {| columns := details_schema ++ [str "Error"];
           rows := [[Some (VStr (str "Q3")); Some (VStr not_found);
                     Some (VStr not_found); Some (VStr not_found); None];
                    [None; None; None; None; Some (VStr msg)]] |}) /\
  process_document (rt := ascii_runtime) (str "TDS Returns") [] torn_pdf =
  Ok {| columns := details_schema ++ [str "Error"];
        rows := [[Some (VStr (str "Q2")); Some (VStr not_found);
                  Some (VStr not_found); Some (VStr (str "15/01/2024")); None];
                 [None; None; None; None; Some (VStr (str "bad table stream"))]] |}.
Proof.
  split.
  - destruct (table_error_keeps_the_field_record (rt := ascii_runtime) [] no_table_pdf
                (t := str "period Q3") (e := KeyError headers) eq_refl eq_refl)
      as [p [r [f [d E]]]].
    eexists. rewrite E. vm_compute in E. injection E as <- <- <- <-. reflexivity.
  - destruct (table_error_keeps_the_field_record (rt := ascii_runtime) [] torn_pdf
                (t := str "period Q2 Date: 15/01/2024")
                (e := DecoderError (str "bad table stream")) eq_refl eq_refl)
      as [p [r [f [d E]]]].
    rewrite E. vm_compute in E. injection E as <- <- <- <-. reflexivity.
Defined.

(** ** Which lines the bank-receipt parser reads *)

Lemma index_of_nth {A} (l : list A) (i : nat) :
  index l (Z.of_nat i) =
  match nth_error l i with
  | Some a => Ok a
  | None => Raise IndexError
  end.
Proof.
  destruct (Nat.lt_ge_cases i (length l)) as [Hlt|Hge].
  - destruct (index_in_range l Hlt) as [a [Ha Hn]]. rewrite Ha, Hn. reflexivity.
  - rewrite (index_out_of_range l Hge).
    apply nth_error_None in Hge. rewrite Hge. reflexivity.
Qed.

Lemma index_same {A} (l1 l2 : list A) (i : nat) :
  nth_error l1 i = nth_error l2 i -> index l1 (Z.of_nat i) = index l2 (Z.of_nat i).
Proof. intros H. rewrite !index_of_nth, H. reflexivity. Qed.

Lemma split_char_go_app (c : char) (a b : text) :
  forall cur, split_go [c] 0 cur (a ++ c :: b) = split_go [c] 0 cur a ++ split [c] b.
Proof.
  induction a as [|x a IH]; intros cur.
  - cbn [app split_go startswith length Nat.sub]. unfold char_eqb. rewrite N.eqb_refl.
    reflexivity.
  - cbn [app split_go startswith length Nat.sub]. rewrite andb_true_r.
    destruct (char_eqb c x); [cbn [app]; f_equal|]; apply IH.
Qed.

(** Splitting at a one-character separator splits on either side of any one
    occurrence. *)
Lemma split_char_app (c : char) (a b : text) :
  split [c] (a ++ c :: b) = split [c] a ++ split [c] b.
Proof. apply split_char_go_app. Qed.

Section ReceiptLines.
Context {rt : Runtime}.

Lemma parse_hdfc_same_lines (t1 t2 : text) :
  (forall i, In i hdfc_read_lines ->
     nth_error (split newline t1) i = nth_error (split newline t2) i) ->
  parse_hdfc_bank_text t1 = parse_hdfc_bank_text t2.
Proof.
  intros H. unfold parse_hdfc_bank_text. cbv zeta.
  assert (E : forall i, In i hdfc_read_lines ->
                index (split newline t1) (Z.of_nat i) = index (split newline t2) (Z.of_nat i)).
  { intros i Hi. apply index_same, H, Hi. }
  pose proof (E 7) as E7. pose proof (E 9) as E9. pose proof (E 10) as E10.
  pose proof (E 12) as E12. pose proof (E 13) as E13. pose proof (E 14) as E14.
  pose proof (E 15) as E15. pose proof (E 16) as E16. pose proof (E 19) as E19.
  cbn [Z.of_nat Pos.of_succ_nat Pos.succ] in *.
  rewrite E7, E9, E10, E12, E13, E14, E15, E16, E19
    by (unfold hdfc_read_lines; simpl; tauto).
  reflexivity.
Qed.

(** X6.  The bank-receipt parser reads the lines at nine offsets and
    nothing else: two texts that agree on those lines, present or missing,
    give the same record or raise the same exception. *)
Theorem receipt_depends_on_nine_lines (t1 t2 : text) :
  (forall i, In i [7; 9; 10; 12; 13; 14; 15; 16; 19] ->
     nth_error (split newline t1) i = nth_error (split newline t2) i) ->
  parse_hdfc_bank_text t1 = parse_hdfc_bank_text t2.
Proof. apply parse_hdfc_same_lines. Qed.

Lemma parse_hdfc_ignores_the_rest (t more : text) :
  20 <= length (split newline t) ->
  parse_hdfc_bank_text (t ++ newline ++ more) = parse_hdfc_bank_text t.
Proof.
  intros Hl. apply parse_hdfc_same_lines. intros i Hi.
  change (t ++ newline ++ more) with (t ++ 10%N :: more).
  change newline with [10%N]. rewrite split_char_app.
  apply nth_error_app1.
  unfold hdfc_read_lines in Hi. simpl in Hi.
  change newline with [10%N] in Hl. lia.
Qed.

(** X7.  Once the text has twenty lines, whatever follows them on further
    lines is ignored: the result is that of the first twenty lines' text
    alone. *)
Theorem lines_after_the_twentieth_are_ignored (t more : text) :
  20 <= length (split newline t) ->
  parse_hdfc_bank_text (t ++ newline ++ more) = parse_hdfc_bank_text t.
Proof. apply parse_hdfc_ignores_the_rest. Qed.
End ReceiptLines.

Section ReceiptDocument.
Context {rt : Runtime}.

Lemma process_document_hdfc (pdf_file : pdf_file) :
  process_document (str "TDS Payments") (str "HDFC Bank") pdf_file =
  (raw_text <- process_hdfc_bank pdf_file;;
   parsed_data <- parse_hdfc_bank_text raw_text;;
   Ok (one_row (map (fun kv => (fst kv, Some (snd kv))) parsed_data))).
Proof. reflexivity. Qed.

(** X8.  For a bank receipt whose first page has at least twenty lines,
    the frame of the document is the one-row frame of what the parser makes
    of the first page's text: the newline added after each page and all
    later pages do not matter.  Such a frame has the eleven fields as its
    columns and one row. *)
Theorem receipt_frame_is_that_of_the_first_page
    (pdf_file : pdf_file) (pages : list page) (x : text) (xs : list text) :
  plumber_open pdf_file = Ok pages ->
  map extract_text pages = map (fun x => Ok (Some x)) (x :: xs) ->
  20 <= length (split newline x) ->
  process_document (str "TDS Payments") (str "HDFC Bank") pdf_file =
  (parsed_data <- parse_hdfc_bank_text x;;
   Ok (one_row (map (fun kv => (fst kv, Some (snd kv))) parsed_data))) /\
  forall df,
    process_document (str "TDS Payments") (str "HDFC Bank") pdf_file = Ok df ->
    columns df = hdfc_fields /\ length (rows df) = 1.
Proof.
  intros Ho Hp Hl.
  assert (E : process_document (str "TDS Payments") (str "HDFC Bank") pdf_file =
              (parsed_data <- parse_hdfc_bank_text x;;
               Ok (one_row (map (fun kv => (fst kv, Some (snd kv))) parsed_data)))).
  { rewrite process_document_hdfc.
    erewrite process_hdfc_bank_texts by eassumption.
    cbn [bind flat_map]. rewrite <- app_assoc.
    erewrite parse_hdfc_ignores_the_rest by exact Hl. reflexivity. }
  split; [exact E|].
  intros df Hdf. rewrite E in Hdf.
  destruct (parse_hdfc_bank_text x) as [d|e] eqn:Ed; [|discriminate].
  cbn [bind] in Hdf. injection Hdf as <-.
  apply parse_hdfc_ok in Ed. destruct Ed as [_ [K _]].
  split; [|reflexivity]. unfold one_row, keys in *. cbn [columns].
  rewrite map_map. exact K.
Qed.
End ReceiptDocument.

Lemma receipt_frame_is_that_of_the_first_page_witness :
  exists df,
    process_document (rt := ascii_runtime) (str "TDS Payments") (str "HDFC Bank")
      (plumber_pdf "two-page.pdf"
         [(reference_document, []); (str "Page 2 of 2", [])]) = Ok df /\
    columns df = hdfc_fields /\ length (rows df) = 1 /\
    frame_cell df 0 (str "Challan No") = Some (VInt 12345).
Proof.
  destruct (receipt_frame_is_that_of_the_first_page (rt := ascii_runtime)
              (plumber_pdf "two-page.pdf"
                 [(reference_document, []); (str "Page 2 of 2", [])])
              (x := reference_document) (xs := [str "Page 2 of 2"])
              eq_refl eq_refl) as [E H].
  - vm_compute. lia.
  - destruct (process_document (rt := ascii_runtime) (str "TDS Payments") (str "HDFC Bank")
                (plumber_pdf "two-page.pdf"
                   [(reference_document, []); (str "Page 2 of 2", [])])) as [df|e] eqn:Ed.
    + exists df. destruct (H df eq_refl) as [Hc Hr].
      split; [reflexivity|]. split; [exact Hc|]. split; [exact Hr|].
      vm_compute in Ed. injection Ed as <-. reflexivity.
    + vm_compute in Ed. discriminate Ed.
Defined.

Lemma receipt_depends_on_nine_lines_witness :
  parse_hdfc_bank_text (rt := ascii_runtime) relabelled_document
  = parse_hdfc_bank_text (rt := ascii_runtime) reference_document.
Proof.
  apply receipt_depends_on_nine_lines.
  intros i Hi. simpl in Hi.
  repeat (destruct Hi as [<-|Hi]; [vm_compute; reflexivity|]). destruct Hi.
Defined.

Lemma lines_after_the_twentieth_are_ignored_witness :
  parse_hdfc_bank_text (rt := ascii_runtime)
    (reference_document ++ newline ++ str "Page 1 of 1")
  = parse_hdfc_bank_text (rt := ascii_runtime) reference_document.
Proof.
  apply lines_after_the_twentieth_are_ignored. vm_compute. lia.
Defined.

(** ** The record of the prefix scanner *)

Lemma dict_get_none_keys {V} (d : dict V) (k : text) :
  dict_get d k = None <-> ~ In k (keys d).
Proof.
  unfold keys. induction d as [|[k' v] d IH]; simpl.
  - tauto.
  - destruct (text_eqb k' k) eqn:E.
    + apply text_eqb_eq in E. split; [discriminate | intros H; exfalso; apply H; auto].
    + apply text_eqb_neq in E. rewrite IH. tauto.
Qed.

Lemma union_cols_cons (acc : list text) (x : text) (l : list text) :
  union_cols acc (x :: l) = union_cols (if mem x acc then acc else acc ++ [x]) l.
Proof. reflexivity. Qed.

Lemma union_cols_app (acc a b : list text) :
  union_cols acc (a ++ b) = union_cols (union_cols acc a) b.
Proof. unfold union_cols. apply fold_left_app. Qed.

Lemma union_cols_first_appearances (l : list text) :
  forall acc, union_cols acc l = acc ++ first_appearances acc l.
Proof.
  induction l as [|x l IH]; intros acc.
  - simpl. rewrite app_nil_r. reflexivity.
  - rewrite union_cols_cons. cbn [first_appearances].
    destruct (mem x acc); rewrite IH; [reflexivity|].
    rewrite <- app_assoc. reflexivity.
Qed.

Lemma union_cols_In (new acc : list text) (c : text) :
  In c (union_cols acc new) -> In c acc \/ In c new.
Proof.
  revert acc. induction new as [|x new IH]; intros acc H; [left; exact H|].
  rewrite union_cols_cons in H. apply IH in H. destruct H as [H|H]; [|right; right; exact H].
  destruct (mem x acc); [left; exact H|].
  apply in_app_or in H. destruct H as [H|[<-|[]]]; [left; exact H | right; left; reflexivity].
Qed.

Lemma keys_fold_store (lines : list text) :
  forall details,
    keys (fold_left store lines details) = union_cols (keys details) (matched_fields lines).
Proof.
  induction lines as [|line lines IH]; intros details; [reflexivity|].
  cbn [fold_left]. rewrite IH. unfold matched_fields. cbn [flat_map].
  rewrite union_cols_app. f_equal. unfold store.
  destruct (first_match line) as [[k v]|]; [|reflexivity].
  apply keys_dict_set.
Qed.

Lemma matched_fields_In (lines : list text) (field : text) :
  In field (matched_fields lines) <->
  exists line v, In line lines /\ first_match line = Some (field, v).
Proof.
  unfold matched_fields. rewrite in_flat_map. split.
  - intros [line [Hl H]]. destruct (first_match line) as [[k v]|] eqn:E; [|destruct H].
    destruct H as [<-|[]]. eauto.
  - intros [line [v [Hl E]]]. exists line. rewrite E. split; [exact Hl | left; reflexivity].
Qed.

(** X9.  The keys of the record are the fields of the matching lines, each
    at the place of the first line that matches it, so this is the column
    order of the document's frame; and a field is missing from the record
    exactly when no line matches it: nothing stands in for it. *)
Theorem record_keys_follow_first_matching_lines (t : text) :
  exists details,
    parse_income_tax_text t = Ok details /\
    keys details = first_appearances [] (matched_fields (split newline t)) /\
    forall field,
      dict_get details field = None <->
      (forall line, In line (split newline t) ->
                    forall v, first_match line <> Some (field, v)).
Proof.
  exists (scan (split newline t)). split; [apply parse_income_tax_scan|].
  assert (K : keys (scan (split newline t))
              = union_cols [] (matched_fields (split newline t))).
  { unfold scan. apply (keys_fold_store (split newline t) []). }
  split.
  - rewrite K. apply (union_cols_first_appearances _ []).
  - intros field. rewrite dict_get_none_keys, K. split.
    + intros H line Hl v E. apply H. apply union_cols_adds.
      apply matched_fields_In. eauto.
    + intros H Hin. apply union_cols_In in Hin. destruct Hin as [[]|Hin].
      apply matched_fields_In in Hin. destruct Hin as [line [v [Hl E]]].
      apply (H line Hl v E).
Qed.

Lemma record_keys_follow_first_matching_lines_witness :
  exists details,
    parse_income_tax_text (join newline challan_lines) = Ok details /\
    keys details = [str "Nature of Payment"; str "Amount (in Rs.)"; str "Tender Date";
                    str "Interest"] /\
    dict_get details (str "Challan No.") = None /\
    dict_get details (str "TOTAL") = None.
Proof.
  destruct (record_keys_follow_first_matching_lines (join newline challan_lines))
    as [details [E [K A]]].
  exists details. split; [exact E|]. split; [rewrite K; vm_compute; reflexivity|].
  split; apply A; intros line Hl v; vm_compute in Hl;
    repeat (destruct Hl as [<-|Hl]; [vm_compute; discriminate|]); destruct Hl.
Defined.

(** ** What the stored values never hold *)

Lemma split_char_pieces (c : char) (s : text) :
  forall cur p, ~ In c cur -> In p (split_go [c] 0 cur s) -> ~ In c p.
Proof.
  induction s as [|x s IH]; intros cur p Hc Hp.
  - destruct Hp as [<-|[]]. exact Hc.
  - cbn [split_go startswith length Nat.sub] in Hp. rewrite andb_true_r in Hp.
    destruct (char_eqb c x) eqn:E.
    + destruct Hp as [<-|Hp]; [exact Hc|]. apply (IH [] p); [intros []|exact Hp].
    + apply (IH (cur ++ [x]) p); [|exact Hp].
      intros H. apply in_app_or in H. destruct H as [H|[<-|[]]]; [exact (Hc H)|].
      unfold char_eqb in E. rewrite N.eqb_refl in E. discriminate.
Qed.

Lemma split_pieces_chars (sep s : text) :
  forall skip cur p x, In p (split_go sep skip cur s) -> In x p -> In x cur \/ In x s.
Proof.
  induction s as [|y s IH]; intros skip cur p x Hp Hx.
  - destruct Hp as [<-|[]]. left; exact Hx.
  - cbn [split_go] in Hp. destruct skip as [|k].
    + destruct (startswith sep (y :: s)).
      * destruct Hp as [<-|Hp]; [left; exact Hx|].
        destruct (IH _ _ _ _ Hp Hx) as [[]|H]. right; right; exact H.
      * destruct (IH _ _ _ _ Hp Hx) as [H|H]; [|right; right; exact H].
        apply in_app_or in H. destruct H as [H|[<-|[]]]; [left; exact H | right; left; reflexivity].
    + destruct (IH _ _ _ _ Hp Hx) as [H|H]; [left; exact H | right; right; exact H].
Qed.

Lemma last_In {A} (l : list A) (d : A) : l <> [] -> In (last l d) l.
Proof.
  induction l as [|a l IH]; [congruence|]. intros _.
  destruct l as [|b l]; [left; reflexivity|].
  right. apply IH. discriminate.
Qed.

Lemma lstrip_chars (s : text) (x : char) : In x (lstrip s) -> In x s.
Proof.
  destruct (lstrip_suffix s) as [p Hp]. intros H. rewrite Hp.
  apply in_or_app. right; exact H.
Qed.

Lemma strip_chars (s : text) (x : char) : In x (strip s) -> In x s.
Proof.
  unfold strip, rstrip. intros H. apply lstrip_chars in H.
  apply in_rev in H. apply lstrip_chars in H. apply in_rev in H. exact H.
Qed.

(** The text after the last occurrence of a one-character separator holds
    no such character. *)
Lemma after_last_char (c : char) (line : text) :
  ~ In c (strip (last (split [c] line) [])).
Proof.
  intros H. apply strip_chars in H. revert H.
  eapply split_char_pieces; [|apply last_In; apply split_go_nonempty].
  intros [].
Qed.

Lemma startswith_app (sep a b : text) :
  startswith sep a = true -> startswith sep (a ++ b) = true.
Proof.
  revert a. induction sep as [|x sep IH]; intros [|y a] H; simpl in *;
    try reflexivity; try discriminate.
  apply andb_true_iff in H. destruct H as [H1 H2]. rewrite H1. simpl. apply IH, H2.
Qed.

Lemma contains_app_l (sep a b : text) :
  sep <> [] -> contains sep a = true -> contains sep (a ++ b) = true.
Proof.
  intros Hs. induction a as [|y a IH]; intros H.
  - destruct sep; [congruence|]. simpl in H. discriminate.
  - cbn [contains] in H. apply orb_true_iff in H. cbn [app contains].
    apply orb_true_iff. destruct H as [H|H].
    + left. apply (startswith_app _ _ _ H).
    + right. apply IH, H.
Qed.

Lemma contains_app_r (sep a b : text) :
  contains sep b = true -> contains sep (a ++ b) = true.
Proof.
  intros H. induction a as [|y a IH]; [exact H|].
  cbn [app contains]. rewrite IH. apply orb_true_r.
Qed.

Lemma contains_strip (sep s : text) :
  sep <> [] -> contains sep (strip s) = true -> contains sep s = true.
Proof.
  intros Hs H. unfold strip in H.
  destruct (lstrip_suffix (rstrip s)) as [p Hp].
  assert (H1 : contains sep (rstrip s) = true).
  { rewrite Hp. apply contains_app_r, H. }
  destruct (lstrip_suffix (rev s)) as [q Hq].
  assert (E : s = rstrip s ++ rev q).
  { unfold rstrip. rewrite <- rev_app_distr, <- Hq, rev_involutive. reflexivity. }
  rewrite E. apply contains_app_l; assumption.
Qed.

Lemma contains_split (sep s : text) :
  contains sep s = true -> exists a b, s = a ++ b /\ startswith sep b = true.
Proof.
  induction s as [|y s IH]; cbn [contains]; intros H; apply orb_true_iff in H.
  - destruct H as [H|H]; [|discriminate]. exists [], []. auto.
  - destruct H as [H|H]; [exists [], (y :: s); auto|].
    destruct (IH H) as [a [b [-> Hb]]]. exists (y :: a), b. auto.
Qed.

Lemma startswith_nil (sep : text) : sep <> [] -> startswith sep [] = false.
Proof. destruct sep; [congruence | reflexivity]. Qed.

Lemma clear_piece (sep cur s : text) :
  sep <> [] -> clear_of sep cur s -> startswith sep s = true \/ s = [] ->
  contains sep cur = false.
Proof.
  intros Hs Hc Hend. destruct (contains sep cur) eqn:E; [|reflexivity].
  apply contains_split in E. destruct E as [a [b [-> Hb]]].
  assert (Hne : b <> []).
  { intros ->. rewrite (startswith_nil Hs) in Hb. discriminate. }
  pose proof (Hc a b eq_refl Hne) as H.
  rewrite startswith_app in H; [discriminate | exact Hb].
Qed.

(** The piece before the first occurrence of the separator holds no
    occurrence of it. *)
Lemma first_piece_clear (sep s : text) :
  sep <> [] ->
  forall cur, clear_of sep cur s ->
    contains sep (hd [] (split_go sep 0 cur s)) = false.
Proof.
  intros Hs. induction s as [|x s IH]; intros cur Hc.
  - eapply clear_piece; [exact Hs | exact Hc | right; reflexivity].
  - cbn [split_go]. destruct (startswith sep (x :: s)) eqn:E.
    + eapply clear_piece; [exact Hs | exact Hc | left; exact E].
    + apply IH. intros a b Hab Hne.
      destruct (exists_last Hne) as [b' [y ->]].
      rewrite app_assoc in Hab. apply app_inj_tail in Hab. destruct Hab as [Hcur <-].
      rewrite <- app_assoc. cbn [app].
      destruct b' as [|z b']; [exact E|].
      apply (Hc a (z :: b') Hcur). discriminate.
Qed.

Lemma first_piece_without_label (sep s : text) :
  sep <> [] -> contains sep (strip (hd [] (split sep s))) = false.
Proof.
  intros Hs. destruct (contains sep (strip (hd [] (split sep s)))) eqn:E; [|reflexivity].
  apply contains_strip in E; [|exact Hs]. unfold split in E.
  rewrite first_piece_clear in E; [discriminate | exact Hs |].
  intros a b Hab Hne. destruct a; destruct b; simpl in Hab; congruence.
Qed.

(** Where a stored value comes from. *)
Lemma fold_store_In (lines : list text) :
  forall details field v,
    In (field, v) (fold_left store lines details) ->
    In (field, v) details \/
    exists line, In line lines /\ first_match line = Some (field, v).
Proof.
  induction lines as [|line lines IH]; intros details field v H; [left; exact H|].
  cbn [fold_left] in H. apply IH in H. destruct H as [H|[l [Hl E]]].
  - unfold store in H. destruct (first_match line) as [[k w]|] eqn:E; [|left; exact H].
    apply In_dict_set in H. destruct H as [H|H]; [|left; exact H].
    injection H as -> ->. right. exists line. split; [left; reflexivity | exact E].
  - right. exists l. split; [right; exact Hl | exact E].
Qed.

Lemma dict_get_In {V} (d : dict V) (k : text) (v : V) :
  dict_get d k = Some v -> In (k, v) d.
Proof.
  induction d as [|[k' v'] d IH]; simpl; [discriminate|].
  destruct (text_eqb k' k) eqn:E.
  - apply text_eqb_eq in E. intros H. injection H as <-. left. congruence.
  - intros H. right. apply IH, H.
Qed.

Lemma hd_split_In (sep s : text) : In (hd [] (split sep s)) (split_go sep 0 [] s).
Proof.
  destruct (split_nonempty sep s) as [p [ps E]]. rewrite E.
  unfold split in E. rewrite E. left. reflexivity.
Qed.

Lemma tender_date_without_colon (line : text) :
  ~ In 58%N (strip (hd [] (split (str "Tax Breakup Details")
                              (last (split (str ":") line) [])))).
Proof.
  intros Hc. apply strip_chars in Hc.
  assert (Hin : In 58%N [] \/ In 58%N (last (split (str ":") line) [])).
  { eapply split_pieces_chars; [apply hd_split_In | exact Hc]. }
  destruct Hin as [[]|Hin]. revert Hin.
  eapply split_char_pieces; [|apply last_In; apply split_go_nonempty].
  intros [].
Qed.

(** A premise about a field that the case at hand does not have. *)
Ltac other_field Hf := exfalso; revert Hf; vm_compute; intuition discriminate.

Lemma first_match_value (line field v : text) :
  first_match line = Some (field, v) ->
  (In field colon_fields -> ~ In 58%N v) /\
  (In field rupee_fields -> ~ In rupee v) /\
  (field = str "Tender Date" -> contains (str "Tax Breakup Details") v = false).
Proof.
  unfold first_match. intros H.
  destruct (find (fun p => holds (fst (fst p)) line) predicates)
    as [[[p f] x]|] eqn:E; [|discriminate].
  injection H as <- <-. apply find_some in E. destruct E as [E _].
  unfold predicates in E. cbn [In] in E.
  repeat match type of E with
         | _ \/ _ => destruct E as [E|E]
         end;
    try contradiction;
    apply pair_equal_spec in E; destruct E as [E <-];
    apply pair_equal_spec in E; destruct E as [_ <-];
    cbn [extract];
    (split; [|split]); intros Hf;
    first [ apply after_last_char
          | apply tender_date_without_colon
          | apply first_piece_without_label; discriminate
          | discriminate Hf
          | other_field Hf ].
Qed.

(** X10.  Whatever the text, a value stored for a colon-delimited field
    holds no colon, a value stored for a currency field holds no rupee
    sign, and the stored tender date holds no "Tax Breakup Details". *)
Theorem stored_values_hold_no_delimiter (t : text) :
  exists details,
    parse_income_tax_text t = Ok details /\
    forall field v,
      dict_get details field = Some v ->
      (In field colon_fields -> ~ In 58%N v) /\
      (In field rupee_fields -> ~ In rupee v) /\
      (field = str "Tender Date" -> contains (str "Tax Breakup Details") v = false).
Proof.
  exists (scan (split newline t)). split; [apply parse_income_tax_scan|].
  intros field v H. apply dict_get_In in H. unfold scan in H.
  apply fold_store_In in H. destruct H as [[]|[line [_ E]]].
  apply (first_match_value _ E).
Qed.

Lemma stored_values_hold_no_delimiter_witness :
  exists details,
    parse_income_tax_text (join newline challan_lines) = Ok details /\
    dict_get details (str "Tender Date") = Some (str "05/01/2024") /\
    contains (str "Tax Breakup Details") (str "05/01/2024") = false /\
    ~ In 58%N (str "05/01/2024").
Proof.
  destruct (stored_values_hold_no_delimiter (join newline challan_lines))
    as [details [E H]].
  exists details. split; [exact E|].
  assert (G : dict_get details (str "Tender Date") = Some (str "05/01/2024")).
  { vm_compute in E. injection E as <-. reflexivity. }
  split; [exact G|]. destruct (H _ _ G) as [Hc [_ Ht]].
  split; [apply Ht; reflexivity|]. apply Hc. vm_compute. tauto.
Defined.

(** ** The page after the loop *)

Section PageOutcome.
Context {rt : Runtime}.

Lemma process_file_counts (option payment_option : text) (st : session) (f : pdf_file) :
  length (extracted_data (process_file option payment_option st f))
  + length (errors (process_file option payment_option st f))
  = S (length (extracted_data st) + length (errors st)).
Proof.
  unfold process_file. destruct (process_document option payment_option f);
    cbn [extracted_data errors]; rewrite length_app; simpl; lia.
Qed.

Lemma loop_counts (option payment_option : text) (uploaded_files : list pdf_file) :
  forall st,
    length (extracted_data (fold_left (process_file option payment_option) uploaded_files st))
    + length (errors (fold_left (process_file option payment_option) uploaded_files st))
    = length (extracted_data st) + length (errors st) + length uploaded_files.
Proof.
  induction uploaded_files as [|f fs IH]; intros st; simpl; [lia|].
  rewrite IH, process_file_counts. lia.
Qed.

(** The loop leaves [extracted_data] empty exactly when every document
    raised. *)
Lemma loop_empty_iff (option payment_option : text) (uploaded_files : list pdf_file) :
  forall st,
    extracted_data (fold_left (process_file option payment_option) uploaded_files st) = []
    <-> extracted_data st = [] /\
        forall f, In f uploaded_files -> raises (process_document option payment_option f).
Proof.
  induction uploaded_files as [|f fs IH]; intros st; cbn [fold_left].
  - split; [intros H; split; [exact H | intros f []] | tauto].
  - rewrite IH. unfold process_file.
    destruct (process_document option payment_option f) as [df|e] eqn:E;
      cbn [extracted_data].
    + split.
      * intros [H _]. destruct (extracted_data st); discriminate.
      * intros [_ H]. destruct (H f (or_introl eq_refl)) as [e He]. congruence.
    + split.
      * intros [H1 H2]. split; [exact H1|]. intros g [<-|Hg]; [exists e; exact E | auto].
      * intros [H1 H2]. split; [exact H1|]. intros g Hg. apply H2. right; exact Hg.
Qed.
End PageOutcome.

Section PageShows.
Context {rt : Runtime} {io : Outputs}.

(** X11.  Without a click on the button or without files the page shows
    the upload hint.  Otherwise every document ends as exactly one frame or
    one error message; when every document raised, the page shows the
    warning after one message per document.  When at least one document
    gave a frame, the concatenation of the collected frames, which has all
    their rows, is handed to the table widget and then, unchanged, to the
    workbook writer: the page ends with the table and the workbook when
    both calls return, and with the exception of the first of them that
    raises, which nothing catches.  No other exception leaves the page. *)
Theorem page_shows_hint_warning_or_table
    (submit : bool) (option payment_option : text) (uploaded_files : list pdf_file) :
  (submit = false \/ uploaded_files = [] ->
   main_section submit option payment_option uploaded_files = Ok ShowInfo) /\
  (submit = true -> uploaded_files <> [] ->
   length (extracted_data (main_loop option payment_option uploaded_files))
   + length (errors (main_loop option payment_option uploaded_files))
   = length uploaded_files /\
   ((forall f, In f uploaded_files ->
               raises (process_document option payment_option f)) ->
    main_section submit option payment_option uploaded_files
    = Ok (ShowWarning (errors (main_loop option payment_option uploaded_files))) /\
    length (errors (main_loop option payment_option uploaded_files))
    = length uploaded_files) /\
   ((exists f, In f uploaded_files /\
               returns (process_document option payment_option f)) ->
    exists final,
      final_combined_df (main_loop option payment_option uploaded_files)
      = Some (Ok final) /\
      length (rows final)
      = total_rows (extracted_data (main_loop option payment_option uploaded_files)) /\
      main_section submit option payment_option uploaded_files
      = (_ <- st_dataframe final;;
         excel_data <- to_excel final;;
         Ok (ShowData (errors (main_loop option payment_option uploaded_files))
               final excel_data)))).
Proof.
  split.
  - intros [-> | ->]; [reflexivity|]. unfold main_section. simpl.
    rewrite andb_false_r. reflexivity.
  - intros -> Hne.
    assert (Hgate : true && negb (length uploaded_files =? 0) = true).
    { destruct uploaded_files; [congruence | reflexivity]. }
    pose proof (loop_counts option payment_option uploaded_files
                  {| extracted_data := []; errors := [] |}) as Hcount.
    pose proof (loop_empty_iff option payment_option uploaded_files
                  {| extracted_data := []; errors := [] |}) as Hempty.
    fold (main_loop option payment_option uploaded_files) in Hcount, Hempty.
    cbn [extracted_data errors length] in Hcount, Hempty.
    split; [lia|]. split.
    + intros Hall.
      assert (He : extracted_data (main_loop option payment_option uploaded_files) = []).
      { apply Hempty. split; [reflexivity | exact Hall]. }
      unfold main_section. rewrite Hgate. cbv zeta. rewrite He.
      split; [reflexivity|]. rewrite He in Hcount. simpl in Hcount. lia.
    + intros [f [Hf [df Hdf]]].
      unfold final_combined_df, main_section. rewrite Hgate. cbv zeta.
      destruct (extracted_data (main_loop option payment_option uploaded_files))
        as [|d ds] eqn:He.
      * exfalso. destruct Hempty as [Hall _]. destruct (Hall eq_refl) as [_ Hr].
        destruct (Hr f Hf) as [e He']. congruence.
      * assert (Hd : d :: ds <> []) by discriminate.
        pose proof (pd_concat_nonempty Hd) as Ec.
        eexists. split; [rewrite Ec; reflexivity|]. split.
        -- eapply pd_concat_length; eassumption.
        -- rewrite Ec. cbn [bind]. unfold save_to_excel.
           destruct (pd_concat_well_formed _ Ec) as [Hn Hl].
           rewrite pd_concat_single by assumption. reflexivity.
Qed.
End PageShows.

Lemma page_shows_hint_warning_or_table_witness :
  (exists final,
     main_section (rt := ascii_runtime) (io := accepting_outputs)
       true (str "TDS Payments") (str "HDFC Bank")
       [receipt_pdf "first.pdf" reference_lines;
        receipt_pdf "cut.pdf" (firstn 10 reference_lines)]
     = Ok (ShowData [str "Error processing 'cut.pdf': list index out of range"]
             final [1%N]) /\
     length (rows final) = 1) /\
  main_section (rt := ascii_runtime) (io := refusing_outputs)
    true (str "TDS Payments") (str "HDFC Bank")
    [receipt_pdf "first.pdf" reference_lines;
     receipt_pdf "cut.pdf" (firstn 10 reference_lines)]
  = Raise (ValueError (str "Could not convert the table")) /\
  main_section (rt := ascii_runtime) (io := accepting_outputs)
    true (str "TDS Payments") (str "HDFC Bank")
    [receipt_pdf "cut.pdf" (firstn 10 reference_lines)]
  = Ok (ShowWarning [str "Error processing 'cut.pdf': list index out of range"]).
Proof.
  assert (Hfirst : exists f,
            In f [receipt_pdf "first.pdf" reference_lines;
                  receipt_pdf "cut.pdf" (firstn 10 reference_lines)] /\
            returns (process_document (rt := ascii_runtime) (str "TDS Payments")
                       (str "HDFC Bank") f)).
  { exists (receipt_pdf "first.pdf" reference_lines).
    split; [left; reflexivity|]. eexists. vm_compute. reflexivity. }
  split; [|split].
  - destruct (page_shows_hint_warning_or_table (rt := ascii_runtime)
                (io := accepting_outputs) true
                (str "TDS Payments") (str "HDFC Bank")
                [receipt_pdf "first.pdf" reference_lines;
                 receipt_pdf "cut.pdf" (firstn 10 reference_lines)]) as [_ H].
    destruct (H eq_refl) as [_ [_ H']]; [discriminate|].
    destruct (H' Hfirst) as [final [_ [L E]]].
    exists final. split; [|rewrite L; vm_compute; reflexivity].
    rewrite E. cbn [bind st_dataframe to_excel accepting_outputs].
    rewrite L. vm_compute. reflexivity.
  - destruct (page_shows_hint_warning_or_table (rt := ascii_runtime)
                (io := refusing_outputs) true
                (str "TDS Payments") (str "HDFC Bank")
                [receipt_pdf "first.pdf" reference_lines;
                 receipt_pdf "cut.pdf" (firstn 10 reference_lines)]) as [_ H].
    destruct (H eq_refl) as [_ [_ H']]; [discriminate|].
    destruct (H' Hfirst) as [final [_ [_ E]]].
    rewrite E. reflexivity.
  - destruct (page_shows_hint_warning_or_table (rt := ascii_runtime)
                (io := accepting_outputs) true
                (str "TDS Payments") (str "HDFC Bank")
                [receipt_pdf "cut.pdf" (firstn 10 reference_lines)]) as [_ H].
    destruct (H eq_refl) as [_ [H' _]]; [discriminate|].
    destruct H' as [E _].
    + intros f [<-|[]]. eexists. vm_compute. reflexivity.
    + exact E.
Defined.

(** ** The columns of a concatenation *)

Lemma all_columns_flat (objs : list DataFrame) :
  forall acc,
    fold_left (fun a df => union_cols a (columns df)) objs acc
    = union_cols acc (flat_map columns objs).
Proof.
  induction objs as [|df objs IH]; intros acc; [reflexivity|].
  cbn [fold_left flat_map]. rewrite union_cols_app. apply IH.
Qed.

Lemma position_None (cols : list text) (c : text) :
  ~ In c cols -> position c cols = None.
Proof.
  induction cols as [|x cols IH]; intros H; [reflexivity|].
  simpl. destruct (text_eqb x c) eqn:E.
  - apply text_eqb_eq in E. exfalso. apply H. left; exact E.
  - rewrite IH; [reflexivity|]. intros Hc. apply H. right; exact Hc.
Qed.

(** X12.  The columns of a concatenation are the labels of the frames in
    the order they first appear, each once; every row is as long as the
    columns; and a row has a missing cell under every column its own frame
    does not have. *)
Theorem concatenation_fills_foreign_columns_with_missing
    (before after : list DataFrame) (A T : DataFrame) :
  pd_concat (before ++ A :: after) = Ok T ->
  columns T = first_appearances [] (flat_map columns (before ++ A :: after)) /\
  NoDup (columns T) /\
  (forall r, In r (rows T) -> length r = length (columns T)) /\
  (forall i c, i < length (rows A) -> ~ In c (columns A) ->
     frame_cell T (total_rows before + i) c = None).
Proof.
  intros H. destruct (pd_concat_well_formed _ H) as [Hn Hl].
  split; [|split; [exact Hn|split; [exact Hl|]]].
  - apply pd_concat_ok in H. destruct H as [_ ->].
    cbn [columns]. rewrite all_columns_flat.
    apply (union_cols_first_appearances _ []).
  - intros i c Hi Hc. unfold frame_cell.
    erewrite pd_concat_row by eassumption.
    destruct (in_dec (list_eq_dec N.eq_dec) c (columns T)) as [Hin|Hout].
    + rewrite (cell_under_reindexed _
                 (fun c => astype (concat_dtype (before ++ A :: after) c)
                             (cell_under (columns A) (nth i (rows A) []) c)) c Hin).
      unfold cell_under at 1. rewrite (position_None (columns A) c Hc).
      apply astype_missing.
    + unfold cell_under at 1. rewrite (position_None (columns T) c Hout). reflexivity.
Qed.

Lemma concatenation_fills_foreign_columns_with_missing_witness :
  exists T,
    pd_concat [one_row [(str "Period", Some (VStr (str "Q3")))];
               {| columns := [str "Error"; str "Period"];
                  rows := [[Some (VStr (str "no table")); None]] |}] = Ok T /\
    columns T = [str "Period"; str "Error"] /\
    frame_cell T 0 (str "Error") = None.
Proof.
  destruct (pd_concat [one_row [(str "Period", Some (VStr (str "Q3")))];
               {| columns := [str "Error"; str "Period"];
                  rows := [[Some (VStr (str "no table")); None]] |}]) as [T|e] eqn:E;
    [|vm_compute in E; discriminate E].
  exists T. split; [reflexivity|].
  destruct (concatenation_fills_foreign_columns_with_missing
              [] [{| columns := [str "Error"; str "Period"];
                     rows := [[Some (VStr (str "no table")); None]] |}]
              (one_row [(str "Period", Some (VStr (str "Q3")))]) E)
    as [Hc [_ [_ Hm]]].
  split.
  - rewrite Hc. vm_compute. reflexivity.
  - apply (Hm 0 (str "Error")).
    + simpl. lia.
    + vm_compute. intros [H|[]]. discriminate H.
Defined.

(** ** A header line repeated further down the table *)

Section RepeatedHeader.
Context {rt : Runtime}.

(** X13.  Only the first six-cell row can be taken for the header.  When
    the decoder gives at least two six-cell rows, every six-cell row after
    the first that is not empty throughout is a row of the table, whatever
    its first cell says; a header line repeated on a later page stays in
    the table as data. *)
Theorem only_the_first_header_line_is_removed
    (pdf_path : pdf_file) (extracted_data : list row) (first second : row)
    (rest : list row) :
  decoded_rows pdf_path = Ok extracted_data ->
  filter six_cells extracted_data = first :: second :: rest ->
  exists df,
    extract_table_from_pdf pdf_path = Ok df /\
    columns df = headers /\
    (forall r, In r (second :: rest) -> entirely_empty r = false ->
               In (map cell_of r) (rows df)) /\
    (In header_row (second :: rest) -> In (map cell_of header_row) (rows df)).
Proof.
  intros Hd Hf.
  assert (Hs : exists keep, surviving extracted_data = keep /\
                            incl (second :: rest) keep /\ keep <> []).
  { unfold surviving. rewrite Hf. destruct (starts_with_label first).
    - eexists; split; [reflexivity|]. split; [apply incl_refl | discriminate].
    - eexists; split; [reflexivity|]. split; [apply incl_tl, incl_refl | discriminate]. }
  destruct Hs as [keep [Hk [Hi Hne]]].
  rewrite (extract_table_decoded _ Hd).
  rewrite table_of_rows_surviving by (rewrite Hk; exact Hne).
  rewrite Hk. cbn [try_except].
  assert (Hall : forall r, In r (second :: rest) -> entirely_empty r = false ->
            In (map cell_of r)
               (map (map cell_of) (filter (fun r => negb (entirely_empty r)) keep))).
  { intros r Hr He. apply in_map. apply filter_In. split; [apply Hi, Hr|].
    rewrite He. reflexivity. }
  eexists. split; [reflexivity|]. cbn [columns rows].
  split; [reflexivity|]. split; [exact Hall|].
  intros Hh. apply Hall; [exact Hh | reflexivity].
Qed.
End RepeatedHeader.

Lemma only_the_first_header_line_is_removed_witness :
  exists df,
    extract_table_from_pdf (rt := ascii_runtime) two_page_pdf = Ok df /\
    length (rows df) = 3 /\
    In (map cell_of header_row) (rows df).
Proof.
  destruct (only_the_first_header_line_is_removed (rt := ascii_runtime)
              two_page_pdf
              (extracted_data :=
                 [header_row; data_row "1"; [Some (str "short")]; empty_row;
                  header_row; data_row "2"; data_row "2" ++ [None]])
              (first := header_row) (second := data_row "1")
              (rest := [empty_row; header_row; data_row "2"])
              eq_refl eq_refl) as [df [E [_ [_ H]]]].
  exists df. split; [exact E|]. split.
  - vm_compute in E. injection E as <-. reflexivity.
  - apply H. simpl. tauto.
Defined.

(** ** The pages of a challan *)

Lemma split_char_go_cur (c : char) (s : text) :
  forall cur,
    split_go [c] 0 cur s
    = (cur ++ hd [] (split [c] s)) :: tl (split [c] s).
Proof.
  unfold split. induction s as [|x s IH]; intros cur.
  - simpl. rewrite app_nil_r. reflexivity.
  - cbn [split_go startswith length Nat.sub]. rewrite andb_true_r.
    destruct (char_eqb c x).
    + cbn [hd tl]. rewrite app_nil_r. reflexivity.
    + rewrite (IH (cur ++ [x])), (IH ([] ++ [x])). cbn [hd tl app].
      rewrite <- app_assoc. reflexivity.
Qed.

Lemma split_char_go_join (c : char) (a b : text) :
  forall cur,
    split_go [c] 0 cur (a ++ b)
    = removelast (split_go [c] 0 cur a)
      ++ split_go [c] 0 (last (split_go [c] 0 cur a) []) b.
Proof.
  induction a as [|x a IH]; intros cur.
  - reflexivity.
  - cbn [app split_go startswith length Nat.sub]. rewrite andb_true_r.
    destruct (char_eqb c x).
    + rewrite IH.
      pose proof (@split_go_nonempty [c] a 0 []) as Hne.
      destruct (split_go [c] 0 [] a) as [|p ps] eqn:E; [congruence|].
      reflexivity.
    + apply IH.
Qed.

(** Text put together from two parts: the last line of the first part and
    the first line of the second are one line. *)
Lemma split_char_join (c : char) (a b : text) :
  split [c] (a ++ b)
  = removelast (split [c] a)
    ++ (last (split [c] a) [] ++ hd [] (split [c] b)) :: tl (split [c] b).
Proof.
  unfold split at 1. rewrite split_char_go_join. fold (split [c] a).
  apply f_equal. apply split_char_go_cur.
Qed.

Section ChallanPages.
Context {rt : Runtime}.

Lemma income_tax_text_raised (reader : list (result text)) (e : exn) :
  fold_left (fun acc p => t <- acc;; x <- p;; Ok (t ++ x)) reader (Raise e)
  = Raise e.
Proof. induction reader as [|p reader IH]; [reflexivity | exact IH]. Qed.

Lemma income_tax_text_from (texts : list text) (rest : list (result text)) :
  forall t,
    fold_left (fun acc p => t <- acc;; x <- p;; Ok (t ++ x))
      (map Ok texts ++ rest) (Ok t)
    = fold_left (fun acc p => t <- acc;; x <- p;; Ok (t ++ x))
        rest (Ok (t ++ concat texts)).
Proof.
  induction texts as [|x texts IH]; intros t.
  - simpl. rewrite app_nil_r. reflexivity.
  - cbn [map app fold_left bind concat]. rewrite IH, app_assoc. reflexivity.
Qed.

(** X14.  The texts of the pages of a challan are put together with
    nothing in between, so the last line of a page and the first line of
    the next are scanned as one line; the document then always gives its
    one-row frame.  A page that cannot be read ends the document with that
    page's exception, whatever the pages before held. *)
Theorem challan_pages_are_joined_without_a_break
    (pdf_file : pdf_file) (texts : list text) (rest : list (result text)) :
  pypdf_pages pdf_file = Ok (map Ok texts ++ rest) ->
  (rest = [] ->
   process_income_tax pdf_file = Ok (concat texts) /\
   process_document (str "TDS Payments") (str "Income Tax Department") pdf_file
   = Ok (one_row (map (fun kv => (fst kv, Some (VStr (snd kv))))
                    (scan (split newline (concat texts)))))) /\
  (forall a b, concat texts = a ++ b ->
     split newline (concat texts)
     = removelast (split newline a)
       ++ (last (split newline a) [] ++ hd [] (split newline b))
          :: tl (split newline b)) /\
  (forall e more, rest = Raise e :: more ->
     process_income_tax pdf_file = Raise e /\
     process_document (str "TDS Payments") (str "Income Tax Department") pdf_file
     = Raise e).
Proof.
  intros Hp.
  assert (Hall : rest = [] -> process_income_tax pdf_file = Ok (concat texts)).
  { intros ->. unfold process_income_tax. rewrite Hp. cbn [bind].
    rewrite income_tax_text_from. reflexivity. }
  assert (Hbad : forall e more, rest = Raise e :: more ->
                   process_income_tax pdf_file = Raise e).
  { intros e more ->. unfold process_income_tax. rewrite Hp. cbn [bind].
    rewrite income_tax_text_from. cbn [fold_left bind].
    apply income_tax_text_raised. }
  split; [|split].
  - intros Hr. split; [apply Hall, Hr|].
    rewrite process_document_income_tax, (Hall Hr). cbn [bind].
    rewrite parse_income_tax_scan. reflexivity.
  - intros a b ->. apply split_char_join.
  - intros e more Hr. split; [eapply Hbad, Hr|].
    rewrite process_document_income_tax, (Hbad _ _ Hr). reflexivity.
Qed.
End ChallanPages.

Lemma challan_pages_are_joined_without_a_break_witness :
  process_income_tax
    {| name := str "torn.pdf";
       plumber_open := Raise (DecoderError (str "not opened"));
       pypdf_pages := Ok [Ok (str "Challan No: 000"); Ok (str "42" ++ newline ++ str "DInterest");
                          Ok ([rupee] ++ str " 250")] |}
  = Ok (str "Challan No: 00042" ++ newline ++ str "DInterest" ++ [rupee] ++ str " 250") /\
  process_document (rt := ascii_runtime) (str "TDS Payments") (str "Income Tax Department")
    {| name := str "torn.pdf";
       plumber_open := Raise (DecoderError (str "not opened"));
       pypdf_pages := Ok [Ok (str "Challan No: 000"); Ok (str "42" ++ newline ++ str "DInterest");
                          Ok ([rupee] ++ str " 250")] |}
  = Ok {| columns := [str "Challan No."; str "Interest"];
          rows := [[Some (VStr (str "00042")); Some (VStr (str "250"))]] |}.
Proof.
  destruct (challan_pages_are_joined_without_a_break (rt := ascii_runtime)
              {| name := str "torn.pdf";
                 plumber_open := Raise (DecoderError (str "not opened"));
                 pypdf_pages := Ok [Ok (str "Challan No: 000");
                                    Ok (str "42" ++ newline ++ str "DInterest");
                                    Ok ([rupee] ++ str " 250")] |}
              [str "Challan No: 000"; str "42" ++ newline ++ str "DInterest";
               [rupee] ++ str " 250"] [] eq_refl) as [H _].
  destruct (H eq_refl) as [E1 E2]. split.
  - rewrite E1. reflexivity.
  - rewrite E2. vm_compute. reflexivity.
Defined.
